(** * NAS Monitor configuration editor: the settings store

    A shallow embedding of the settings store of [src/nas-config-gui.c]
    (the [Config] structure, [set_defaults], [load_config], [save_config]
    and the two device-list handlers [on_add_nas_clicked] and
    [on_remove_nas_clicked]), followed by the properties of its
    specification.

    Conventions of the embedding.
    - A C string is the [string] of its bytes before the terminating NUL.
      File contents and [fgets] buffers are raw byte strings and may hold
      NUL bytes; [c_str] takes the C string out of a buffer.
    - A C [int] is a [Z]; the places where a value is converted to [int]
      ([atoi]) write the conversion out.
    - The file system is a finite map from paths to contents.
    - A line of a file is what the reading loop handles in one turn: what
      one call of [fgets] stores (up to a newline, at most [MAX_LINE - 1]
      bytes), with its newline cut ([file_lines]). A longer line of text
      is read in pieces, each handled as a line. *)

From Stdlib Require Import ZArith Lia Ascii String List Bool.
From stdpp Require Import base list strings gmap.

Local Arguments String.append !_ _ /.
Local Arguments Ascii.eqb : simpl never.

(** ** The C library functions the program calls *)

Module Libc.

Definition NUL : ascii := "000"%char.
Definition TAB : ascii := "009"%char.
Definition LF : ascii := "010"%char.

(** The one-character string ["\n"]. *)
Definition nl : string := String LF "".

Definition strlen (s : string) : nat := String.length s.

(** The C string stored in a buffer: its bytes up to the first NUL. *)
Fixpoint c_str (buf : string) : string :=
  match buf with
  | "" => ""
  | String a r => if Ascii.eqb a NUL then "" else String a (c_str r)
  end.

Fixpoint string_take (n : nat) (s : string) : string :=
  match n, s with
  | S n', String a r => String a (string_take n' r)
  | _, _ => ""
  end.

Fixpoint string_drop (n : nat) (s : string) : string :=
  match n, s with
  | S n', String _ r => string_drop n' r
  | _, _ => s
  end.

(** [strchr s c]: offset of the first [c] in [s], [None] for NULL. *)
Fixpoint strchr (s : string) (c : ascii) : option nat :=
  match s with
  | "" => None
  | String a r => if Ascii.eqb a c then Some 0%nat else S <$> strchr r c
  end.

Fixpoint is_prefix (p s : string) : bool :=
  match p, s with
  | "", _ => true
  | String a p', String b s' => Ascii.eqb a b && is_prefix p' s'
  | String _ _, "" => false
  end.

(** [strstr hay needle]: offset of the first occurrence, [None] for NULL. *)
Fixpoint strstr (hay needle : string) : option nat :=
  if is_prefix needle hay then Some 0%nat
  else match hay with
       | "" => None
       | String _ r => S <$> strstr r needle
       end.

Fixpoint char_in (a : ascii) (set : string) : bool :=
  match set with
  | "" => false
  | String b r => Ascii.eqb a b || char_in a r
  end.

(** [strspn s accept]: length of the longest prefix of [s] made of
    bytes of [accept]. *)
Fixpoint strspn (s accept : string) : nat :=
  match s with
  | "" => 0%nat
  | String a r => if char_in a accept then S (strspn r accept) else 0%nat
  end.

(** [strcmp a b == 0]. *)
Definition strcmp_eq (a b : string) : bool := String.eqb a b.

(** [strncpy(dest, src, n)] into a zeroed buffer of more than [n]
    bytes whose byte [n] is never written: the C string left in [dest]
    is the first [n] bytes of [src]. *)
Definition strncpy (src : string) (n : nat) : string := string_take n src.

(** [strcpy(dest, src)]. *)
Definition strcpy (src : string) : string := src.

Definition isspace (a : ascii) : bool :=
  let n := nat_of_ascii a in
  (n =? 32)%nat || ((9 <=? n)%nat && (n <=? 13)%nat).

Definition isdigit (a : ascii) : bool :=
  let n := nat_of_ascii a in (48 <=? n)%nat && (n <=? 57)%nat.

Definition digit_value (a : ascii) : Z :=
  (Z.of_nat (nat_of_ascii a) - 48)%Z.

Fixpoint skip_space (s : string) : string :=
  match s with
  | String a r => if isspace a then skip_space r else s
  | "" => ""
  end.

(** The digit loop of [strtol] in base ten. *)
Fixpoint scan_digits (acc : Z) (s : string) : Z :=
  match s with
  | String a r =>
      if isdigit a then scan_digits (acc * 10 + digit_value a)%Z r else acc
  | "" => acc
  end.

Definition LONG_MAX : Z := (2 ^ 63 - 1)%Z.
Definition LONG_MIN : Z := (- 2 ^ 63)%Z.
Definition INT_MAX : Z := (2 ^ 31 - 1)%Z.
Definition INT_MIN : Z := (- 2 ^ 31)%Z.

(** [strtol(s, NULL, 10)]: white space, an optional sign, digits; the
    result saturates at the bounds of [long]. *)
Definition strtol10 (s : string) : Z :=
  let t := skip_space s in
  let v :=
    match t with
    | String a r =>
        if Ascii.eqb a "-" then (- scan_digits 0 r)%Z
        else if Ascii.eqb a "+" then scan_digits 0 r
        else scan_digits 0 t
    | "" => 0%Z
    end in
  Z.max LONG_MIN (Z.min LONG_MAX v).

(** Conversion of a [long] to [int]: reduction modulo 2^32 into the
    range of [int]. *)
Definition int_of_long (z : Z) : Z :=
  ((z + 2 ^ 31) mod 2 ^ 32 - 2 ^ 31)%Z.

(** [atoi(s)] is [(int) strtol(s, NULL, 10)] (glibc); ISO C leaves the
    result undefined when the number does not fit an [int]. *)
Definition atoi (s : string) : Z := int_of_long (strtol10 s).

(** [fgets] reads bytes into the buffer until it has stored [n] of
    them or has stored a newline or the stream ends: the bytes read, and
    the rest of the stream. *)
Fixpoint read_chunk (n : nat) (stream : string) : string * string :=
  match n, stream with
  | S n', String a r =>
      if Ascii.eqb a LF then (String a "", r)
      else let '(buf, rest) := read_chunk n' r in (String a buf, rest)
  | _, _ => ("", stream)
  end.

(** [fgets(buf, size, file)]: [None] (NULL) at end of file, else the
    at most [size - 1] bytes stored and the stream left to read. *)
Definition fgets (size : nat) (stream : string) : option (string * string) :=
  match stream with
  | "" => None
  | _ => Some (read_chunk (size - 1) stream)
  end.

Definition digit_char (d : Z) : ascii := ascii_of_nat (48 + Z.to_nat d).

(** The decimal digits of [n >= 0], most significant first, put before
    [acc]. *)
Fixpoint put_digits (fuel : nat) (n : Z) (acc : string) : string :=
  match fuel with
  | O => acc
  | S fuel' =>
      let acc' := String (digit_char (n mod 10)%Z) acc in
      if (n / 10 =? 0)%Z then acc' else put_digits fuel' (n / 10)%Z acc'
  end.

(** The [%d] conversion of [printf]. *)
Definition fmt_d (z : Z) : string :=
  if (z <? 0)%Z
  then String "-" (put_digits (S (Z.to_nat (Z.log2 (- z)))) (- z)%Z "")
  else put_digits (S (Z.to_nat (Z.log2 z))) z "".

(** The [%s] conversion of [printf]. *)
Definition fmt_s (s : string) : string := s.

End Libc.

Import Libc.

(** ** The configuration structure *)

Definition MAX_LINE : nat := 1024.
Definition MAX_NAS_DEVICES : Z := 10.

(** [Config]: [nas_devices] is the array of [MAX_NAS_DEVICES] buffers,
    of which the first [nas_count] are in use. *)
Record Config : Type := mkConfig {
  config_path : string;
  home_networks : string;
  nas_devices : list string;
  nas_count : Z;
  home_ac_interval : Z;
  home_battery_interval : Z;
  away_ac_interval : Z;
  away_battery_interval : Z;
  max_failed_attempts : Z;
  min_battery_level : Z;
  enable_notifications : bool
}.

Definition set_config_path (v : string) (c : Config) : Config :=
  mkConfig v (home_networks c) (nas_devices c) (nas_count c)
    (home_ac_interval c) (home_battery_interval c) (away_ac_interval c)
    (away_battery_interval c) (max_failed_attempts c) (min_battery_level c)
    (enable_notifications c).

Definition set_home_networks (v : string) (c : Config) : Config :=
  mkConfig (config_path c) v (nas_devices c) (nas_count c)
    (home_ac_interval c) (home_battery_interval c) (away_ac_interval c)
    (away_battery_interval c) (max_failed_attempts c) (min_battery_level c)
    (enable_notifications c).

Definition set_nas_devices (v : list string) (c : Config) : Config :=
  mkConfig (config_path c) (home_networks c) v (nas_count c)
    (home_ac_interval c) (home_battery_interval c) (away_ac_interval c)
    (away_battery_interval c) (max_failed_attempts c) (min_battery_level c)
    (enable_notifications c).

Definition set_nas_count (v : Z) (c : Config) : Config :=
  mkConfig (config_path c) (home_networks c) (nas_devices c) v
    (home_ac_interval c) (home_battery_interval c) (away_ac_interval c)
    (away_battery_interval c) (max_failed_attempts c) (min_battery_level c)
    (enable_notifications c).

Definition set_home_ac_interval (v : Z) (c : Config) : Config :=
  mkConfig (config_path c) (home_networks c) (nas_devices c) (nas_count c)
    v (home_battery_interval c) (away_ac_interval c)
    (away_battery_interval c) (max_failed_attempts c) (min_battery_level c)
    (enable_notifications c).

Definition set_home_battery_interval (v : Z) (c : Config) : Config :=
  mkConfig (config_path c) (home_networks c) (nas_devices c) (nas_count c)
    (home_ac_interval c) v (away_ac_interval c)
    (away_battery_interval c) (max_failed_attempts c) (min_battery_level c)
    (enable_notifications c).

Definition set_away_ac_interval (v : Z) (c : Config) : Config :=
  mkConfig (config_path c) (home_networks c) (nas_devices c) (nas_count c)
    (home_ac_interval c) (home_battery_interval c) v
    (away_battery_interval c) (max_failed_attempts c) (min_battery_level c)
    (enable_notifications c).

Definition set_away_battery_interval (v : Z) (c : Config) : Config :=
  mkConfig (config_path c) (home_networks c) (nas_devices c) (nas_count c)
    (home_ac_interval c) (home_battery_interval c) (away_ac_interval c)
    v (max_failed_attempts c) (min_battery_level c)
    (enable_notifications c).

Definition set_max_failed_attempts (v : Z) (c : Config) : Config :=
  mkConfig (config_path c) (home_networks c) (nas_devices c) (nas_count c)
    (home_ac_interval c) (home_battery_interval c) (away_ac_interval c)
    (away_battery_interval c) v (min_battery_level c)
    (enable_notifications c).

Definition set_min_battery_level (v : Z) (c : Config) : Config :=
  mkConfig (config_path c) (home_networks c) (nas_devices c) (nas_count c)
    (home_ac_interval c) (home_battery_interval c) (away_ac_interval c)
    (away_battery_interval c) (max_failed_attempts c) v
    (enable_notifications c).

Definition set_enable_notifications (v : bool) (c : Config) : Config :=
  mkConfig (config_path c) (home_networks c) (nas_devices c) (nas_count c)
    (home_ac_interval c) (home_battery_interval c) (away_ac_interval c)
    (away_battery_interval c) (max_failed_attempts c) (min_battery_level c)
    v.

(** [config->nas_devices[i]] read as a C string. An index outside the
    array is undefined in C; the model reads the empty string there. *)
Definition nas_device (i : Z) (c : Config) : string :=
  if (i <? 0)%Z then "" else nth (Z.to_nat i) (nas_devices c) "".

(** A store into [config->nas_devices[i]]. Outside the array (undefined
    in C) the model stores nothing. *)
Definition store_nas_device (i : Z) (v : string) (c : Config) : Config :=
  if (i <? 0)%Z then c
  else set_nas_devices (<[Z.to_nat i := v]> (nas_devices c)) c.

(** The device entries in use: the first [nas_count] buffers. *)
Definition devices (c : Config) : list string :=
  take (Z.to_nat (nas_count c)) (nas_devices c).

(** The state of [AppData app = {0}] in [main], before [init_config_path]:
    every buffer empty, every number zero. *)
Definition zero_config : Config :=
  mkConfig "" "" (replicate (Z.to_nat MAX_NAS_DEVICES) "") 0 0 0 0 0 0 0 false.

(** ** [init_config_path] *)

Definition MAX_PATH : nat := 512.

(** [snprintf(buf, size, ...)] keeps the first [size - 1] bytes. *)
Definition snprintf (size : nat) (text : string) : string :=
  string_take (size - 1) text.

(** [init_config_path]: [home] is [getenv("HOME")]. The directory made by
    [mkdir] is not part of the model. *)
Definition init_config_path (home : option string) (config : Config)
  : Config :=
  match home with
  | None => set_config_path (strcpy "/tmp/nas-monitor-config.conf") config
  | Some home =>
      set_config_path
        (snprintf MAX_PATH (fmt_s home +:+ "/.config/nas-monitor/config.conf"))
        config
  end.

(** ** [set_defaults] *)

Definition set_defaults (config : Config) : Config :=
  let config := set_home_networks (strcpy "") config in
  let config := set_nas_count 0 config in
  let config := set_home_ac_interval 15 config in
  let config := set_home_battery_interval 60 config in
  let config := set_away_ac_interval 180 config in
  let config := set_away_battery_interval 600 config in
  let config := set_max_failed_attempts 3 config in
  let config := set_min_battery_level 10 config in
  set_enable_notifications true config.

(** ** [load_config] *)

(** A pointer returned by [strchr] or [strstr] tested against NULL. *)
Definition non_null {A : Type} (p : option A) : bool :=
  match p with Some _ => true | None => false end.

(** [s[i]], the terminator included. *)
Definition char_at (s : string) (i : nat) : ascii :=
  match String.get i s with Some a => a | None => NUL end.

(** The trimming loops of source lines 140-141: the pointer moves past
    the leading spaces and tabs. *)
Fixpoint skip_blanks (p : string) : string :=
  match p with
  | String a r =>
      if Ascii.eqb a " " || Ascii.eqb a TAB then skip_blanks r else p
  | "" => ""
  end.

(** The line buffer after the newline has been cut (source lines 117-118):
    the C string in the buffer, up to its newline if it has one. *)
Definition cut_newline (buf : string) : string :=
  let line := c_str buf in
  match strchr line LF with
  | Some k => string_take k line
  | None => line
  end.

(** The test of source line 121. *)
Definition is_skipped (line : string) : bool :=
  Ascii.eqb (char_at line 0) "#" || Ascii.eqb (char_at line 0) NUL ||
  (strspn line (String " " (String TAB "")) =? strlen line)%nat.

(** The test of source line 126. *)
Definition is_section_header (line : string) : bool :=
  Ascii.eqb (char_at line 0) "[" &&
  Ascii.eqb (char_at line (strlen line - 1)) "]".

(** Source lines 127-128, on [char section[64]]. *)
Definition section_name (line : string) : string :=
  let section := strncpy (string_drop 1 line) (64 - 1) in
  string_take (strlen section - 1) section.

(** The dispatch on the key, source lines 143-159. *)
Definition assign_key (key value : string) (config : Config) : Config :=
  if strcmp_eq key "home_networks" then
    set_home_networks (strncpy value (MAX_LINE - 1)) config
  else if strcmp_eq key "home_ac_interval" then
    set_home_ac_interval (atoi value) config
  else if strcmp_eq key "home_battery_interval" then
    set_home_battery_interval (atoi value) config
  else if strcmp_eq key "away_ac_interval" then
    set_away_ac_interval (atoi value) config
  else if strcmp_eq key "away_battery_interval" then
    set_away_battery_interval (atoi value) config
  else if strcmp_eq key "max_failed_attempts" then
    set_max_failed_attempts (atoi value) config
  else if strcmp_eq key "min_battery_level" then
    set_min_battery_level (atoi value) config
  else if strcmp_eq key "enable_notifications" then
    set_enable_notifications (strcmp_eq value "true") config
  else config.

(** The state of the reading loop: the current section and the
    configuration. *)
Definition LoadState : Type := string * Config.

(** The body of the loop from source line 120 on, for a line whose
    newline has been cut. *)
Definition handle_line (line : string) (st : LoadState) : LoadState :=
  let '(section, config) := st in
  if is_skipped line then st
  else if is_section_header line then (section_name line, config)
  else
    match strchr line "=" with
    | Some equals =>
        let key := skip_blanks (string_take equals line) in
        let value := skip_blanks (string_drop (S equals) line) in
        (section, assign_key key value config)
    | None =>
        if strcmp_eq section "nas_devices" && non_null (strstr line "/") &&
           (nas_count config <? MAX_NAS_DEVICES)%Z
        then
          let config :=
            store_nas_device (nas_count config)
              (strncpy line (MAX_LINE - 1)) config in
          (section, set_nas_count (nas_count config + 1) config)
        else st
    end.

(** One turn of the loop on what [fgets] stored. *)
Definition load_line (buf : string) (st : LoadState) : LoadState :=
  handle_line (cut_newline buf) st.

(** [while (fgets(line, sizeof(line), file)) ...]. Every successful
    [fgets] takes at least one byte off the stream, so a fuel of the
    length of the stream runs the loop to the end of the file. *)
Fixpoint load_loop (fuel : nat) (stream : string) (st : LoadState)
  : LoadState :=
  match fuel with
  | O => st
  | S fuel' =>
      match fgets MAX_LINE stream with
      | None => st
      | Some (buf, rest) => load_loop fuel' rest (load_line buf st)
      end
  end.

Definition load_stream (stream : string) (st : LoadState) : LoadState :=
  load_loop (String.length stream) stream st.

(** The buffers [fgets] stores in turn, as a list. *)
Fixpoint read_buffers (fuel : nat) (stream : string) : list string :=
  match fuel with
  | O => []
  | S fuel' =>
      match fgets MAX_LINE stream with
      | None => []
      | Some (buf, rest) => buf :: read_buffers fuel' rest
      end
  end.

Definition file_buffers (stream : string) : list string :=
  read_buffers (String.length stream) stream.

(** [load_config]: [fopen(path, "r")] is the lookup of the path in
    the file system. *)
Definition load_config (fs : gmap string string) (config : Config)
  : bool * Config :=
  match fs !! config_path config with
  | None => (false, set_defaults config)
  | Some stream =>
      (true, snd (load_stream stream ("", set_defaults config)))
  end.

(** ** [save_config] *)

Definition fprintf (file text : string) : string := file +:+ text.

(** [for (int i = 0; i < nas_count; i++) fprintf(file, "%s\n", ...)],
    from index [i] on. *)
Fixpoint save_devices (fuel : nat) (i : Z) (config : Config) (file : string)
  : string :=
  match fuel with
  | O => file
  | S fuel' =>
      if (i <? nas_count config)%Z
      then save_devices fuel' (i + 1)%Z config
             (fprintf file (fmt_s (nas_device i config) +:+ nl))
      else file
  end.

(** What [save_config] writes to the truncated file, source lines
    185-208. *)
Definition write_config (config : Config) : string :=
  let file := "" in
  let file := fprintf file ("# NAS Monitor Configuration File" +:+ nl +:+ nl) in
  let file := fprintf file ("[networks]" +:+ nl) in
  let file :=
    fprintf file ("# Comma-separated list of home network SSIDs" +:+ nl) in
  let file :=
    fprintf file
      ("home_networks=" +:+ fmt_s (home_networks config) +:+ nl +:+ nl) in
  let file := fprintf file ("[nas_devices]" +:+ nl) in
  let file := fprintf file ("# Format: host/share (one per line)" +:+ nl) in
  let file := save_devices (Z.to_nat (nas_count config)) 0 config file in
  let file := fprintf file (nl +:+ "[intervals]" +:+ nl) in
  let file := fprintf file ("# Check intervals in seconds" +:+ nl) in
  let file :=
    fprintf file
      ("home_ac_interval=" +:+ fmt_d (home_ac_interval config) +:+ nl) in
  let file :=
    fprintf file
      ("home_battery_interval=" +:+ fmt_d (home_battery_interval config)
       +:+ nl) in
  let file :=
    fprintf file
      ("away_ac_interval=" +:+ fmt_d (away_ac_interval config) +:+ nl) in
  let file :=
    fprintf file
      ("away_battery_interval=" +:+ fmt_d (away_battery_interval config)
       +:+ nl) in
  let file := fprintf file (nl +:+ "[behavior]" +:+ nl) in
  let file :=
    fprintf file
      ("max_failed_attempts=" +:+ fmt_d (max_failed_attempts config)
       +:+ nl) in
  let file :=
    fprintf file
      ("min_battery_level=" +:+ fmt_d (min_battery_level config) +:+ nl) in
  fprintf file
    ("enable_notifications=" +:+
     fmt_s (if enable_notifications config then "true" else "false") +:+ nl).

(** [save_config]. Whether [fopen(path, "w")] succeeds is decided
    outside the program ([can_open]); on success the file at the path is
    replaced by what is written. The mode set by [chmod] is not part of
    the model. *)
Definition save_config (can_open : bool) (fs : gmap string string)
    (config : Config) : bool * gmap string string :=
  if can_open
  then (true, <[config_path config := write_config config]> fs)
  else (false, fs).

(** ** The device list handlers *)

Inductive GtkResponse : Type :=
  | GTK_RESPONSE_OK
  | GTK_RESPONSE_CANCEL.

(** [on_add_nas_clicked]: [response] is what [gtk_dialog_run] returns and
    [text] the text of the entry. *)
Definition on_add_nas_clicked (response : GtkResponse) (text : string)
    (config : Config) : Config :=
  match response with
  | GTK_RESPONSE_OK =>
      if (0 <? strlen text)%nat && non_null (strstr text "/") &&
         (nas_count config <? MAX_NAS_DEVICES)%Z
      then
        let config :=
          store_nas_device (nas_count config)
            (strncpy text (MAX_LINE - 1)) config in
        set_nas_count (nas_count config + 1) config
      else config
  | GTK_RESPONSE_CANCEL => config
  end.

(** [for (int i = index; i < nas_count - 1; i++) strcpy(...)], from
    index [i] on. *)
Fixpoint shift_devices (fuel : nat) (i : Z) (config : Config) : Config :=
  match fuel with
  | O => config
  | S fuel' =>
      if (i <? nas_count config - 1)%Z
      then shift_devices fuel' (i + 1)%Z
             (store_nas_device i (strcpy (nas_device (i + 1) config)) config)
      else config
  end.

(** [on_remove_nas_clicked]: [selected] is the index of the selected row
    of the list box, [None] when no row is selected. *)
Definition on_remove_nas_clicked (selected : option Z) (config : Config)
  : Config :=
  match selected with
  | None => config
  | Some index =>
      let config :=
        shift_devices (Z.to_nat (nas_count config - 1 - index)) index config in
      set_nas_count (nas_count config - 1) config
  end.

(** ** Predicates and reference definitions of the specification *)

(** The array has its [MAX_NAS_DEVICES] buffers and the count is within
    it. *)
Definition config_ok (c : Config) : Prop :=
  length (nas_devices c) = Z.to_nat MAX_NAS_DEVICES /\
  (0 <= nas_count c <= MAX_NAS_DEVICES)%Z.

(** The byte [a] occurs in [s]. *)
Definition contains (a : ascii) (s : string) : Prop :=
  a ∈ list_ascii_of_string s.

(** The fields other than the device list agree. *)
Definition same_scalars (c c' : Config) : Prop :=
  config_path c' = config_path c /\
  home_networks c' = home_networks c /\
  home_ac_interval c' = home_ac_interval c /\
  home_battery_interval c' = home_battery_interval c /\
  away_ac_interval c' = away_ac_interval c /\
  away_battery_interval c' = away_battery_interval c /\
  max_failed_attempts c' = max_failed_attempts c /\
  min_battery_level c' = min_battery_level c /\
  enable_notifications c' = enable_notifications c.

(** The invariant of the device list: at most [MAX_NAS_DEVICES] entries,
    each non-empty and with a separator. *)
Definition devices_invariant (c : Config) : Prop :=
  (Z.of_nat (length (devices c)) <= MAX_NAS_DEVICES)%Z /\
  Forall (fun d => d <> "" /\ contains "/" d) (devices c).

(** [n] copies of the byte [a]. *)
Fixpoint repeat_char (n : nat) (a : ascii) : string :=
  match n with
  | O => ""
  | S n' => String a (repeat_char n' a)
  end.

(** The text made of the given lines, each ended by a newline. *)
Definition unlines (ls : list string) : string :=
  foldr (fun l acc => l +:+ nl +:+ acc) "" ls.

(** The layout of section 6 of the specification, line by line. *)
Definition config_file_lines (c : Config) : list string :=
  [ "# NAS Monitor Configuration File";
    "";
    "[networks]";
    "# Comma-separated list of home network SSIDs";
    "home_networks=" +:+ home_networks c;
    "";
    "[nas_devices]";
    "# Format: host/share (one per line)" ]
  ++ devices c ++
  [ "";
    "[intervals]";
    "# Check intervals in seconds";
    "home_ac_interval=" +:+ fmt_d (home_ac_interval c);
    "home_battery_interval=" +:+ fmt_d (home_battery_interval c);
    "away_ac_interval=" +:+ fmt_d (away_ac_interval c);
    "away_battery_interval=" +:+ fmt_d (away_battery_interval c);
    "";
    "[behavior]";
    "max_failed_attempts=" +:+ fmt_d (max_failed_attempts c);
    "min_battery_level=" +:+ fmt_d (min_battery_level c);
    "enable_notifications=" +:+
      (if enable_notifications c then "true" else "false") ].

(** [s] starts with a decimal digit. *)
Definition starts_with_digit (s : string) : Prop :=
  match s with
  | String a _ => isdigit a = true /\ isspace a = false /\
                  Ascii.eqb a "-" = false /\ Ascii.eqb a "+" = false
  | "" => False
  end.


(** A line of text as [fgets] and the C string functions see it whole:
    no newline and no NUL byte inside, and short enough for the line
    buffer of [MAX_LINE] bytes. *)
Definition text_line (l : string) : Prop :=
  char_in LF l = false /\ char_in NUL l = false /\
  (String.length l < MAX_LINE)%nat.

(** The lines of a file as the reading loop sees them: what [fgets]
    stores in turn, each with its newline cut. *)
Definition file_lines (stream : string) : list string :=
  cut_newline <$> file_buffers stream.

(** Lookup by name in a table. *)
Fixpoint assoc {A : Type} (key : string) (table : list (string * A))
  : option A :=
  match table with
  | [] => None
  | (name, x) :: rest => if String.eqb key name then Some x else assoc key rest
  end.

(** The settings of section 3 of the specification that hold an integer,
    by key. *)
Definition integer_settings : list (string * (Z -> Config -> Config)) :=
  [ ("home_ac_interval", set_home_ac_interval);
    ("home_battery_interval", set_home_battery_interval);
    ("away_ac_interval", set_away_ac_interval);
    ("away_battery_interval", set_away_battery_interval);
    ("max_failed_attempts", set_max_failed_attempts);
    ("min_battery_level", set_min_battery_level) ].

(** From the words of the specification (4.1, Load, third item): every
    key names one field; the value is stored as it is in the text field,
    coerced to an integer in the integer fields, and compared with the
    token [true] in the boolean field. *)
Definition settings_by_name : list (string * (string -> Config -> Config)) :=
  [ ("home_networks", set_home_networks);
    ("home_ac_interval", fun v => set_home_ac_interval (atoi v));
    ("home_battery_interval", fun v => set_home_battery_interval (atoi v));
    ("away_ac_interval", fun v => set_away_ac_interval (atoi v));
    ("away_battery_interval", fun v => set_away_battery_interval (atoi v));
    ("max_failed_attempts", fun v => set_max_failed_attempts (atoi v));
    ("min_battery_level", fun v => set_min_battery_level (atoi v));
    ("enable_notifications",
     fun v => set_enable_notifications (String.eqb v "true")) ].


(** The value of a field, by the key that names it. *)
Inductive FieldValue : Type :=
  | TextValue (s : string)
  | IntegerValue (z : Z)
  | BooleanValue (b : bool).

Definition field_value (key : string) (c : Config) : option FieldValue :=
  assoc key
    [ ("home_networks", TextValue (home_networks c));
      ("home_ac_interval", IntegerValue (home_ac_interval c));
      ("home_battery_interval", IntegerValue (home_battery_interval c));
      ("away_ac_interval", IntegerValue (away_ac_interval c));
      ("away_battery_interval", IntegerValue (away_battery_interval c));
      ("max_failed_attempts", IntegerValue (max_failed_attempts c));
      ("min_battery_level", IntegerValue (min_battery_level c));
      ("enable_notifications", BooleanValue (enable_notifications c)) ].

(** What the text [value] of a key/value line becomes in the field named
    by [key]. *)
Definition coerced_value (key value : string) : option FieldValue :=
  assoc key
    [ ("home_networks", TextValue value);
      ("home_ac_interval", IntegerValue (atoi value));
      ("home_battery_interval", IntegerValue (atoi value));
      ("away_ac_interval", IntegerValue (atoi value));
      ("away_battery_interval", IntegerValue (atoi value));
      ("max_failed_attempts", IntegerValue (atoi value));
      ("min_battery_level", IntegerValue (atoi value));
      ("enable_notifications", BooleanValue (String.eqb value "true")) ].

(** The key and the value of a line that the loop takes as a key/value
    pair: not skipped, not a section header, with an equals sign. *)
Definition key_value_line (line : string) : option (string * string) :=
  if is_skipped line || is_section_header line then None
  else
    match strchr line "=" with
    | Some equals =>
        Some (skip_blanks (string_take equals line),
              skip_blanks (string_drop (S equals) line))
    | None => None
    end.




(** The configuration of [main] when it calls [load_config], with [HOME]
    unset. *)
Definition start_config : Config := init_config_path None zero_config.

(** The sample file of section 8 of the specification, with blanks around
    one key and value. *)
Definition sample_file : string :=
  "[networks]" +:+ nl +:+ "home_networks=Office,Home" +:+ nl +:+
  "[nas_devices]" +:+ nl +:+ "nas1.local/media" +:+ nl +:+
  "[intervals]" +:+ nl +:+ "  home_ac_interval= 20" +:+ nl +:+
  "[behavior]" +:+ nl +:+ "enable_notifications=false".

(** A value of the C type [int]. *)
Definition in_int_range (z : Z) : Prop := (INT_MIN <= z <= INT_MAX)%Z.

(** The settings in range of section 8 of the specification: the
    invariants of section 3 on the device list. *)
Definition in_range (s : Config) : Prop :=
  config_ok s /\ devices_invariant s.

(** A device entry that the file format gives back: one line of text with
    a separator, that the loader neither skips as a comment nor takes as a
    section header or as a key/value pair. *)
Definition device_reloads (d : string) : Prop :=
  text_line d /\ contains "/" d /\ char_in "=" d = false /\
  is_skipped d = false /\ is_section_header d = false.

(** The settings that the file format gives back: the network list is
    text on one line, fits the line buffer behind its key and does not
    start with a blank; every device entry reloads; the numbers are
    [int]s. *)
Definition reloads (s : Config) : Prop :=
  config_ok s /\
  (char_in LF (home_networks s) = false /\
   char_in NUL (home_networks s) = false /\
   skip_blanks (home_networks s) = home_networks s /\
   (String.length "home_networks=" + String.length (home_networks s)
    < MAX_LINE)%nat) /\
  Forall device_reloads (devices s) /\
  in_int_range (home_ac_interval s) /\
  in_int_range (home_battery_interval s) /\
  in_int_range (away_ac_interval s) /\
  in_int_range (away_battery_interval s) /\
  in_int_range (max_failed_attempts s) /\
  in_int_range (min_battery_level s).

(** The two configurations hold the same settings: the same fields and
    the same device entries in the same order. *)
Definition same_settings (c c' : Config) : Prop :=
  same_scalars c c' /\ nas_count c' = nas_count c /\ devices c' = devices c.

(** Settings with two device entries in use and a stale third one in the
    array. *)
Definition sample_settings : Config :=
  mkConfig "/tmp/nas-monitor-config.conf" "Office,Home"
    ["nas1.local/media"; "192.168.1.10/back up"; ""; ""; ""; ""; ""; ""; "";
     "stale/entry"]
    2 20 60 180 (-1) 3 2147483647 false.


(** ** The application data and the widgets *)

(** The directory that [init_config_path] makes with [mkdir(dir_path,
    0700)]: [None] when [HOME] is unset and no directory is made. *)
Definition config_dir_path (home : option string) : option string :=
  match home with
  | None => None
  | Some home =>
      Some (snprintf MAX_PATH (fmt_s home +:+ "/.config/nas-monitor"))
  end.

(** A GTK spin button, by what the program reads and writes of it: the
    bounds of its adjustment and its value. *)
Record SpinButton : Type := mkSpinButton {
  spin_lower : Z;
  spin_upper : Z;
  spin_value : Z
}.

(** [gtk_spin_button_new_with_range(min, max, step)]: the value starts at
    [min]. *)
Definition gtk_spin_button_new_with_range (min max : Z) : SpinButton :=
  mkSpinButton min max min.

(** [gtk_spin_button_set_value]: the adjustment keeps the value within
    its bounds, [CLAMP(value, lower, upper)]. *)
Definition gtk_spin_button_set_value (value : Z) (spin : SpinButton)
  : SpinButton :=
  mkSpinButton (spin_lower spin) (spin_upper spin)
    (if (spin_upper spin <? value)%Z then spin_upper spin
     else if (value <? spin_lower spin)%Z then spin_lower spin
     else value).

Definition gtk_spin_button_get_value_as_int (spin : SpinButton) : Z :=
  spin_value spin.

(** [g_utf8_skip], GLib's table of the length of a UTF-8 character by
    its first byte: 1 below [0xC0], 2 below [0xE0], 3 below [0xF0], 4 below
    [0xF8], 5 below [0xFC], 6 for [0xFC] and [0xFD], 1 for [0xFE] and
    [0xFF]. *)
Definition g_utf8_skip (a : ascii) : nat :=
  let b := nat_of_ascii a in
  if (b <? 192)%nat then 1%nat
  else if (b <? 224)%nat then 2%nat
  else if (b <? 240)%nat then 3%nat
  else if (b <? 248)%nat then 4%nat
  else if (b <? 252)%nat then 5%nat
  else if (b <? 254)%nat then 6%nat
  else 1%nat.

(** The bytes of [text] that a GTK 3 entry takes. [gtk_entry_set_text]
    inserts [text] with [strlen(text)] as its length; the entry counts the
    characters with [g_utf8_strlen(text, length)], which walks the text by
    [g_utf8_skip] and leaves out a last character that reaches beyond the
    length, and the buffer copies the bytes of that many characters
    ([g_utf8_offset_to_pointer]). The count of bytes is that of the whole
    characters from the start; [fuel] bounds the walk, and the length of
    the text is enough since every character has at least one byte. *)
Fixpoint utf8_whole_bytes (fuel : nat) (text : string) : nat :=
  match fuel with
  | O => 0
  | S fuel' =>
      match text with
      | "" => 0
      | String a _ =>
          let k := g_utf8_skip a in
          if (k <=? strlen text)%nat
          then (k + utf8_whole_bytes fuel' (string_drop k text))%nat
          else 0%nat
      end
  end.

(** [gtk_entry_set_text] on an entry, by the text the entry holds
    afterwards: [text] without a last character that is cut short. Text
    that is UTF-8 is held as it is. *)
Definition gtk_entry_set_text (text : string) : string :=
  string_take (utf8_whole_bytes (strlen text) text) text.

(** [gtk_entry_get_text]: the text the entry holds. *)
Definition gtk_entry_get_text (entry : string) : string := entry.

(** [AppData], by the state of its widgets that the program reads back:
    the text of the entry, the labels of the rows of the list box, the
    spin buttons, the check button and the text of the status label.
    The user's edits are outside the model. *)
Record AppData : Type := mkAppData {
  networks_entry : string;
  nas_listbox : list string;
  home_ac_spin : SpinButton;
  home_battery_spin : SpinButton;
  away_ac_spin : SpinButton;
  away_battery_spin : SpinButton;
  max_attempts_spin : SpinButton;
  min_battery_spin : SpinButton;
  notifications_check : bool;
  status_label : string;
  config : Config
}.

Definition set_config (v : Config) (app : AppData) : AppData :=
  mkAppData (networks_entry app) (nas_listbox app) (home_ac_spin app)
    (home_battery_spin app) (away_ac_spin app) (away_battery_spin app)
    (max_attempts_spin app) (min_battery_spin app) (notifications_check app)
    (status_label app) v.

Definition set_status_label (v : string) (app : AppData) : AppData :=
  mkAppData (networks_entry app) (nas_listbox app) (home_ac_spin app)
    (home_battery_spin app) (away_ac_spin app) (away_battery_spin app)
    (max_attempts_spin app) (min_battery_spin app) (notifications_check app)
    v (config app).

(** [AppData app = {0}] in [main]: no widget yet. *)
Definition zero_app : AppData :=
  mkAppData "" [] (mkSpinButton 0 0 0) (mkSpinButton 0 0 0)
    (mkSpinButton 0 0 0) (mkSpinButton 0 0 0) (mkSpinButton 0 0 0)
    (mkSpinButton 0 0 0) false "" zero_config.

(** [create_ui]: the widgets as they are made (source lines 360-456). *)
Definition create_ui (app : AppData) : AppData :=
  mkAppData ""
    []
    (gtk_spin_button_new_with_range 5 3600)
    (gtk_spin_button_new_with_range 10 3600)
    (gtk_spin_button_new_with_range 30 3600)
    (gtk_spin_button_new_with_range 60 3600)
    (gtk_spin_button_new_with_range 1 10)
    (gtk_spin_button_new_with_range 5 50)
    false
    ""
    (config app).

(** The rows that [update_ui_from_config] puts in the emptied list box:
    [for (int i = 0; i < nas_count; i++)], from index [i] on. *)
Fixpoint list_box_rows (fuel : nat) (i : Z) (config : Config) : list string :=
  match fuel with
  | O => []
  | S fuel' =>
      if (i <? nas_count config)%Z
      then nas_device i config :: list_box_rows fuel' (i + 1)%Z config
      else []
  end.

(** [update_ui_from_config]. *)
Definition update_ui_from_config (app : AppData) : AppData :=
  let c := config app in
  mkAppData (gtk_entry_set_text (home_networks c))
    (list_box_rows (Z.to_nat (nas_count c)) 0 c)
    (gtk_spin_button_set_value (home_ac_interval c) (home_ac_spin app))
    (gtk_spin_button_set_value (home_battery_interval c)
       (home_battery_spin app))
    (gtk_spin_button_set_value (away_ac_interval c) (away_ac_spin app))
    (gtk_spin_button_set_value (away_battery_interval c)
       (away_battery_spin app))
    (gtk_spin_button_set_value (max_failed_attempts c) (max_attempts_spin app))
    (gtk_spin_button_set_value (min_battery_level c) (min_battery_spin app))
    (enable_notifications c)
    (status_label app)
    c.

(** [update_config_from_ui]. *)
Definition update_config_from_ui (app : AppData) : AppData :=
  let c := config app in
  let c :=
    set_home_networks
      (strncpy (gtk_entry_get_text (networks_entry app)) (MAX_LINE - 1)) c in
  let c :=
    set_home_ac_interval
      (gtk_spin_button_get_value_as_int (home_ac_spin app)) c in
  let c :=
    set_home_battery_interval
      (gtk_spin_button_get_value_as_int (home_battery_spin app)) c in
  let c :=
    set_away_ac_interval
      (gtk_spin_button_get_value_as_int (away_ac_spin app)) c in
  let c :=
    set_away_battery_interval
      (gtk_spin_button_get_value_as_int (away_battery_spin app)) c in
  let c :=
    set_max_failed_attempts
      (gtk_spin_button_get_value_as_int (max_attempts_spin app)) c in
  let c :=
    set_min_battery_level
      (gtk_spin_button_get_value_as_int (min_battery_spin app)) c in
  let c := set_enable_notifications (notifications_check app) c in
  set_config c app.

(** [save_config] with the status label it sets when the file is
    written. *)
Definition save_config_app (can_open : bool) (fs : gmap string string)
    (app : AppData) : bool * gmap string string * AppData :=
  let '(ok, fs') := save_config can_open fs (config app) in
  (ok, fs',
   if ok then set_status_label "Configuration saved successfully" app
   else app).

(** [on_save_clicked]. *)
Definition on_save_clicked (can_open : bool) (fs : gmap string string)
    (app : AppData) : bool * gmap string string * AppData :=
  save_config_app can_open fs (update_config_from_ui app).

(** [on_add_nas_clicked] on the application data: the list box is filled
    again when the entry is taken. *)
Definition on_add_nas_clicked_app (response : GtkResponse) (text : string)
    (app : AppData) : AppData :=
  match response with
  | GTK_RESPONSE_OK =>
      if (0 <? strlen text)%nat && non_null (strstr text "/") &&
         (nas_count (config app) <? MAX_NAS_DEVICES)%Z
      then
        update_ui_from_config
          (set_config (on_add_nas_clicked GTK_RESPONSE_OK text (config app))
             app)
      else app
  | GTK_RESPONSE_CANCEL => app
  end.

(** [on_remove_nas_clicked] on the application data: [selected] is the
    index in the list box of the selected row, [None] when no row is
    selected. *)
Definition on_remove_nas_clicked_app (selected : option nat) (app : AppData)
  : AppData :=
  match selected with
  | None => app
  | Some index =>
      update_ui_from_config
        (set_config
           (on_remove_nas_clicked (Some (Z.of_nat index)) (config app)) app)
  end.

(** [on_restart_service_clicked]: [result] is what [system] returns. *)
Definition on_restart_service_clicked (result : Z) (app : AppData) : AppData :=
  if (result =? 0)%Z
  then set_status_label "Service restarted successfully" app
  else set_status_label "Failed to restart service" app.

(** [main] up to [gtk_main]: [home] is [getenv("HOME")]. *)
Definition main (home : option string) (fs : gmap string string) : AppData :=
  let app := zero_app in
  let app := set_config (init_config_path home (config app)) app in
  let app := set_config (load_config fs (config app)).2 app in
  let app := create_ui app in
  update_ui_from_config app.

(** The spin button has the bounds given and its value within them. *)
Definition spin_within (lower upper : Z) (spin : SpinButton) : Prop :=
  spin_lower spin = lower /\ spin_upper spin = upper /\
  (lower <= spin_value spin <= upper)%Z.

(** The widgets are the ones [create_ui] makes, each spin button within
    its range. *)
Definition widgets_ok (app : AppData) : Prop :=
  spin_within 5 3600 (home_ac_spin app) /\
  spin_within 10 3600 (home_battery_spin app) /\
  spin_within 30 3600 (away_ac_spin app) /\
  spin_within 60 3600 (away_battery_spin app) /\
  spin_within 1 10 (max_attempts_spin app) /\
  spin_within 5 50 (min_battery_spin app).

(** [CLAMP(value, lower, upper)]. *)
Definition clamp (lower upper value : Z) : Z :=
  Z.max lower (Z.min upper value).

(** The list box shows the device entries in use. *)
Definition list_box_synced (app : AppData) : Prop :=
  nas_listbox app = devices (config app).

(** A continuation byte of UTF-8, [0x80] to [0xBF]. *)
Definition utf8_continuation (a : ascii) : bool :=
  (128 <=? nat_of_ascii a)%nat && (nat_of_ascii a <? 192)%nat.

(** The text is a sequence of UTF-8 characters: a byte below [0x80], or a
    first byte [0xC2] to [0xDF], [0xE0] to [0xEF] or [0xF0] to [0xF4]
    followed by one, two or three continuation bytes. Every valid UTF-8
    text is of this form. *)
Fixpoint utf8_text (s : string) : bool :=
  match s with
  | "" => true
  | String a r =>
      let b := nat_of_ascii a in
      if (b <? 128)%nat then utf8_text r
      else if (194 <=? b)%nat && (b <? 224)%nat then
        match r with
        | String a1 r1 => utf8_continuation a1 && utf8_text r1
        | _ => false
        end
      else if (224 <=? b)%nat && (b <? 240)%nat then
        match r with
        | String a1 (String a2 r2) =>
            utf8_continuation a1 && utf8_continuation a2 && utf8_text r2
        | _ => false
        end
      else if (240 <=? b)%nat && (b <? 245)%nat then
        match r with
        | String a1 (String a2 (String a3 r3)) =>
            utf8_continuation a1 && utf8_continuation a2 &&
            utf8_continuation a3 && utf8_text r3
        | _ => false
        end
      else false
  end.

(** * Properties *)

(** ** The embedding on the examples of the specification *)

Example fmt_d_examples :
  fmt_d 0 = "0" /\ fmt_d 15 = "15" /\ fmt_d (-600) = "-600" /\
  fmt_d 2147483647 = "2147483647" /\ fmt_d (-2147483648) = "-2147483648".
Proof. repeat split; reflexivity. Qed.

Example atoi_examples :
  atoi "20" = 20%Z /\ atoi "abc" = 0%Z /\ atoi "  -12x" = (-12)%Z /\
  atoi "" = 0%Z /\ atoi "4294967297" = 1%Z.
Proof. repeat split; reflexivity. Qed.

(** The sample of section 8: the fields of the file are read, the others
    keep their defaults. *)
Example load_sample_file :
  let fs : gmap string string := {[ config_path start_config := sample_file ]} in
  let c := (load_config fs start_config).2 in
  home_networks c = "Office,Home" /\ devices c = ["nas1.local/media"] /\
  home_ac_interval c = 20%Z /\ enable_notifications c = false /\
  home_battery_interval c = 60%Z /\ away_ac_interval c = 180%Z /\
  away_battery_interval c = 600%Z /\ max_failed_attempts c = 3%Z /\
  min_battery_level c = 10%Z.
Proof.
  cbn zeta. unfold load_config. rewrite lookup_singleton_eq.
  by vm_compute.
Qed.

(** ** Strings *)

Lemma string_app_assoc (a b c : string) : (a +:+ b) +:+ c = a +:+ (b +:+ c).
Proof. induction a as [|x a IH]; simpl; [reflexivity | by rewrite IH]. Qed.

Lemma string_app_nil_r (a : string) : a +:+ "" = a.
Proof. induction a as [|x a IH]; simpl; [reflexivity | by rewrite IH]. Qed.

Lemma string_length_app (a b : string) :
  String.length (a +:+ b) = (String.length a + String.length b)%nat.
Proof. induction a as [|x a IH]; simpl; [reflexivity | by rewrite IH]. Qed.

Lemma nas_device_lookup (i : nat) (c : Config) :
  nas_device (Z.of_nat i) c = default "" (nas_devices c !! i).
Proof.
  unfold nas_device. destruct (Z.ltb_spec (Z.of_nat i) 0); [lia|].
  rewrite Nat2Z.id. apply nth_lookup.
Qed.

Lemma strstr_slash_cons (a : ascii) (s : string) :
  strstr (String a s) "/" =
  if Ascii.eqb "/" a then Some 0%nat else S <$> strstr s "/".
Proof. cbn [strstr is_prefix]. by rewrite andb_true_r. Qed.

Lemma strstr_slash (s : string) :
  non_null (strstr s "/") = true <-> contains "/" s.
Proof.
  unfold contains. induction s as [|a s IH].
  - cbn. split; [discriminate | intros H; inversion H].
  - rewrite strstr_slash_cons. cbn [list_ascii_of_string].
    destruct (Ascii.eqb_spec "/" a) as [<-|Hne].
    + split; [intros _; left | reflexivity].
    + rewrite elem_of_cons, <- IH.
      destruct (strstr s "/"); cbn; intuition congruence.
Qed.

Lemma strstr_slash_None (s : string) :
  strstr s "/" = None <-> ~ contains "/" s.
Proof.
  rewrite <- strstr_slash. destruct (strstr s "/"); cbn; intuition congruence.
Qed.

(** * Record bookkeeping *)

Lemma same_scalars_refl (c : Config) : same_scalars c c.
Proof. by repeat split. Qed.

Lemma same_scalars_trans (c1 c2 c3 : Config) :
  same_scalars c1 c2 -> same_scalars c2 c3 -> same_scalars c1 c3.
Proof.
  unfold same_scalars. intros (?&?&?&?&?&?&?&?&?) (?&?&?&?&?&?&?&?&?).
  repeat split; congruence.
Qed.

Lemma same_scalars_store (i : Z) (v : string) (c : Config) :
  same_scalars c (store_nas_device i v c).
Proof. unfold store_nas_device. destruct (i <? 0)%Z; by repeat split. Qed.

Lemma nas_count_store (i : Z) (v : string) (c : Config) :
  nas_count (store_nas_device i v c) = nas_count c.
Proof. unfold store_nas_device. by destruct (i <? 0)%Z. Qed.

Lemma length_store (i : Z) (v : string) (c : Config) :
  length (nas_devices (store_nas_device i v c)) = length (nas_devices c).
Proof.
  unfold store_nas_device. destruct (i <? 0)%Z; [done|].
  cbn. apply length_insert.
Qed.

Lemma nas_device_store (i j : Z) (v : string) (c : Config) :
  (0 <= i < Z.of_nat (length (nas_devices c)))%Z -> (0 <= j)%Z ->
  nas_device j (store_nas_device i v c) =
  if (j =? i)%Z then v else nas_device j c.
Proof.
  intros Hi Hj. unfold nas_device, store_nas_device.
  destruct (Z.ltb_spec i 0); [lia|]. destruct (Z.ltb_spec j 0); [lia|].
  cbn. rewrite !nth_lookup. destruct (Z.eqb_spec j i) as [->|Hne].
  - rewrite list_lookup_insert_eq by lia. done.
  - rewrite list_lookup_insert_ne by lia. done.
Qed.

Lemma nas_device_set_nas_count (j n : Z) (c : Config) :
  nas_device j (set_nas_count n c) = nas_device j c.
Proof. reflexivity. Qed.

Lemma devices_lookup (c : Config) (j : nat) :
  (Z.of_nat j < nas_count c)%Z ->
  (nas_count c <= Z.of_nat (length (nas_devices c)))%Z ->
  devices c !! j = Some (nas_device (Z.of_nat j) c).
Proof.
  intros Hj Hn. unfold devices. rewrite lookup_take_lt by lia.
  rewrite nas_device_lookup.
  destruct (lookup_lt_is_Some_2 (nas_devices c) j) as [x ->]; [lia|done].
Qed.

Lemma length_devices (c : Config) :
  (0 <= nas_count c <= Z.of_nat (length (nas_devices c)))%Z ->
  length (devices c) = Z.to_nat (nas_count c).
Proof. intros H. unfold devices. rewrite length_take. lia. Qed.

(** * The device list handlers *)

Lemma devices_append (v : string) (c : Config) :
  config_ok c -> (nas_count c < MAX_NAS_DEVICES)%Z ->
  devices (set_nas_count (nas_count c + 1) (store_nas_device (nas_count c) v c))
  = devices c ++ [v].
Proof.
  intros [Hlen Hn] Hlt. unfold devices, store_nas_device.
  destruct (Z.ltb_spec (nas_count c) 0); [lia|]. cbn.
  replace (Z.to_nat (nas_count c + 1)) with (S (Z.to_nat (nas_count c))) by lia.
  unfold MAX_NAS_DEVICES in *.
  rewrite (take_S_r _ _ v) by (apply list_lookup_insert_eq; lia).
  by rewrite take_insert_ge by lia.
Qed.

Lemma shift_devices_spec (fuel : nat) :
  forall (i : Z) (c : Config),
    (0 <= i)%Z ->
    fuel = Z.to_nat (nas_count c - 1 - i) ->
    (nas_count c <= Z.of_nat (length (nas_devices c)))%Z ->
    let c' := shift_devices fuel i c in
    same_scalars c c' /\ nas_count c' = nas_count c /\
    length (nas_devices c') = length (nas_devices c) /\
    forall j : Z, (0 <= j)%Z ->
      nas_device j c' =
      if (i <=? j)%Z && (j <? nas_count c - 1)%Z
      then nas_device (j + 1) c else nas_device j c.
Proof.
  induction fuel as [|fuel IH]; intros i c Hi Hfuel Hlen; cbn zeta.
  - cbn. split; [apply same_scalars_refl|]. repeat split.
    intros j Hj.
    destruct (Z.leb_spec i j), (Z.ltb_spec j (nas_count c - 1)); cbn; try done.
    lia.
  - cbn [shift_devices].
    destruct (Z.ltb_spec i (nas_count c - 1)); [|lia].
    set (c1 := store_nas_device i (strcpy (nas_device (i + 1) c)) c).
    assert (Hc1 : nas_count c1 = nas_count c) by apply nas_count_store.
    assert (Hl1 : length (nas_devices c1) = length (nas_devices c))
      by apply length_store.
    destruct (IH (i + 1)%Z c1) as (Hs & Hcnt & Hl & Hdev);
      [lia | rewrite Hc1; lia | rewrite Hc1, Hl1; lia |].
    split; [eapply same_scalars_trans; [apply same_scalars_store | exact Hs]|].
    split; [congruence|]. split; [congruence|].
    intros j Hj. rewrite Hdev by done. rewrite Hc1.
    unfold c1. rewrite !nas_device_store by lia. unfold strcpy.
    destruct (Z.leb_spec (i + 1) j), (Z.leb_spec i j),
      (Z.ltb_spec j (nas_count c - 1)), (Z.eqb_spec (j + 1) i),
      (Z.eqb_spec j i); cbn; try done; try lia.
    subst j. done.
Qed.

Lemma string_take_all (n : nat) (s : string) :
  (String.length s <= n)%nat -> string_take n s = s.
Proof.
  revert n. induction s as [|a s IH]; intros [|n] H; cbn in *; try done; [lia|].
  rewrite IH by lia. done.
Qed.

Lemma string_eq_empty (s : string) : (0 <? strlen s)%nat = false <-> s = "".
Proof. destruct s; cbn; split; intros; done. Qed.

(** What [on_remove_nas_clicked] does to the array and the count. *)
Lemma remove_selected_device (c : Config) (i : Z) :
  config_ok c -> (0 <= i < nas_count c)%Z ->
  let c' := on_remove_nas_clicked (Some i) c in
  nas_count c' = (nas_count c - 1)%Z /\
  devices c' = delete (Z.to_nat i) (devices c) /\
  (forall j, (0 <= j < i)%Z -> nas_device j c' = nas_device j c) /\
  (forall j, (i <= j < nas_count c - 1)%Z ->
     nas_device j c' = nas_device (j + 1) c) /\
  same_scalars c c'.
Proof.
  intros [Hlen Hn] Hi. unfold MAX_NAS_DEVICES in *. cbn zeta.
  unfold on_remove_nas_clicked.
  destruct (shift_devices_spec (Z.to_nat (nas_count c - 1 - i)) i c)
    as (Hs & Hcnt & Hl & Hdev); [lia | done | lia |].
  set (c1 := shift_devices _ i c) in *.
  assert (Hshift : forall j, (0 <= j)%Z ->
            nas_device j (set_nas_count (nas_count c1 - 1) c1) =
            if (i <=? j)%Z && (j <? nas_count c - 1)%Z
            then nas_device (j + 1) c else nas_device j c)
    by (intros j Hj; rewrite nas_device_set_nas_count; by apply Hdev).
  split; [cbn; lia|]. split; [|split; [|split]].
  - apply list_eq. intros j.
    destruct (decide (j < Z.to_nat (nas_count c - 1))%nat) as [Hj|Hj].
    + rewrite devices_lookup by (cbn; lia). rewrite Hshift by lia.
      destruct (decide (j < Z.to_nat i)%nat) as [Hji|Hji].
      * rewrite list_lookup_delete_lt by done.
        rewrite devices_lookup by lia.
        destruct (Z.leb_spec i (Z.of_nat j)); [lia|done].
      * rewrite list_lookup_delete_ge by lia.
        rewrite devices_lookup by lia.
        destruct (Z.leb_spec i (Z.of_nat j)); [|lia].
        destruct (Z.ltb_spec (Z.of_nat j) (nas_count c - 1)); [|lia].
        cbn. do 2 f_equal. lia.
    + rewrite (lookup_ge_None_2 (devices _))
        by (rewrite length_devices; cbn; lia).
      symmetry. apply lookup_ge_None_2.
      rewrite length_delete
        by (apply lookup_lt_is_Some_2; rewrite length_devices; lia).
      rewrite length_devices by lia. lia.
  - intros j Hj. rewrite Hshift by lia.
    destruct (Z.leb_spec i j); [lia|done].
  - intros j Hj. rewrite Hshift by lia.
    destruct (Z.leb_spec i j); [|lia].
    destruct (Z.ltb_spec j (nas_count c - 1)); [done|lia].
  - destruct Hs as (?&?&?&?&?&?&?&?&?). by repeat split.
Qed.

(** C8. For a configuration with [n] device entries and a selected index
    [i] with [0 <= i < n], [on_remove_nas_clicked] deletes entry [i]: the
    entries before [i] stay, every later entry moves down by one position
    with its content, the count becomes [n - 1], and no other field
    changes. *)
Theorem on_remove_nas_clicked_shifts (c : Config) (i : Z) :
  config_ok c -> (0 <= i < nas_count c)%Z ->
  let c' := on_remove_nas_clicked (Some i) c in
  nas_count c' = (nas_count c - 1)%Z /\
  devices c' = delete (Z.to_nat i) (devices c) /\
  (forall j, (0 <= j < i)%Z -> nas_device j c' = nas_device j c) /\
  (forall j, (i <= j < nas_count c - 1)%Z ->
     nas_device j c' = nas_device (j + 1) c) /\
  same_scalars c c'.
Proof. exact (remove_selected_device c i). Qed.

Lemma on_remove_nas_clicked_shifts_witness :
  let c := on_add_nas_clicked GTK_RESPONSE_OK "b/y"
             (on_add_nas_clicked GTK_RESPONSE_OK "a/x" zero_config) in
  devices c = ["a/x"; "b/y"] /\
  devices (on_remove_nas_clicked (Some 0%Z) c) = ["b/y"].
Proof.
  cbn zeta. split; [reflexivity|].
  refine (eq_trans (proj1 (proj2 (on_remove_nas_clicked_shifts _ 0 _ _))) _).
  - split; [reflexivity | vm_compute; split; discriminate].
  - vm_compute; split; [discriminate | reflexivity].
  - reflexivity.
Defined.

Lemma contains_string_take (a : ascii) (n : nat) (s : string) :
  contains a (string_take n s) -> contains a s.
Proof.
  unfold contains. revert s. induction n as [|n IH]; intros [|b s] H;
    cbn [string_take list_ascii_of_string] in *; try by inversion H.
  apply elem_of_cons in H as [->|H]; [left|right; by apply IH].
Qed.

(** C2, amended. For every device string [d] and every configuration
    with [n] device entries: the append is rejected and leaves the
    configuration as it is when [d] is empty, has no separator, or [n] is
    already 10; otherwise, when [d] is shorter than 1024 bytes or its
    first 1023 bytes still have a separator, it stores the first 1023
    bytes of [d] (all of [d] when [d] is shorter than 1024 bytes) as the
    entry at position [n], an entry with a separator, makes the count
    [n + 1], and changes no other field or entry. A cancelled dialog
    changes nothing. *)
Theorem on_add_nas_clicked_spec (d : string) (c : Config) :
  config_ok c ->
  let n := nas_count c in
  let c' := on_add_nas_clicked GTK_RESPONSE_OK d c in
  on_add_nas_clicked GTK_RESPONSE_CANCEL d c = c /\
  (d = "" \/ ~ contains "/" d \/ n = MAX_NAS_DEVICES -> c' = c) /\
  (d <> "" -> contains "/" d -> (n < MAX_NAS_DEVICES)%Z ->
   (String.length d < MAX_LINE)%nat \/
   contains "/" (string_take (MAX_LINE - 1) d) ->
   nas_device n c' = string_take (MAX_LINE - 1) d /\
   ((String.length d < MAX_LINE)%nat -> nas_device n c' = d) /\
   contains "/" (nas_device n c') /\
   nas_count c' = (n + 1)%Z /\
   devices c' = devices c ++ [string_take (MAX_LINE - 1) d] /\
   (forall j, (0 <= j)%Z -> j <> n -> nas_device j c' = nas_device j c) /\
   same_scalars c c').
Proof.
  intros Hok. pose proof Hok as [Hlen Hn]. cbn zeta.
  split; [reflexivity|].
  unfold on_add_nas_clicked. split.
  - intros [-> | [Hno | Hfull]].
    + reflexivity.
    + apply strstr_slash_None in Hno. rewrite Hno. cbn.
      by rewrite andb_false_r.
    + rewrite Hfull. by rewrite andb_false_r.
  - intros Hne Hsl Hlt Hcut.
    assert (Hkept : contains "/" (string_take (MAX_LINE - 1) d)).
    { destruct Hcut as [Hshort|Hcut]; [|exact Hcut].
      rewrite string_take_all by (unfold MAX_LINE in *; lia). exact Hsl. }
    destruct (0 <? strlen d)%nat eqn:E;
      [|apply string_eq_empty in E; done].
    apply strstr_slash in Hsl. rewrite Hsl.
    destruct (Z.ltb_spec (nas_count c) MAX_NAS_DEVICES); [|lia]. cbn [andb].
    unfold strncpy. rewrite nas_count_store.
    assert (Hstore : nas_device (nas_count c)
              (set_nas_count (nas_count c + 1)
                 (store_nas_device (nas_count c)
                    (string_take (MAX_LINE - 1) d) c))
            = string_take (MAX_LINE - 1) d).
    { rewrite nas_device_set_nas_count, nas_device_store;
        unfold MAX_NAS_DEVICES in *; [|lia..].
      by rewrite Z.eqb_refl. }
    split; [exact Hstore|]. split.
    { intros Hd. rewrite Hstore. apply string_take_all.
      unfold MAX_LINE in *. lia. }
    split; [by rewrite Hstore|].
    split; [reflexivity|]. split; [by apply devices_append|]. split.
    + intros j Hj Hjn. rewrite nas_device_set_nas_count, nas_device_store;
        unfold MAX_NAS_DEVICES in *; [|lia..].
      destruct (Z.eqb_spec j (nas_count c)); done.
    + pose proof (same_scalars_store (nas_count c)
                    (string_take (MAX_LINE - 1) d) c) as (?&?&?&?&?&?&?&?&?).
      by repeat split.
Qed.

Lemma on_add_nas_clicked_spec_witness :
  devices (on_add_nas_clicked GTK_RESPONSE_OK "host/share" zero_config)
  = ["host/share"] /\
  on_add_nas_clicked GTK_RESPONSE_OK "noSlashHere" zero_config = zero_config.
Proof.
  assert (Hok : config_ok zero_config)
    by (split; [reflexivity | vm_compute; split; discriminate]).
  destruct (on_add_nas_clicked_spec "host/share" zero_config Hok)
    as (_ & _ & H1).
  destruct (on_add_nas_clicked_spec "noSlashHere" zero_config Hok)
    as (_ & H2 & _).
  split.
  - destruct H1 as (_ & _ & _ & _ & H & _);
      [discriminate | apply strstr_slash; reflexivity | reflexivity
      | left; unfold MAX_LINE; cbn; lia |].
    exact H.
  - apply H2. right; left. apply strstr_slash_None. reflexivity.
Defined.

(** C2 as stated fails on a device string of 1024 bytes: it has a
    separator and the list has room, and the entry stored is not the
    string but its first 1023 bytes. *)
Lemma on_add_nas_clicked_truncates :
  let d := String "/" (repeat_char 1023 "a") in
  let c' := on_add_nas_clicked GTK_RESPONSE_OK d zero_config in
  config_ok zero_config /\
  d <> "" /\ contains "/" d /\ (nas_count zero_config < MAX_NAS_DEVICES)%Z /\
  nas_device (nas_count zero_config) c' <> d.
Proof.
  cbn zeta. split; [split; [reflexivity | vm_compute; split; discriminate]|].
  split; [discriminate|]. split; [apply strstr_slash; reflexivity|].
  split; [reflexivity|].
  intros H. apply (f_equal String.length) in H. vm_compute in H. discriminate.
Qed.

(** C7, on the failing input: a text of 1023 letters followed by [/x]
    passes the test of the append (it has a separator), and the entry
    stored, its first 1023 bytes, has none: the invariant of the device
    list holds before the append and not after it. *)
Theorem on_add_nas_clicked_breaks_invariant :
  let d := repeat_char 1023 "a" +:+ "/x" in
  let c' := on_add_nas_clicked GTK_RESPONSE_OK d zero_config in
  config_ok zero_config /\ devices_invariant zero_config /\
  contains "/" d /\
  devices c' = [repeat_char 1023 "a"] /\
  ~ devices_invariant c'.
Proof.
  cbn zeta. split; [split; [reflexivity | vm_compute; split; discriminate]|].
  split; [split; [vm_compute; discriminate | constructor]|].
  split; [apply strstr_slash; vm_compute; reflexivity|].
  assert (Hd : devices (on_add_nas_clicked GTK_RESPONSE_OK
                 (repeat_char 1023 "a" +:+ "/x") zero_config)
               = [repeat_char 1023 "a"]) by (vm_compute; reflexivity).
  split; [exact Hd|].
  intros [_ HF]. rewrite Hd in HF. apply Forall_cons_1 in HF as [[_ Hs] _].
  apply strstr_slash in Hs. vm_compute in Hs. discriminate.
Qed.

(** C3. When no file is at the path, [load_config] returns FALSE and
    leaves exactly the defaults: empty network list, no device, intervals
    15, 60, 180 and 600, three failed attempts, battery level 10,
    notifications on. *)
Theorem load_config_missing_file (fs : gmap string string) (c : Config) :
  fs !! config_path c = None ->
  let r := load_config fs c in
  r.1 = false /\
  home_networks r.2 = "" /\
  nas_count r.2 = 0%Z /\ devices r.2 = [] /\
  home_ac_interval r.2 = 15%Z /\
  home_battery_interval r.2 = 60%Z /\
  away_ac_interval r.2 = 180%Z /\
  away_battery_interval r.2 = 600%Z /\
  max_failed_attempts r.2 = 3%Z /\
  min_battery_level r.2 = 10%Z /\
  enable_notifications r.2 = true.
Proof.
  intros H. cbn zeta. unfold load_config. rewrite H. by repeat split.
Qed.

Lemma load_config_missing_file_witness :
  (load_config ∅ (set_home_ac_interval 99 zero_config)).1 = false /\
  home_ac_interval (load_config ∅ (set_home_ac_interval 99 zero_config)).2
  = 15%Z.
Proof.
  pose proof (load_config_missing_file ∅ (set_home_ac_interval 99 zero_config)
                (lookup_empty _)) as H.
  cbn zeta in H. split; [apply H | apply H].
Defined.

(** * Save *)

Lemma unlines_cons (x : string) (a : list string) :
  unlines (x :: a) = x +:+ nl +:+ unlines a.
Proof. reflexivity. Qed.

Lemma unlines_app (a b : list string) :
  unlines (a ++ b) = unlines a +:+ unlines b.
Proof.
  induction a as [|x a IH]; [done|].
  rewrite <- app_comm_cons, !unlines_cons, IH.
  by rewrite !string_app_assoc.
Qed.

Lemma save_devices_unlines (fuel : nat) :
  forall (i : Z) (c : Config) (file : string),
    (0 <= i)%Z -> fuel = Z.to_nat (nas_count c - i) ->
    (nas_count c <= Z.of_nat (length (nas_devices c)))%Z ->
    save_devices fuel i c file
    = file +:+ unlines (drop (Z.to_nat i) (devices c)).
Proof.
  induction fuel as [|fuel IH]; intros i c file Hi Hfuel Hlen.
  - cbn. rewrite drop_ge by (unfold devices; rewrite length_take; lia).
    cbn. by rewrite string_app_nil_r.
  - cbn [save_devices]. destruct (Z.ltb_spec i (nas_count c)); [|lia].
    rewrite IH by lia. unfold fprintf, fmt_s.
    replace (Z.to_nat (i + 1)) with (S (Z.to_nat i)) by lia.
    rewrite (drop_S (devices c) (nas_device i c) (Z.to_nat i)).
    + rewrite unlines_cons. by rewrite !string_app_assoc.
    + rewrite <- (Z2Nat.id i) at 2 by lia. apply devices_lookup; lia.
Qed.

Lemma write_config_layout (c : Config) :
  config_ok c -> write_config c = unlines (config_file_lines c).
Proof.
  intros [Hlen Hn]. unfold MAX_NAS_DEVICES in *.
  unfold write_config, config_file_lines.
  rewrite save_devices_unlines by lia.
  unfold fprintf, fmt_s. cbn [Z.to_nat drop].
  rewrite !unlines_app, !unlines_cons.
  rewrite !string_app_assoc. cbn. rewrite ?string_app_assoc.
  reflexivity.
Qed.

(** C5. For every configuration, [save_config] on a file it can open
    returns TRUE and leaves in the file exactly the layout of section 6,
    line by line: the header comment, then [networks], [nas_devices],
    [intervals] and [behavior] in this order with their comment lines, the
    [home_networks=] line, one line for each device entry in list order,
    the four interval lines, [max_failed_attempts], [min_battery_level],
    and [enable_notifications] as [true] or [false]. *)
Theorem save_config_layout (fs : gmap string string) (c : Config) :
  config_ok c ->
  save_config true fs c
  = (true, <[config_path c := unlines (config_file_lines c)]> fs).
Proof. intros H. unfold save_config. by rewrite write_config_layout. Qed.

Lemma save_config_layout_witness :
  save_config true ∅ sample_settings
  = (true,
     {[ config_path sample_settings :=
          unlines (config_file_lines sample_settings) ]}).
Proof.
  refine (eq_trans (save_config_layout ∅ sample_settings _) _).
  - split; [reflexivity | vm_compute; split; discriminate].
  - reflexivity.
Defined.

(** * Decimal conversions *)

Lemma digit_char_spec (d : Z) :
  (0 <= d <= 9)%Z ->
  isdigit (digit_char d) = true /\ digit_value (digit_char d) = d /\
  isspace (digit_char d) = false /\
  Ascii.eqb (digit_char d) "-" = false /\
  Ascii.eqb (digit_char d) "+" = false.
Proof.
  intros H.
  assert (d = 0 \/ d = 1 \/ d = 2 \/ d = 3 \/ d = 4 \/ d = 5 \/ d = 6 \/
          d = 7 \/ d = 8 \/ d = 9)%Z as Hd by lia.
  repeat (destruct Hd as [-> | Hd]); try subst d; by vm_compute.
Qed.

Lemma scan_put_digits (fuel : nat) :
  forall (n : Z) (s : string),
    (0 <= n < 10 ^ Z.of_nat fuel)%Z ->
    exists k : Z, (0 <= k)%Z /\
      forall a : Z,
        scan_digits a (put_digits fuel n s) = scan_digits (a * 10 ^ k + n) s.
Proof.
  induction fuel as [|fuel IH]; intros n s Hn.
  - exists 0%Z. split; [lia|]. intros a. cbn in *. f_equal. lia.
  - rewrite Nat2Z.inj_succ, Z.pow_succ_r in Hn by lia.
    cbn [put_digits].
    pose proof (Z.mod_pos_bound n 10 ltac:(lia)) as Hmod.
    pose proof (Z.div_mod n 10 ltac:(lia)) as Hdiv.
    destruct (digit_char_spec (n mod 10) ltac:(lia)) as (Hdig & Hval & _).
    destruct (Z.eqb_spec (n / 10) 0) as [Hq|Hq].
    + exists 1%Z. split; [lia|]. intros a. cbn [scan_digits].
      rewrite Hdig, Hval. f_equal. lia.
    + destruct (IH (n / 10)%Z (String (digit_char (n mod 10)) s))
        as (k & Hk & Hscan).
      { split; [apply Z.div_pos; lia | apply Z.div_lt_upper_bound; lia]. }
      exists (k + 1)%Z. split; [lia|]. intros a. rewrite Hscan.
      cbn [scan_digits]. rewrite Hdig, Hval. f_equal.
      rewrite Z.pow_add_r by lia. lia.
Qed.


Lemma put_digits_head (fuel : nat) :
  forall (n : Z) (acc : string),
    (0 <= n)%Z -> starts_with_digit acc \/ (0 < fuel)%nat ->
    starts_with_digit (put_digits fuel n acc).
Proof.
  induction fuel as [|fuel IH]; intros n acc Hn H.
  - destruct H; [done|lia].
  - cbn [put_digits].
    pose proof (Z.mod_pos_bound n 10 ltac:(lia)) as Hmod.
    destruct (digit_char_spec (n mod 10) ltac:(lia)) as (H1 & _ & H2 & H3 & H4).
    destruct (n / 10 =? 0)%Z; [done|].
    apply IH; [apply Z.div_pos; lia|]. by left.
Qed.

Lemma log2_fuel_bound (n : Z) :
  (0 <= n)%Z -> (n < 10 ^ Z.of_nat (S (Z.to_nat (Z.log2 n))))%Z.
Proof.
  intros Hn. pose proof (Z.log2_nonneg n) as Hl.
  rewrite Nat2Z.inj_succ, Z2Nat.id by lia.
  destruct (Z.eq_dec n 0%Z) as [->|Hne]; [cbn; lia|].
  pose proof (Z.log2_spec n ltac:(lia)) as [_ Hlt].
  eapply Z.lt_le_trans; [exact Hlt|].
  apply Z.pow_le_mono_l. lia.
Qed.

Lemma scan_fmt_nonneg (n : Z) :
  (0 <= n)%Z ->
  scan_digits 0 (put_digits (S (Z.to_nat (Z.log2 n))) n "") = n.
Proof.
  intros Hn.
  destruct (scan_put_digits (S (Z.to_nat (Z.log2 n))) n "")
    as (k & _ & H); [split; [lia | by apply log2_fuel_bound]|].
  rewrite H. cbn. lia.
Qed.

Lemma atoi_fmt_d (z : Z) :
  (INT_MIN <= z <= INT_MAX)%Z -> atoi (fmt_d z) = z.
Proof.
  unfold INT_MIN, INT_MAX. intros Hz. unfold atoi, strtol10, fmt_d.
  assert (Hint : forall v, v = z ->
            int_of_long (Z.max LONG_MIN (Z.min LONG_MAX v)) = z).
  { intros v ->. unfold int_of_long, LONG_MIN, LONG_MAX.
    rewrite Z.min_r, Z.max_r by lia. rewrite Z.mod_small by lia. lia. }
  destruct (Z.ltb_spec z 0).
  - cbn [skip_space]. change (isspace "-") with false. cbn iota.
    rewrite Ascii.eqb_refl. apply Hint.
    rewrite scan_fmt_nonneg by lia. lia.
  - pose proof (put_digits_head (S (Z.to_nat (Z.log2 z))) z "" ltac:(lia)
                  ltac:(right; lia)) as Hhead.
    pose proof (scan_fmt_nonneg z ltac:(lia)) as Hscan.
    destruct (put_digits _ z "") as [|a r]; [done|].
    destruct Hhead as (_ & Hsp & Hm & Hp).
    cbn [skip_space]. rewrite Hsp, Hm, Hp. by apply Hint.
Qed.

(** * Reading the stream *)

Lemma char_in_app (a : ascii) (s t : string) :
  char_in a (s +:+ t) = char_in a s || char_in a t.
Proof.
  induction s as [|b s IH]; cbn; [done|]. rewrite IH. by rewrite orb_assoc.
Qed.

Lemma char_in_cons_false (c a : ascii) (s : string) :
  char_in c (String a s) = false ->
  Ascii.eqb a c = false /\ char_in c s = false.
Proof.
  cbn. intros H. apply orb_false_elim in H as [H1 H2].
  by rewrite Ascii.eqb_sym.
Qed.

Lemma read_chunk_length (n : nat) (s : string) :
  (String.length (read_chunk n s).1 <= n)%nat.
Proof.
  revert s. induction n as [|n IH]; intros [|a s]; cbn; try lia.
  destruct (Ascii.eqb a LF); cbn; [lia|].
  specialize (IH s). destruct (read_chunk n s). cbn in *. lia.
Qed.

Lemma read_chunk_app (n : nat) (s : string) :
  (read_chunk n s).1 +:+ (read_chunk n s).2 = s.
Proof.
  revert s. induction n as [|n IH]; intros [|a s]; try done.
  cbn [read_chunk]. destruct (Ascii.eqb a LF); [done|].
  specialize (IH s). destruct (read_chunk n s). cbn in *. by rewrite IH.
Qed.

Lemma read_chunk_rest (n : nat) (s : string) :
  (0 < n)%nat -> s <> "" ->
  (String.length (read_chunk n s).2 < String.length s)%nat.
Proof.
  intros Hn Hs.
  pose proof (read_chunk_app n s) as H.
  apply (f_equal String.length) in H. rewrite string_length_app in H.
  assert (1 <= String.length (read_chunk n s).1)%nat.
  { destruct n as [|n]; [lia|]. destruct s as [|a s]; [done|].
    cbn [read_chunk]. destruct (Ascii.eqb a LF); [cbn; lia|].
    destruct (read_chunk n s). cbn. lia. }
  lia.
Qed.

Lemma fgets_rest (s buf rest : string) :
  fgets MAX_LINE s = Some (buf, rest) ->
  (String.length rest < String.length s)%nat /\
  (String.length buf < MAX_LINE)%nat.
Proof.
  intros H.
  assert (Hs : s <> "") by (intros ->; discriminate).
  assert (E : read_chunk (MAX_LINE - 1) s = (buf, rest))
    by (destruct s; [done | unfold fgets in H; congruence]).
  assert (Hpos : (0 < MAX_LINE - 1)%nat) by (unfold MAX_LINE; lia).
  pose proof (read_chunk_rest (MAX_LINE - 1) s Hpos Hs) as H1.
  pose proof (read_chunk_length (MAX_LINE - 1) s) as H2.
  rewrite E in H1, H2. cbn [fst snd] in *. lia.
Qed.

Lemma read_chunk_line (n : nat) (l rest : string) :
  char_in LF l = false -> (String.length l < n)%nat ->
  read_chunk n (l +:+ nl +:+ rest) = (l +:+ nl, rest).
Proof.
  revert n. induction l as [|a l IH]; intros [|n] Hl Hn;
    cbn [String.append String.length read_chunk] in *; try lia.
  - done.
  - apply char_in_cons_false in Hl as [Ha Hl]. rewrite Ha.
    rewrite IH by (done || lia). done.
Qed.

Lemma read_chunk_full (l rest : string) :
  char_in LF l = false ->
  read_chunk (String.length l) (l +:+ rest) = (l, rest).
Proof.
  induction l as [|a l IH]; intros Hl;
    cbn [String.append String.length read_chunk] in *.
  - by destruct rest.
  - apply char_in_cons_false in Hl as [Ha Hl]. rewrite Ha.
    rewrite IH by done. done.
Qed.

Lemma read_chunk_last (n : nat) (l : string) :
  char_in LF l = false -> (String.length l <= n)%nat ->
  read_chunk n l = (l, "").
Proof.
  revert n. induction l as [|a l IH]; intros [|n] Hl Hn;
    cbn [String.append String.length read_chunk] in *; try done; try lia.
  apply char_in_cons_false in Hl as [Ha Hl]. rewrite Ha.
  rewrite IH by (done || lia). done.
Qed.

Lemma load_loop_fuel (f1 : nat) :
  forall (f2 : nat) (s : string) (st : LoadState),
    (String.length s <= f1)%nat -> (String.length s <= f2)%nat ->
    load_loop f1 s st = load_loop f2 s st.
Proof.
  induction f1 as [|f1 IH]; intros f2 s st H1 H2.
  - destruct s; [|cbn in H1; lia]. by destruct f2.
  - destruct f2 as [|f2].
    + destruct s; [done | cbn in H2; lia].
    + cbn [load_loop]. destruct (fgets MAX_LINE s) as [[buf rest]|] eqn:E;
        [|done].
      apply fgets_rest in E as [E _]. apply IH; lia.
Qed.

Lemma load_stream_nil (st : LoadState) : load_stream "" st = st.
Proof. reflexivity. Qed.

Lemma load_stream_step (s buf rest : string) (st : LoadState) :
  fgets MAX_LINE s = Some (buf, rest) ->
  load_stream s st = load_stream rest (load_line buf st).
Proof.
  intros E. unfold load_stream. pose proof (fgets_rest _ _ _ E) as [Hlt _].
  destruct (String.length s) as [|n] eqn:Hs; [lia|].
  cbn [load_loop]. rewrite E. apply load_loop_fuel; lia.
Qed.

Lemma read_buffers_fuel (f1 : nat) :
  forall (f2 : nat) (s : string),
    (String.length s <= f1)%nat -> (String.length s <= f2)%nat ->
    read_buffers f1 s = read_buffers f2 s.
Proof.
  induction f1 as [|f1 IH]; intros f2 s H1 H2.
  - destruct s; [|cbn in H1; lia]. by destruct f2.
  - destruct f2 as [|f2].
    + destruct s; [done | cbn in H2; lia].
    + cbn [read_buffers]. destruct (fgets MAX_LINE s) as [[buf rest]|] eqn:E;
        [|done].
      apply fgets_rest in E as [E _]. f_equal. apply IH; lia.
Qed.

Lemma file_buffers_step (s buf rest : string) :
  fgets MAX_LINE s = Some (buf, rest) ->
  file_buffers s = buf :: file_buffers rest.
Proof.
  intros E. unfold file_buffers. pose proof (fgets_rest _ _ _ E) as [Hlt _].
  destruct (String.length s) as [|n] eqn:Hs; [lia|].
  cbn [read_buffers]. rewrite E. f_equal. apply read_buffers_fuel; lia.
Qed.

(** The loop handles the buffers of the file one after the other. *)
Lemma load_stream_buffers (s : string) (st : LoadState) :
  load_stream s st = foldl (fun st buf => load_line buf st) st (file_buffers s).
Proof.
  remember (String.length s) as n eqn:Hn. revert s st Hn.
  induction n as [n IH] using lt_wf_ind. intros s st ->.
  destruct (fgets MAX_LINE s) as [[buf rest]|] eqn:E.
  - rewrite (load_stream_step _ _ _ _ E), (file_buffers_step _ _ _ E).
    cbn [foldl]. apply fgets_rest in E as [E _]. by eapply IH.
  - destruct s; [done | discriminate].
Qed.

Lemma file_buffers_length (s : string) :
  Forall (fun buf => (String.length buf < MAX_LINE)%nat) (file_buffers s).
Proof.
  remember (String.length s) as n eqn:Hn. revert s Hn.
  induction n as [n IH] using lt_wf_ind. intros s ->.
  destruct (fgets MAX_LINE s) as [[buf rest]|] eqn:E.
  - rewrite (file_buffers_step _ _ _ E).
    pose proof (fgets_rest _ _ _ E) as [H1 H2].
    constructor; [done|]. by eapply IH.
  - destruct s; [constructor | discriminate].
Qed.

(** * Lines of text *)

Lemma c_str_clean (l : string) : char_in NUL l = false -> c_str l = l.
Proof.
  induction l as [|a l IH]; [done|]. intros H.
  apply char_in_cons_false in H as [Ha Hl]. cbn [c_str].
  rewrite Ha, IH by done. done.
Qed.

Lemma strchr_clean (c : ascii) (l : string) :
  char_in c l = false -> strchr l c = None.
Proof.
  induction l as [|a l IH]; [done|]. intros H.
  apply char_in_cons_false in H as [Ha Hl]. cbn [strchr].
  rewrite Ha, IH by done. done.
Qed.

Lemma strchr_first (c : ascii) (l r : string) :
  char_in c l = false -> strchr (l +:+ String c r) c = Some (String.length l).
Proof.
  induction l as [|a l IH]; intros H.
  - cbn. by rewrite Ascii.eqb_refl.
  - apply char_in_cons_false in H as [Ha Hl].
    cbn [String.append strchr String.length]. rewrite Ha, IH by done. done.
Qed.

Lemma string_take_app (l r : string) : string_take (String.length l) (l +:+ r) = l.
Proof.
  induction l as [|a l IH]; cbn; [by destruct r|]. by rewrite IH.
Qed.

Lemma string_drop_app (l r : string) : string_drop (String.length l) (l +:+ r) = r.
Proof. induction l as [|a l IH]; cbn; [by destruct r | done]. Qed.

Lemma cut_newline_line (l : string) :
  char_in LF l = false -> char_in NUL l = false -> cut_newline (l +:+ nl) = l.
Proof.
  intros H1 H2. unfold cut_newline.
  rewrite c_str_clean by (rewrite char_in_app, H2; done).
  unfold nl. rewrite strchr_first by done. apply string_take_app.
Qed.

Lemma cut_newline_clean (l : string) :
  char_in LF l = false -> char_in NUL l = false -> cut_newline l = l.
Proof.
  intros H1 H2. unfold cut_newline.
  rewrite c_str_clean by done. by rewrite strchr_clean.
Qed.

Lemma fgets_nonempty (n : nat) (s : string) :
  s <> "" -> fgets n s = Some (read_chunk (n - 1) s).
Proof. by destruct s. Qed.

Lemma string_app_nonempty (l : string) (a : ascii) (r : string) :
  l +:+ String a r <> "".
Proof. by destruct l. Qed.

Lemma fgets_newline (rest : string) :
  fgets MAX_LINE (nl +:+ rest) = Some (nl, rest).
Proof.
  rewrite fgets_nonempty by done. apply (f_equal Some).
  exact (read_chunk_line (MAX_LINE - 1) "" rest eq_refl
           ltac:(unfold MAX_LINE; cbn [String.length]; lia)).
Qed.

(** A line of text followed by its newline is handled as a whole. *)
Lemma load_stream_text_line (l rest : string) (st : LoadState) :
  text_line l ->
  load_stream (l +:+ nl +:+ rest) st = load_stream rest (handle_line l st).
Proof.
  intros (Hlf & Hnul & Hlen). unfold MAX_LINE in Hlen.
  destruct (decide (String.length l < MAX_LINE - 1)%nat) as [Hlt|Hge].
  - rewrite (load_stream_step _ (l +:+ nl) rest).
    + unfold load_line. by rewrite cut_newline_line.
    + rewrite fgets_nonempty by apply string_app_nonempty.
      by rewrite read_chunk_line.
  - assert (Hfull : (MAX_LINE - 1)%nat = String.length l)
      by (unfold MAX_LINE in *; lia).
    rewrite (load_stream_step _ l (nl +:+ rest)).
    + rewrite (load_stream_step _ nl rest) by apply fgets_newline.
      unfold load_line. rewrite (cut_newline_clean l) by done.
      change (cut_newline nl) with "".
      by destruct (handle_line l st).
    + rewrite fgets_nonempty by apply string_app_nonempty.
      rewrite Hfull. by rewrite read_chunk_full.
Qed.

(** A last line of text without newline is handled as a whole. *)
Lemma load_stream_last_line (l : string) (st : LoadState) :
  text_line l -> l <> "" -> load_stream l st = handle_line l st.
Proof.
  intros (Hlf & Hnul & Hlen) Hne.
  rewrite (load_stream_step _ l "").
  - unfold load_line. by rewrite cut_newline_clean.
  - rewrite fgets_nonempty by done.
    rewrite read_chunk_last; [done..|]. lia.
Qed.

Lemma load_stream_unlines (ls : list string) (st : LoadState) :
  Forall text_line ls ->
  load_stream (unlines ls) st = foldl (fun st l => handle_line l st) st ls.
Proof.
  intros H. revert st. induction H as [|l ls Hl _ IH]; intros st; [done|].
  rewrite unlines_cons, load_stream_text_line by done. apply IH.
Qed.

(** * One line of the loop *)

Lemma skip_blanks_length (s : string) :
  (String.length (skip_blanks s) <= String.length s)%nat.
Proof.
  induction s as [|a s IH]; cbn; [lia|].
  destruct (Ascii.eqb a " " || Ascii.eqb a TAB); cbn; lia.
Qed.

Lemma skip_blanks_head (a : ascii) (s : string) :
  Ascii.eqb a " " = false -> Ascii.eqb a TAB = false ->
  skip_blanks (String a s) = String a s.
Proof. intros H1 H2. cbn. by rewrite H1, H2. Qed.


Lemma handle_line_equals (k v sec : string) (c : Config) :
  char_in "=" k = false ->
  let line := k +:+ "=" +:+ v in
  handle_line line (sec, c) =
  if is_skipped line then (sec, c)
  else if is_section_header line then (section_name line, c)
  else (sec, assign_key (skip_blanks k) (skip_blanks v) c).
Proof.
  intros Hk. cbn zeta. unfold handle_line.
  destruct (is_skipped _); [done|]. destruct (is_section_header _); [done|].
  change ("=" +:+ v) with (String "=" v).
  rewrite strchr_first by done.
  rewrite string_take_app.
  replace (string_drop (S (String.length k)) (k +:+ String "=" v)) with v;
    [done|].
  clear. induction k as [|a k IH]; [done|]. exact IH.
Qed.

Lemma unrecognized_head (a : ascii) (k : string) :
  Ascii.eqb a "h" = false -> Ascii.eqb a "a" = false ->
  Ascii.eqb a "m" = false -> Ascii.eqb a "e" = false ->
  assoc (String a k) settings_by_name = None.
Proof.
  intros H1 H2 H3 H4. cbn [assoc settings_by_name String.eqb].
  by rewrite H1, H2, H3, H4.
Qed.

(** A line with an equals sign that the loop skips or takes as a section
    header has a key that names no field. *)
Lemma equals_line_unrecognized (k v : string) :
  char_in "=" k = false ->
  is_skipped (k +:+ "=" +:+ v) || is_section_header (k +:+ "=" +:+ v) = true ->
  assoc (skip_blanks k) settings_by_name = None.
Proof.
  intros Hk H.
  assert (Hhead : forall a k', k = String a k' ->
            Ascii.eqb a "#" || Ascii.eqb a NUL || Ascii.eqb a "[" = true ->
            assoc (skip_blanks k) settings_by_name = None).
  { intros a k' -> Ha.
    assert (Ha' : a = "#"%char \/ a = NUL \/ a = "["%char).
    { destruct (Ascii.eqb_spec a "#"); [by left|].
      destruct (Ascii.eqb_spec a NUL); [by right; left|].
      destruct (Ascii.eqb_spec a "["); [by right; right|]. done. }
    destruct Ha' as [-> | [-> | ->]]; reflexivity. }
  destruct k as [|a k']; [discriminate|].
  eapply Hhead; [done|].
  apply orb_true_iff in H as [Hskip|Hhdr].
  - unfold is_skipped in Hskip.
    change (char_at (String a k' +:+ "=" +:+ v) 0) with a in Hskip.
    apply orb_true_iff in Hskip as [Hskip|Hskip]; [by rewrite Hskip|].
    exfalso. apply Nat.eqb_eq in Hskip.
    revert Hskip Hk. generalize (String a k'). clear. intros k.
    unfold strlen. induction k as [|b k IH]; intros H Hk.
    + discriminate.
    + apply char_in_cons_false in Hk as [_ Hk].
      cbn [String.append strspn String.length] in H.
      destruct (char_in b _); [|discriminate].
      apply IH; [injection H as H; exact H | done].
  - unfold is_section_header in Hhdr.
    change (char_at (String a k' +:+ "=" +:+ v) 0) with a in Hhdr.
    apply andb_true_iff in Hhdr as [Hhdr _]. rewrite Hhdr.
    by rewrite !orb_true_r.
Qed.


(** A line with an equals sign whose key names a field is assigned. *)
Lemma handle_line_recognized (k v sec : string) (c : Config) :
  char_in "=" k = false ->
  is_Some (assoc (skip_blanks k) settings_by_name) ->
  handle_line (k +:+ "=" +:+ v) (sec, c)
  = (sec, assign_key (skip_blanks k) (skip_blanks v) c).
Proof.
  intros Hk [set Hset]. rewrite handle_line_equals by done. cbn zeta.
  pose proof (equals_line_unrecognized k v Hk) as Hun.
  destruct (is_skipped _); [|destruct (is_section_header _)];
    [rewrite Hun in Hset by done; discriminate.. | done].
Qed.

Lemma c_str_length (s : string) :
  (String.length (c_str s) <= String.length s)%nat.
Proof.
  induction s as [|a s IH]; cbn; [lia|].
  destruct (Ascii.eqb a NUL); cbn; lia.
Qed.

Lemma string_take_length (n : nat) (s : string) :
  (String.length (string_take n s) <= String.length s)%nat.
Proof.
  revert n. induction s as [|a s IH]; intros [|n]; cbn; try lia.
  specialize (IH n). lia.
Qed.

Lemma cut_newline_length (buf : string) :
  (String.length (cut_newline buf) <= String.length buf)%nat.
Proof.
  unfold cut_newline. pose proof (c_str_length buf).
  destruct (strchr (c_str buf) LF); [|done].
  pose proof (string_take_length n (c_str buf)). lia.
Qed.

(** Every line the loop handles fits the line buffer. *)
Lemma file_lines_length (stream line : string) :
  line ∈ file_lines stream -> (String.length line < MAX_LINE)%nat.
Proof.
  unfold file_lines. intros H. apply list_elem_of_fmap in H as (buf & -> & H).
  pose proof (file_buffers_length stream) as HF.
  rewrite Forall_forall in HF. specialize (HF _ H).
  pose proof (cut_newline_length buf). lia.
Qed.

(** The loop is the handling of the lines of the file in turn. *)
Lemma load_stream_lines (stream : string) (st : LoadState) :
  load_stream stream st
  = foldl (fun st line => handle_line line st) st (file_lines stream).
Proof.
  rewrite load_stream_buffers. unfold file_lines, load_line.
  generalize (file_buffers stream). intros l. revert st.
  induction l as [|b l IH]; intros st; [done|]. cbn. apply IH.
Qed.






(** * Coercion of values *)




Lemma assign_key_integer (key value : string) (c : Config)
    (set : Z -> Config -> Config) :
  assoc key integer_settings = Some set ->
  assign_key key value c = set (atoi value) c.
Proof.
  intros H. unfold assign_key, strcmp_eq.
  destruct (String.eqb_spec key "home_networks") as [->|_];
    [vm_compute in H; discriminate|].
  cbn [assoc integer_settings] in H.
  repeat (destruct (String.eqb key _); [injection H as <-; reflexivity|]).
  discriminate.
Qed.

Lemma integer_settings_by_name (key : string) (set : Z -> Config -> Config) :
  assoc key integer_settings = Some set ->
  is_Some (assoc key settings_by_name).
Proof.
  intros H. cbn [assoc integer_settings settings_by_name] in *.
  destruct (String.eqb key "home_networks"); [by eexists|].
  repeat (destruct (String.eqb key _); [by eexists|]). discriminate.
Qed.




(** * Repeated keys *)

Lemma key_value_line_handle (line k v sec : string) (c : Config) :
  key_value_line line = Some (k, v) ->
  handle_line line (sec, c) = (sec, assign_key k v c).
Proof.
  unfold key_value_line, handle_line.
  destruct (is_skipped line); [discriminate|].
  destruct (is_section_header line); [discriminate|]. cbn [orb].
  destruct (strchr line "="); [|discriminate]. by intros [= <- <-].
Qed.

Lemma key_value_line_length (line k v : string) :
  key_value_line line = Some (k, v) ->
  (String.length v <= String.length line)%nat.
Proof.
  unfold key_value_line.
  destruct (is_skipped line || is_section_header line); [discriminate|].
  destruct (strchr line "=") as [n|]; [|discriminate]. intros [= _ <-].
  pose proof (skip_blanks_length (string_drop (S n) line)).
  assert (forall m s, (String.length (string_drop m s) <= String.length s)%nat)
    as Hdrop.
  { clear. intros m s. revert m.
    induction s as [|a s IH]; intros [|m];
      cbn [string_drop String.length]; try lia.
    specialize (IH m). lia. }
  specialize (Hdrop (S n) line).
  change (String.length (skip_blanks (string_drop (S n) line))
          <= String.length line)%nat. lia.
Qed.

Lemma field_value_same_scalars (key : string) (c c' : Config) :
  same_scalars c c' -> field_value key c' = field_value key c.
Proof.
  intros (?&?&?&?&?&?&?&?&?). unfold field_value. congruence.
Qed.

Lemma handle_line_other (line key sec : string) (c : Config) :
  key_value_line line = None ->
  field_value key (handle_line line (sec, c)).2 = field_value key c.
Proof.
  unfold key_value_line, handle_line.
  destruct (is_skipped line); [done|].
  destruct (is_section_header line); [done|]. cbn [orb].
  destruct (strchr line "="); [discriminate|]. intros _.
  destruct (_ && _ && _); [|done]. cbn [snd].
  apply field_value_same_scalars.
  pose proof (same_scalars_store (nas_count c)
                (strncpy line (MAX_LINE - 1)) c) as (?&?&?&?&?&?&?&?&?).
  by repeat split.
Qed.

Lemma field_value_assign_same (key value : string) (c : Config) :
  (String.length value < MAX_LINE)%nat ->
  is_Some (coerced_value key value) ->
  field_value key (assign_key key value c) = coerced_value key value.
Proof.
  intros Hlen [x Hx]. revert Hx.
  unfold field_value, coerced_value, assign_key, strcmp_eq, strncpy.
  rewrite string_take_all by lia. cbn [assoc].
  repeat (destruct (String.eqb key _); [reflexivity|]). discriminate.
Qed.

Lemma field_value_assign_other (key key' value : string) (c : Config) :
  key' <> key ->
  field_value key (assign_key key' value c) = field_value key c.
Proof.
  intros Hne. unfold field_value, assign_key, strcmp_eq. cbn [assoc].
  repeat match goal with
         | |- context [String.eqb ?a ?b] =>
             is_var a; destruct (String.eqb_spec a b) as [->|?]
         end;
    try reflexivity; congruence.
Qed.

(** C9. When a key that names a field is on several key/value lines of a
    file, the field holds after [load_config] the value of the last of
    them: for a key/value line with key [k] and value [v] after which no
    line has the key [k], the field named by [k] holds [v] coerced. *)
Theorem load_last_occurrence_wins
    (fs : gmap string string) (c0 : Config) (stream : string)
    (before after : list string) (line k v : string) :
  fs !! config_path c0 = Some stream ->
  file_lines stream = before ++ line :: after ->
  key_value_line line = Some (k, v) ->
  is_Some (coerced_value k v) ->
  (forall l v', l ∈ after -> key_value_line l <> Some (k, v')) ->
  field_value k (load_config fs c0).2 = coerced_value k v.
Proof.
  intros Hfs Hlines Hline Hrec Hafter.
  unfold load_config. rewrite Hfs. cbn [snd].
  rewrite load_stream_lines, Hlines, foldl_app. cbn [foldl].
  assert (Hlen : (String.length v < MAX_LINE)%nat).
  { pose proof (key_value_line_length _ _ _ Hline) as Hv.
    pose proof (file_lines_length stream line) as Hl.
    rewrite Hlines in Hl. specialize (Hl ltac:(set_solver)). lia. }
  destruct (foldl _ _ before) as [sec c].
  rewrite (key_value_line_handle _ _ _ _ _ Hline).
  assert (Hinv : field_value k (sec, assign_key k v c).2 = coerced_value k v)
    by (by apply field_value_assign_same).
  revert Hinv. generalize (sec, assign_key k v c). clear -Hafter.
  induction after as [|l after IH]; intros st Hinv; [done|].
  cbn [foldl]. apply IH; [intros; apply Hafter; set_solver|].
  destruct st as [sec c]. cbn [snd] in Hinv.
  destruct (key_value_line l) as [[k' v']|] eqn:El.
  - rewrite (key_value_line_handle _ _ _ _ _ El). cbn [snd].
    rewrite field_value_assign_other; [done|].
    intros ->. eapply Hafter; [|done]. set_solver.
  - by rewrite handle_line_other.
Qed.

Lemma load_last_occurrence_wins_witness :
  let stream :=
    "home_ac_interval=5" +:+ nl +:+ "min_battery_level=7" +:+ nl +:+
    "home_ac_interval=30" +:+ nl +:+ "# home_ac_interval=99" +:+ nl in
  field_value "home_ac_interval"
    (load_config {[ config_path start_config := stream ]} start_config).2
  = Some (IntegerValue 30).
Proof.
  cbn zeta.
  refine (load_last_occurrence_wins _ start_config _
            ["home_ac_interval=5"; "min_battery_level=7"]
            ["# home_ac_interval=99"] "home_ac_interval=30"
            "home_ac_interval" "30"
            (lookup_singleton_eq _ _) _ _ _ _).
  - by vm_compute.
  - by vm_compute.
  - by eexists.
  - intros l v' Hl. apply list_elem_of_singleton in Hl as ->.
    by vm_compute.
Defined.

(** * Blanks around values *)


Lemma handle_line_device (line : string) (c : Config) :
  (String.length line < MAX_LINE)%nat ->
  is_skipped line = false -> is_section_header line = false ->
  char_in "=" line = false -> contains "/" line ->
  config_ok c -> (nas_count c < MAX_NAS_DEVICES)%Z ->
  let st := handle_line line ("nas_devices", c) in
  st.1 = "nas_devices" /\
  nas_count st.2 = (nas_count c + 1)%Z /\
  devices st.2 = devices c ++ [line] /\
  same_scalars c st.2 /\
  length (nas_devices st.2) = length (nas_devices c).
Proof.
  intros Hlen Hskip Hhdr Heq Hsl Hok Hlt. cbn zeta. unfold handle_line.
  rewrite Hskip, Hhdr, strchr_clean by done.
  apply strstr_slash in Hsl. rewrite Hsl.
  destruct (Z.ltb_spec (nas_count c) MAX_NAS_DEVICES); [|lia].
  change (strcmp_eq "nas_devices" "nas_devices") with true. cbn [andb fst snd].
  unfold strncpy. rewrite string_take_all by lia. rewrite nas_count_store.
  split; [done|]. split; [done|]. split; [by apply devices_append|].
  split.
  - pose proof (same_scalars_store (nas_count c) line c) as (?&?&?&?&?&?&?&?&?).
    by repeat split.
  - cbn. apply length_store.
Qed.



(** * Round trip *)

Lemma char_in_put_digits (c : ascii) (fuel : nat) :
  forall (n : Z) (acc : string),
    (0 <= n)%Z -> isdigit c = false -> char_in c acc = false ->
    char_in c (put_digits fuel n acc) = false.
Proof.
  induction fuel as [|fuel IH]; intros n acc Hn Hc Hacc; [done|].
  cbn [put_digits].
  pose proof (Z.mod_pos_bound n 10 ltac:(lia)) as Hmod.
  destruct (digit_char_spec (n mod 10) ltac:(lia)) as (Hdig & _).
  assert (Hacc' : char_in c (String (digit_char (n mod 10)) acc) = false).
  { cbn [char_in]. rewrite Hacc, orb_false_r.
    apply Ascii.eqb_neq. intros ->. congruence. }
  destruct (n / 10 =? 0)%Z; [done|].
  apply IH; [apply Z.div_pos; lia | done | done].
Qed.

Lemma char_in_fmt_d (c : ascii) (z : Z) :
  isdigit c = false -> Ascii.eqb c "-" = false -> char_in c (fmt_d z) = false.
Proof.
  intros Hc Hm. unfold fmt_d. destruct (Z.ltb_spec z 0).
  - cbn [char_in]. rewrite Hm. cbn [orb].
    apply char_in_put_digits; [lia | done | done].
  - apply char_in_put_digits; [lia | done | done].
Qed.

Lemma length_put_digits (fuel : nat) :
  forall (n : Z) (acc : string),
    (String.length (put_digits fuel n acc) <= fuel + String.length acc)%nat.
Proof.
  induction fuel as [|fuel IH]; intros n acc; [cbn; lia|].
  cbn [put_digits]. destruct (n / 10 =? 0)%Z; [cbn; lia|].
  specialize (IH (n / 10)%Z (String (digit_char (n mod 10)) acc)).
  cbn [String.length] in IH. lia.
Qed.

Lemma length_fmt_d (z : Z) :
  in_int_range z -> (String.length (fmt_d z) <= 34)%nat.
Proof.
  unfold in_int_range, INT_MIN, INT_MAX. intros Hz.
  assert (Hlog : forall n, (0 <= n <= 2 ^ 31)%Z ->
            (Z.to_nat (Z.log2 n) <= 31)%nat).
  { intros n Hn. destruct (Z.eq_dec n 0%Z) as [->|Hne]; [cbn; lia|].
    assert (Z.log2 n < 32)%Z; [|lia].
    apply Z.log2_lt_pow2; lia. }
  unfold fmt_d. destruct (Z.ltb_spec z 0).
  - cbn [String.length].
    pose proof (length_put_digits (S (Z.to_nat (Z.log2 (- z)))) (- z) "").
    pose proof (Hlog (- z)%Z ltac:(lia)). cbn [String.length] in *. lia.
  - pose proof (length_put_digits (S (Z.to_nat (Z.log2 z))) z "").
    pose proof (Hlog z ltac:(lia)). cbn [String.length] in *. lia.
Qed.

Lemma skip_blanks_fmt_d (z : Z) : skip_blanks (fmt_d z) = fmt_d z.
Proof.
  unfold fmt_d. destruct (Z.ltb_spec z 0); [done|].
  pose proof (put_digits_head (S (Z.to_nat (Z.log2 z))) z "" ltac:(lia)
                ltac:(right; lia)) as Hhead.
  destruct (put_digits _ z "") as [|a r]; [done|].
  destruct Hhead as (Hd & Hsp & _).
  apply skip_blanks_head.
  - apply Ascii.eqb_neq. intros ->. discriminate.
  - apply Ascii.eqb_neq. intros ->. discriminate.
Qed.

Lemma handle_line_integer (key : string) (z : Z)
    (set : Z -> Config -> Config) (sec : string) (c : Config) :
  char_in "=" key = false -> skip_blanks key = key ->
  assoc key integer_settings = Some set -> in_int_range z ->
  handle_line (key +:+ "=" +:+ fmt_d z) (sec, c) = (sec, set z c).
Proof.
  intros Hk Hkey Hset Hz.
  rewrite handle_line_recognized;
    [|done | rewrite Hkey; by eapply integer_settings_by_name].
  rewrite Hkey, skip_blanks_fmt_d.
  rewrite (assign_key_integer _ _ _ set) by done.
  by rewrite atoi_fmt_d.
Qed.

Lemma foldl_device_lines (ds : list string) :
  forall c : Config,
    Forall device_reloads ds -> config_ok c ->
    (nas_count c + Z.of_nat (length ds) <= MAX_NAS_DEVICES)%Z ->
    let st := foldl (fun st line => handle_line line st) ("nas_devices", c) ds in
    st.1 = "nas_devices" /\
    nas_count st.2 = (nas_count c + Z.of_nat (length ds))%Z /\
    devices st.2 = devices c ++ ds /\
    same_scalars c st.2 /\
    length (nas_devices st.2) = length (nas_devices c).
Proof.
  induction ds as [|d ds IH]; intros c Hds Hok Hcap; cbn zeta.
  - cbn [foldl length fst snd]. rewrite app_nil_r.
    repeat split; try done; lia.
  - apply Forall_cons_1 in Hds as [((_ & _ & Hlen) & Hsl & Heq & Hsk & Hhd) Hds].
    cbn [length] in Hcap. cbn [foldl].
    destruct (handle_line_device d c Hlen Hsk Hhd Heq Hsl Hok ltac:(lia))
      as (H1 & H2 & H3 & H4 & H5).
    destruct (handle_line d ("nas_devices", c)) as [sec1 c1].
    cbn [fst snd] in *. subst sec1.
    destruct (IH c1 Hds) as (G1 & G2 & G3 & G4 & G5).
    { destruct Hok as [Ha Hb]. split; [congruence | lia]. }
    { lia. }
    split; [done|]. split; [cbn [length]; lia|].
    split; [rewrite G3, H3, <- app_assoc; done|].
    split; [by eapply same_scalars_trans | congruence].
Qed.

Lemma handle_line_skipped (line : string) (st : LoadState) :
  is_skipped line = true -> handle_line line st = st.
Proof. intros H. unfold handle_line. destruct st. by rewrite H. Qed.

Lemma text_line_literal (l : string) :
  char_in LF l = false -> char_in NUL l = false ->
  (String.length l <? MAX_LINE)%nat = true -> text_line l.
Proof. intros H1 H2 H3. apply Nat.ltb_lt in H3. done. Qed.

Lemma config_file_lines_text (s : Config) :
  reloads s -> Forall text_line (config_file_lines s).
Proof.
  intros (Hok & (Hn1 & Hn2 & Hn3 & Hn4) & Hdev & Hi1 & Hi2 & Hi3 & Hi4 & Hi5 & Hi6).
  assert (Hint : forall key z, text_line key -> (String.length key < 900)%nat ->
            in_int_range z -> text_line (key +:+ fmt_d z)).
  { intros key z (H1 & H2 & _) Hlen Hz. unfold text_line.
    rewrite !char_in_app, H1, H2, !char_in_fmt_d by done.
    repeat split; try done.
    rewrite !string_length_app. pose proof (length_fmt_d z Hz).
    unfold MAX_LINE. lia. }
  unfold config_file_lines.
  repeat first
    [ apply Forall_app_2 | apply Forall_cons_2 | apply Forall_nil_2 ];
    try (apply text_line_literal; reflexivity);
    try (apply Hint; [apply text_line_literal; reflexivity | cbn; lia | done]).
  - unfold text_line. rewrite !char_in_app, Hn1, Hn2.
    rewrite string_length_app. done.
  - eapply Forall_impl; [exact Hdev|]. by intros d (H & _).
  - destruct (enable_notifications s); apply text_line_literal; reflexivity.
Qed.

Lemma handle_line_home_networks (v sec : string) (c : Config) :
  skip_blanks v = v -> (String.length v < MAX_LINE)%nat ->
  handle_line ("home_networks=" +:+ v) (sec, c) = (sec, set_home_networks v c).
Proof.
  intros Hv Hlen.
  change ("home_networks=" +:+ v) with ("home_networks" +:+ "=" +:+ v).
  rewrite handle_line_recognized by (done || by eexists).
  rewrite Hv. unfold assign_key.
  change (strcmp_eq (skip_blanks "home_networks") "home_networks") with true.
  cbn iota. unfold strncpy. rewrite string_take_all; [done|].
  unfold MAX_LINE in *. lia.
Qed.

Lemma handle_line_boolean (b : bool) (sec : string) (c : Config) :
  handle_line
    ("enable_notifications=" +:+ (if b then "true" else "false")) (sec, c)
  = (sec, set_enable_notifications b c).
Proof. by destruct b. Qed.

Lemma handle_line_header (line sec : string) (c : Config) :
  is_skipped line = false -> is_section_header line = true ->
  handle_line line (sec, c) = (section_name line, c).
Proof. intros H1 H2. unfold handle_line. by rewrite H1, H2. Qed.

(** One turn of the loop on a line that [save_config] writes, for the
    innermost call in the goal. *)
Ltac handle_written_line :=
  match goal with
  | |- context [handle_line ?l (?sec, ?c)] =>
      first
        [ rewrite (handle_line_skipped l (sec, c)) by reflexivity
        | rewrite (handle_line_header l sec c) by reflexivity;
          let n := eval vm_compute in (section_name l) in
          change (section_name l) with n
        | rewrite (handle_line_boolean _ sec c)
        | match l with
          | String.append ?k (fmt_d ?z) =>
              let key := eval vm_compute in (string_take (String.length k - 1) k) in
              change l with (key +:+ "=" +:+ fmt_d z);
              erewrite (handle_line_integer key z _ sec c) by (reflexivity || done)
          end ]
  end.

(** What the loop makes of a file written by [save_config]. *)
Lemma load_written_config (s c0 : Config) :
  reloads s ->
  length (nas_devices c0) = Z.to_nat MAX_NAS_DEVICES ->
  let c := (load_stream (write_config s) ("", set_defaults c0)).2 in
  config_path c = config_path c0 /\
  home_networks c = home_networks s /\
  home_ac_interval c = home_ac_interval s /\
  home_battery_interval c = home_battery_interval s /\
  away_ac_interval c = away_ac_interval s /\
  away_battery_interval c = away_battery_interval s /\
  max_failed_attempts c = max_failed_attempts s /\
  min_battery_level c = min_battery_level s /\
  enable_notifications c = enable_notifications s /\
  nas_count c = nas_count s /\
  devices c = devices s /\
  config_ok c.
Proof.
  intros Hre Hlen0. cbn zeta.
  pose proof Hre as
    (Hok & (Hn1 & Hn2 & Hn3 & Hn4) & Hdev & Hi1 & Hi2 & Hi3 & Hi4 & Hi5 & Hi6).
  destruct (load_stream _ _) as [secf cf] eqn:E. cbn [snd]. revert E.
  rewrite write_config_layout by done.
  rewrite load_stream_unlines by (by apply config_file_lines_text).
  unfold config_file_lines. rewrite !foldl_app. cbn [foldl].
  do 4 handle_written_line.
  rewrite handle_line_home_networks
    by (done || (cbn [String.length] in Hn4; lia)).
  do 3 handle_written_line.
  set (c1 := set_home_networks (home_networks s) (set_defaults c0)).
  destruct Hok as [Hlen Hcnt]. unfold MAX_NAS_DEVICES in *.
  assert (Hld : length (devices s) = Z.to_nat (nas_count s))
    by (apply length_devices; lia).
  destruct (foldl_device_lines (devices s) c1 Hdev)
    as (D1 & D2 & D3 & D4 & D5).
  { split; [exact Hlen0 | cbn; unfold MAX_NAS_DEVICES; lia]. }
  { change (nas_count c1) with 0%Z. unfold MAX_NAS_DEVICES. lia. }
  destruct (foldl (fun st line => handle_line line st) ("nas_devices", c1)
              (devices s)) as [sec2 c2].
  cbn [fst snd] in D1, D2, D3, D4, D5. subst sec2.
  do 12 handle_written_line.
  intros [= <- <-].
  destruct D4 as (P1 & P2 & _).
  change (nas_count c1) with 0%Z in D2. change (devices c1) with (@nil string) in D3.
  change (config_path c1) with (config_path c0) in P1.
  change (home_networks c1) with (home_networks s) in P2.
  change (length (nas_devices c1)) with (length (nas_devices c0)) in D5.
  unfold config_ok, devices in *. cbn.
  repeat split; try done; try lia; try congruence.
  - rewrite D5. exact Hlen0.
  - unfold MAX_NAS_DEVICES. lia.
Qed.

Lemma config_file_lines_same (s c : Config) :
  same_settings s c -> config_file_lines c = config_file_lines s.
Proof.
  intros ((_ & H1 & H2 & H3 & H4 & H5 & H6 & H7 & H8) & _ & H9).
  unfold config_file_lines.
  by rewrite H1, H2, H3, H4, H5, H6, H7, H8, H9.
Qed.

(** C1, amended. For every configuration that the file format gives back
    (see [reloads]: at most 10 device entries, each a line of text of at
    most 1023 bytes with a separator and no equals sign, not starting with
    [#] and not of the form of a section header; a network list on one line
    of at most 1009 bytes that does not start with a space or a tab;
    numbers in the range of [int]), saving it, loading the file and saving
    what was loaded gives the same field values, the device entries in the
    same order, and the same file. *)
Theorem save_load_round_trip
    (fs : gmap string string) (s c0 : Config) :
  reloads s ->
  config_path c0 = config_path s ->
  length (nas_devices c0) = Z.to_nat MAX_NAS_DEVICES ->
  let fs1 := (save_config true fs s).2 in
  let r := load_config fs1 c0 in
  (save_config true fs s).1 = true /\
  r.1 = true /\
  same_settings s r.2 /\
  save_config true fs1 r.2 = (true, fs1).
Proof.
  intros Hre Hpath Hlen. cbn zeta.
  destruct (load_written_config s c0 Hre Hlen)
    as (L1 & L2 & L3 & L4 & L5 & L6 & L7 & L8 & L9 & L10 & L11 & L12).
  cbn zeta in *.
  set (c := (load_stream (write_config s) ("", set_defaults c0)).2) in *.
  assert (Hsave : save_config true fs s
                  = (true, <[config_path s := write_config s]> fs))
    by reflexivity.
  rewrite Hsave. cbn [fst snd].
  assert (Hload : load_config (<[config_path s := write_config s]> fs) c0
                  = (true, c)).
  { unfold load_config. by rewrite Hpath, lookup_insert_eq. }
  rewrite Hload. cbn [fst snd].
  assert (Hsame : same_settings s c).
  { repeat split; try done. congruence. }
  split; [done|]. split; [done|]. split; [done|].
  unfold save_config. apply f_equal.
  rewrite L1, Hpath.
  rewrite (write_config_layout c) by done.
  rewrite (config_file_lines_same s c) by done.
  rewrite <- write_config_layout by apply Hre.
  apply insert_insert_eq.
Qed.

Lemma sample_settings_reloads : reloads sample_settings.
Proof.
  assert (Hdev : forall d, contains "/" d -> char_in LF d = false ->
            char_in NUL d = false -> (String.length d <? MAX_LINE)%nat = true ->
            char_in "=" d = false -> is_skipped d = false ->
            is_section_header d = false -> device_reloads d).
  { intros d ? ? ? H ? ? ?. apply Nat.ltb_lt in H. by repeat split. }
  repeat split; try reflexivity; try (vm_compute; discriminate).
  - unfold MAX_LINE. cbn. lia.
  - repeat constructor; apply Hdev; try reflexivity;
      apply strstr_slash; reflexivity.
Qed.

Lemma save_load_round_trip_witness :
  let fs1 := (save_config true ∅ sample_settings).2 in
  let r := load_config fs1 start_config in
  devices r.2 = ["nas1.local/media"; "192.168.1.10/back up"] /\
  save_config true fs1 r.2 = (true, fs1).
Proof.
  cbn zeta.
  destruct (save_load_round_trip ∅ sample_settings start_config
              sample_settings_reloads eq_refl eq_refl)
    as (_ & _ & (_ & _ & Hd) & Hs).
  split; [exact Hd | exact Hs].
Defined.

Lemma save_config_differs (fs : gmap string string) (s s' : Config) :
  config_path s' = config_path s ->
  write_config s' <> write_config s ->
  (save_config true (save_config true fs s).2 s').2
  <> (save_config true fs s).2.
Proof.
  intros Hpath Hne. unfold save_config. cbn [snd]. rewrite Hpath.
  rewrite insert_insert_eq. intros H.
  apply (f_equal (fun m => m !! config_path s)) in H.
  rewrite !lookup_insert_eq in H. congruence.
Qed.

(** C1 as stated fails on settings within the stated range whose
    network list starts with a space: the space is trimmed on load, so the
    loaded settings differ and are saved to a different file. *)
Lemma save_load_loses_leading_blank :
  let s := set_home_networks " Home" (set_defaults start_config) in
  let fs1 := (save_config true ∅ s).2 in
  let r := load_config fs1 s in
  in_range s /\
  r.1 = true /\ home_networks r.2 = "Home" /\
  ~ same_settings s r.2 /\
  (save_config true fs1 r.2).2 <> fs1.
Proof.
  cbn zeta.
  generalize (@empty (gmap string string) _). intros fs.
  set (s := set_home_networks " Home" (set_defaults start_config)).
  assert (Hr : load_config (save_config true fs s).2 s
               = (true, set_home_networks "Home" s)).
  { unfold save_config. cbn [snd]. unfold load_config.
    rewrite lookup_insert_eq. apply f_equal. by vm_compute. }
  rewrite Hr. cbn [fst snd].
  split; [|split; [done|split; [done|split]]].
  - split; [split; [reflexivity | vm_compute; split; discriminate]|].
    split; [vm_compute; discriminate | constructor].
  - intros ((_ & H & _) & _). discriminate.
  - apply (save_config_differs fs s (set_home_networks "Home" s) eq_refl).
    intros H. vm_compute in H. discriminate.
Qed.

(** * The invariant of the device list *)

Lemma contains_nonempty (a : ascii) (s : string) : contains a s -> s <> "".
Proof. intros H ->. inversion H. Qed.

Lemma assign_key_devices (key value : string) (c : Config) :
  nas_devices (assign_key key value c) = nas_devices c /\
  nas_count (assign_key key value c) = nas_count c.
Proof.
  unfold assign_key.
  repeat (destruct (strcmp_eq _ _); [done|]). done.
Qed.

(** The branch of the loop for a bare line (source lines 160-165). *)
Lemma handle_line_bare (line sec : string) (c : Config) :
  is_skipped line = false -> is_section_header line = false ->
  char_in "=" line = false ->
  (sec = "nas_devices" -> contains "/" line ->
   (nas_count c < MAX_NAS_DEVICES)%Z ->
   handle_line line (sec, c)
   = (sec, set_nas_count (nas_count c + 1)
             (store_nas_device (nas_count c) (strncpy line (MAX_LINE - 1)) c)))
  /\
  (sec <> "nas_devices" \/ ~ contains "/" line \/
   (MAX_NAS_DEVICES <= nas_count c)%Z ->
   handle_line line (sec, c) = (sec, c)).
Proof.
  intros Hskip Hhdr Heq. unfold handle_line.
  rewrite Hskip, Hhdr, strchr_clean by done. split.
  - intros -> Hsl Hlt. apply strstr_slash in Hsl. rewrite Hsl.
    destruct (Z.ltb_spec (nas_count c) MAX_NAS_DEVICES); [|lia].
    by rewrite nas_count_store.
  - intros [Hsec | [Hsl | Hfull]].
    + apply String.eqb_neq in Hsec. unfold strcmp_eq. by rewrite Hsec.
    + apply strstr_slash_None in Hsl. rewrite Hsl. by rewrite andb_false_r.
    + destruct (Z.ltb_spec (nas_count c) MAX_NAS_DEVICES); [lia|].
      by rewrite andb_false_r.
Qed.

Lemma devices_invariant_append (v : string) (c : Config) :
  config_ok c -> devices_invariant c -> contains "/" v ->
  (nas_count c < MAX_NAS_DEVICES)%Z ->
  let c' := set_nas_count (nas_count c + 1)
              (store_nas_device (nas_count c) v c) in
  config_ok c' /\ devices_invariant c'.
Proof.
  intros Hok [_ HF] Hv Hlt. cbn zeta.
  pose proof (devices_append v c Hok Hlt) as Hd.
  destruct Hok as [Hlen Hcnt]. split.
  - split; [|cbn; lia].
    change (length (nas_devices (store_nas_device (nas_count c) v c))
            = Z.to_nat MAX_NAS_DEVICES).
    by rewrite length_store.
  - unfold devices_invariant. rewrite Hd. split.
    + rewrite length_app, length_devices by (unfold MAX_NAS_DEVICES in *; lia).
      cbn [length]. unfold MAX_NAS_DEVICES in *. lia.
    + apply Forall_app_2; [done|]. constructor; [|constructor].
      split; [by eapply contains_nonempty | done].
Qed.

Lemma handle_line_invariant (line : string) (st : LoadState) :
  (String.length line < MAX_LINE)%nat ->
  config_ok st.2 -> devices_invariant st.2 ->
  config_ok (handle_line line st).2 /\
  devices_invariant (handle_line line st).2.
Proof.
  destruct st as [sec c]. cbn [snd]. intros Hlen Hok Hinv.
  unfold handle_line.
  destruct (is_skipped line); [done|].
  destruct (is_section_header line); [done|].
  destruct (strchr line "=") as [n|].
  - cbn [snd]. destruct (assign_key_devices
                 (skip_blanks (string_take n line))
                 (skip_blanks (string_drop (S n) line)) c) as [H1 H2].
    unfold config_ok, devices_invariant, devices. by rewrite H1, H2.
  - destruct (strcmp_eq sec "nas_devices"); [|done].
    destruct (non_null (strstr line "/")) eqn:Hsl; [|done].
    destruct (Z.ltb_spec (nas_count c) MAX_NAS_DEVICES); [|done].
    cbn [andb snd]. rewrite nas_count_store.
    unfold strncpy. rewrite string_take_all by lia.
    apply devices_invariant_append; try done. by apply strstr_slash.
Qed.

(** X12. Load leaves the device list within its invariant, whatever the
    file and the settings before: the count is within the array and every
    entry in use is non-empty and has a separator. *)
Lemma load_config_invariant (fs : gmap string string) (c0 : Config) :
  length (nas_devices c0) = Z.to_nat MAX_NAS_DEVICES ->
  config_ok (load_config fs c0).2 /\ devices_invariant (load_config fs c0).2.
Proof.
  intros Hlen.
  assert (H0 : config_ok (set_defaults c0) /\
               devices_invariant (set_defaults c0)).
  { split; [split; [done | by change (0 <= 0 <= 10)%Z]|].
    unfold devices_invariant.
    change (devices (set_defaults c0)) with (@nil string).
    split; [by change (0 <= 10)%Z | constructor]. }
  unfold load_config. destruct (fs !! config_path c0) as [stream|]; [|done].
  cbn [snd]. rewrite load_stream_lines.
  pose proof (file_lines_length stream) as Hl.
  revert Hl. generalize (file_lines stream). intros ls Hl.
  assert (forall st, config_ok st.2 /\ devices_invariant st.2 ->
            config_ok (foldl (fun st l => handle_line l st) st ls).2 /\
            devices_invariant (foldl (fun st l => handle_line l st) st ls).2)
    as Hfold.
  { induction ls as [|l ls IH]; intros st Hst; [done|]. cbn [foldl].
    apply IH; [intros; apply Hl; apply elem_of_cons; by right|].
    destruct Hst.
    apply handle_line_invariant; [apply Hl, elem_of_cons; by left|done..]. }
  by apply Hfold.
Qed.

(** X13. The removal of a device entry in use keeps the invariant of the
    device list. *)
Lemma on_remove_nas_clicked_invariant (c : Config) (i : Z) :
  config_ok c -> devices_invariant c -> (0 <= i < nas_count c)%Z ->
  devices_invariant (on_remove_nas_clicked (Some i) c).
Proof.
  intros Hok [Hn HF] Hi.
  destruct (remove_selected_device c i Hok Hi) as (_ & Hd & _).
  unfold devices_invariant. rewrite Hd. split.
  - destruct Hok as [Hlen Hcnt]. unfold MAX_NAS_DEVICES in *.
    rewrite length_delete
      by (apply lookup_lt_is_Some_2; rewrite length_devices; lia).
    lia.
  - by apply Forall_delete.
Qed.


(** * Further properties of the code *)

(** ** [init_config_path] *)

Lemma string_take_length_le (n : nat) (s : string) :
  (String.length (string_take n s) <= n)%nat.
Proof.
  revert s. induction n as [|n IH]; intros [|a s]; cbn; try lia.
  specialize (IH s). lia.
Qed.

Lemma string_take_length_eq (n : nat) (s : string) :
  (n <= String.length s)%nat -> String.length (string_take n s) = n.
Proof.
  revert s. induction n as [|n IH]; intros [|a s] H; cbn in *; try lia.
  rewrite IH by lia. done.
Qed.

Lemma string_take_prefix (n : nat) (s : string) :
  is_prefix (string_take n s) s = true.
Proof.
  revert s. induction n as [|n IH]; intros [|a s]; cbn; try done.
  by rewrite Ascii.eqb_refl, IH.
Qed.

(** X1. With [HOME] set, the configuration path always fits the path
    buffer and is the start of [HOME/.config/nas-monitor/config.conf];
    when that name is shorter than [MAX_PATH] the path is the whole name
    and the file lies in the directory that is made; otherwise the path is
    the first [MAX_PATH - 1] bytes of the name. *)
Theorem init_config_path_fits (home : string) (c : Config) :
  let path := config_path (init_config_path (Some home) c) in
  let dir := home +:+ "/.config/nas-monitor" in
  let name := home +:+ "/.config/nas-monitor/config.conf" in
  (String.length path < MAX_PATH)%nat /\
  is_prefix path name = true /\
  ((String.length name < MAX_PATH)%nat ->
   path = name /\
   config_dir_path (Some home) = Some dir /\
   path = dir +:+ "/config.conf") /\
  ((MAX_PATH <= String.length name)%nat ->
   String.length path = (MAX_PATH - 1)%nat).
Proof.
  cbn zeta. unfold init_config_path, config_dir_path, snprintf, fmt_s.
  cbn [config_path set_config_path].
  set (name := home +:+ "/.config/nas-monitor/config.conf").
  split; [|split; [|split]].
  - pose proof (string_take_length_le (MAX_PATH - 1) name).
    unfold MAX_PATH in *. lia.
  - apply string_take_prefix.
  - intros Hlen. rewrite string_take_all by lia.
    split; [done|]. split.
    + f_equal. apply string_take_all. unfold name in Hlen.
      rewrite string_length_app in *. cbn [String.length] in *. lia.
    + unfold name. by rewrite string_app_assoc.
  - intros Hlen. apply string_take_length_eq. lia.
Qed.

Lemma init_config_path_fits_witness :
  config_path (init_config_path (Some "/home/ann") zero_config)
  = "/home/ann/.config/nas-monitor/config.conf".
Proof.
  refine (proj1 (proj1 (proj2 (proj2
            (init_config_path_fits "/home/ann" zero_config))) _)).
  unfold MAX_PATH. cbn. lia.
Defined.

(** ** The reading loop at the bounds of its line buffer *)

(** X2. A file made of lines of text of at most [MAX_LINE - 1] bytes, each
    ended by a newline, is handled line by line, in order. *)
Theorem load_stream_line_by_line (ls : list string) (st : LoadState) :
  Forall text_line ls ->
  load_stream (unlines ls) st = foldl (fun st l => handle_line l st) st ls.
Proof. apply load_stream_unlines. Qed.

Lemma load_stream_line_by_line_witness :
  load_stream (unlines ["[nas_devices]"; "a/b"; "min_battery_level=20"])
    ("", set_defaults zero_config)
  = foldl (fun st l => handle_line l st) ("", set_defaults zero_config)
      ["[nas_devices]"; "a/b"; "min_battery_level=20"].
Proof.
  apply load_stream_line_by_line.
  repeat constructor; by vm_compute.
Defined.

(** X3. A line longer than the line buffer is not handled as one line:
    its first [MAX_LINE - 1] bytes are handled as a line of their own, and
    reading goes on with what follows them. *)
Theorem load_stream_long_line (l rest : string) (st : LoadState) :
  String.length l = (MAX_LINE - 1)%nat ->
  char_in LF l = false -> char_in NUL l = false ->
  load_stream (l +:+ rest) st = load_stream rest (handle_line l st).
Proof.
  intros Hlen Hlf Hnul.
  rewrite (load_stream_step _ l rest).
  - unfold load_line. by rewrite cut_newline_clean.
  - rewrite fgets_nonempty.
    + rewrite <- Hlen. by rewrite read_chunk_full.
    + destruct l; [discriminate | done].
Qed.

Lemma load_stream_long_line_witness :
  let l := "home_ac_interval=" +:+ repeat_char 1006 " " in
  home_ac_interval
    (load_stream (l +:+ "7" +:+ nl) ("", set_defaults zero_config)).2 = 0%Z.
Proof.
  cbn zeta.
  rewrite (load_stream_long_line
             ("home_ac_interval=" +:+ repeat_char 1006 " ") ("7" +:+ nl));
    [by vm_compute | by vm_compute..].
Defined.

(** ** What [load_config] makes of any file *)

Lemma strchr_None_char_in (c : ascii) (s : string) :
  strchr s c = None -> char_in c s = false.
Proof.
  induction s as [|a s IH]; [done|]. cbn [strchr char_in].
  rewrite (Ascii.eqb_sym c a). destruct (Ascii.eqb a c); [discriminate|].
  destruct (strchr s c); [discriminate|]. intros _. by apply IH.
Qed.

(** One turn of the loop either leaves the device entries as they are or
    appends the line, and then the line is a bare line with a separator
    read in the section of the devices. *)
Lemma handle_line_devices (line sec : string) (c : Config) :
  (String.length line < MAX_LINE)%nat -> config_ok c ->
  let st := handle_line line (sec, c) in
  config_ok st.2 /\ config_path st.2 = config_path c /\
  ((devices st.2 = devices c /\ nas_count st.2 = nas_count c) \/
   (devices st.2 = devices c ++ [line] /\
    nas_count st.2 = (nas_count c + 1)%Z /\ same_scalars c st.2 /\
    st.1 = sec /\ sec = "nas_devices" /\ contains "/" line /\
    char_in "=" line = false /\
    is_skipped line = false /\ is_section_header line = false)).
Proof.
  intros Hlen Hok. cbn zeta. unfold handle_line.
  assert (Hsame : forall s, config_ok (s, c).2 /\
            config_path (s, c).2 = config_path c /\
            ((devices (s, c).2 = devices c /\
              nas_count (s, c).2 = nas_count c) \/
             (devices (s, c).2 = devices c ++ [line] /\
              nas_count (s, c).2 = (nas_count c + 1)%Z /\
              same_scalars c (s, c).2 /\
              (s, c).1 = sec /\ sec = "nas_devices" /\ contains "/" line /\
              char_in "=" line = false /\
              is_skipped line = false /\ is_section_header line = false)))
    by (intros s; split; [done|split; [done|by left]]).
  destruct (is_skipped line) eqn:Hskip; [apply Hsame|].
  destruct (is_section_header line) eqn:Hhdr; [apply Hsame|].
  destruct (strchr line "=") as [n|] eqn:Heq.
  - cbn [snd]. destruct (assign_key_devices
                 (skip_blanks (string_take n line))
                 (skip_blanks (string_drop (S n) line)) c) as [H1 H2].
    split; [unfold config_ok; by rewrite H1, H2|]. split.
    + unfold assign_key. by repeat (destruct (strcmp_eq _ _); [done|]).
    + left. unfold devices. by rewrite H1, H2.
  - apply strchr_None_char_in in Heq.
    destruct (String.eqb_spec sec "nas_devices") as [->|Hsec];
      [|unfold strcmp_eq; apply String.eqb_neq in Hsec; rewrite Hsec;
        apply Hsame].
    change (strcmp_eq "nas_devices" "nas_devices") with true.
    destruct (non_null (strstr line "/")) eqn:Hsl; [|apply Hsame].
    destruct (Z.ltb_spec (nas_count c) MAX_NAS_DEVICES); [|apply Hsame].
    apply strstr_slash in Hsl.
    destruct (handle_line_device line c Hlen Hskip Hhdr Heq Hsl Hok ltac:(done))
      as (G1 & G2 & G3 & G4 & G5).
    unfold handle_line in G1, G2, G3, G4, G5.
    rewrite Hskip, Hhdr, (strchr_clean _ _ Heq) in G1, G2, G3, G4, G5.
    apply strstr_slash in Hsl. rewrite Hsl in G1, G2, G3, G4, G5.
    destruct (Z.ltb_spec (nas_count c) MAX_NAS_DEVICES); [|lia].
    change (strcmp_eq "nas_devices" "nas_devices") with true
      in G1, G2, G3, G4, G5.
    cbn [andb fst snd] in *.
    split; [|split].
    + destruct Hok as [Ha Hb]. split; [congruence | lia].
    + apply G4.
    + right. apply strstr_slash in Hsl.
      split; [exact G3|]. split; [exact G2|]. split; [exact G4|].
      by repeat split.
Qed.

(** The invariant of the loop that the three properties below share: the
    device entries read so far are lines read so far, in order. *)
Lemma foldl_handle_line_devices (ls : list string) :
  forall (st : LoadState) (seen : list string),
    Forall (fun l => (String.length l < MAX_LINE)%nat) ls ->
    config_ok st.2 -> devices st.2 `sublist_of` seen ->
    let st' := foldl (fun st l => handle_line l st) st ls in
    config_ok st'.2 /\ config_path st'.2 = config_path st.2 /\
    devices st'.2 `sublist_of` seen ++ ls.
Proof.
  induction ls as [|l ls IH]; intros [sec c] seen Hls Hok Hsub; cbn zeta.
  - cbn [foldl]. by rewrite app_nil_r.
  - apply Forall_cons_1 in Hls as [Hl Hls]. cbn [foldl snd] in *.
    destruct (handle_line_devices l sec c Hl Hok) as (Hok1 & Hp1 & Hd).
    destruct (IH (handle_line l (sec, c)) (seen ++ [l]) Hls Hok1)
      as (G1 & G2 & G3).
    + destruct Hd as [[-> _] | (-> & _)].
      * by apply sublist_inserts_r.
      * by apply sublist_app.
    + rewrite <- app_assoc in G3. cbn zeta in *.
      split; [done|]. split; [congruence | done].
Qed.

(** X4. Load takes its device entries from the file and from nowhere
    else: after [load_config] on a file that exists, the device entries
    are lines of the file, in the order of the file, each with a
    separator; and the path of the configuration is the one it had. *)
Theorem load_config_devices_from_file
    (fs : gmap string string) (c0 : Config) (stream : string) :
  fs !! config_path c0 = Some stream ->
  length (nas_devices c0) = Z.to_nat MAX_NAS_DEVICES ->
  let c := (load_config fs c0).2 in
  devices c `sublist_of` file_lines stream /\
  config_path c = config_path c0.
Proof.
  intros Hfs Hlen. cbn zeta. unfold load_config. rewrite Hfs. cbn [snd].
  rewrite load_stream_lines.
  destruct (foldl_handle_line_devices (file_lines stream)
              ("", set_defaults c0) []) as (_ & Hp & Hs).
  - apply Forall_forall. intros l Hl. by eapply file_lines_length.
  - split; [exact Hlen | by change (0 <= 0 <= 10)%Z].
  - change (devices ("", set_defaults c0).2) with (@nil string). done.
  - done.
Qed.

Lemma load_config_devices_from_file_witness :
  devices (load_config {[ config_path start_config := sample_file ]}
             start_config).2
  `sublist_of` file_lines sample_file.
Proof.
  apply (load_config_devices_from_file
           {[ config_path start_config := sample_file ]} start_config
           sample_file (lookup_singleton_eq _ _) eq_refl).
Defined.

Lemma string_take_drop (n : nat) (s : string) :
  string_take n s +:+ string_drop n s = s.
Proof.
  revert s. induction n as [|n IH]; intros [|a s]; cbn; try done.
  by rewrite IH.
Qed.

Lemma string_drop_length (n : nat) (s : string) :
  String.length (string_drop n s) = (String.length s - n)%nat.
Proof.
  revert s. induction n as [|n IH]; intros [|a s];
    cbn [string_drop String.length]; try done; lia.
Qed.

(** The only line that opens the section of the devices. *)
Lemma section_name_nas_devices (line : string) :
  is_section_header line = true ->
  section_name line = "nas_devices" -> line = "[nas_devices]".
Proof.
  unfold is_section_header, section_name, strncpy, strlen.
  destruct line as [|a r]; [discriminate|].
  change (char_at (String a r) 0) with a.
  change (string_drop 1 (String a r)) with r.
  intros H Hname. apply andb_true_iff in H as [Ha Hlast].
  apply Ascii.eqb_eq in Ha as ->.
  set (s := string_take (64 - 1) r) in *.
  assert (Hs : String.length s = 12%nat).
  { apply (f_equal String.length) in Hname.
    destruct (decide (String.length s = 0)%nat) as [H0|H0].
    - destruct s; [discriminate | discriminate].
    - rewrite string_take_length_eq in Hname by lia.
      change (String.length "nas_devices") with 11%nat in Hname. lia. }
  assert (Hr : s = r).
  { unfold s. apply string_take_all.
    destruct (decide (String.length r <= 64 - 1)%nat) as [|Hgt]; [done|].
    unfold s in Hs. rewrite string_take_length_eq in Hs by lia.
    discriminate. }
  rewrite Hr in Hname, Hs. rewrite Hs in Hname.
  change (12 - 1)%nat with 11%nat in Hname.
  pose proof (string_take_drop 11 r) as Hsplit. rewrite Hname in Hsplit.
  pose proof (string_drop_length 11 r) as Hd. rewrite Hs in Hd.
  destruct (string_drop 11 r) as [|c [|c' t]]; [discriminate | | discriminate].
  rewrite <- Hsplit in Hlast |- *.
  change (char_at (String "[" ("nas_devices" +:+ String c ""))
            (String.length (String "[" ("nas_devices" +:+ String c "")) - 1))
    with c in Hlast.
  apply Ascii.eqb_eq in Hlast as ->. reflexivity.
Qed.

(** X5. Device entries are read only below the header of their section:
    a file without a line [[nas_devices]] loads with no device entry,
    whatever its other lines are. *)
Theorem load_config_no_section_no_devices
    (fs : gmap string string) (c0 : Config) (stream : string) :
  fs !! config_path c0 = Some stream ->
  length (nas_devices c0) = Z.to_nat MAX_NAS_DEVICES ->
  "[nas_devices]" ∉ file_lines stream ->
  nas_count (load_config fs c0).2 = 0%Z /\
  devices (load_config fs c0).2 = [].
Proof.
  intros Hfs Hlen Hno. unfold load_config. rewrite Hfs. cbn [snd].
  rewrite load_stream_lines.
  pose proof (file_lines_length stream) as Hl.
  revert Hl Hno. generalize (file_lines stream). intros ls Hl Hno.
  assert (Hinv : forall st : LoadState,
            st.1 <> "nas_devices" -> config_ok st.2 ->
            nas_count st.2 = 0%Z -> devices st.2 = [] ->
            nas_count (foldl (fun st l => handle_line l st) st ls).2 = 0%Z /\
            devices (foldl (fun st l => handle_line l st) st ls).2 = []).
  { induction ls as [|l ls IH]; intros [sec c] Hsec Hok Hcnt Hdev; [done|].
    cbn [foldl fst snd] in *.
    assert (Hll : (String.length l < MAX_LINE)%nat)
      by (apply Hl, elem_of_cons; by left).
    destruct (handle_line_devices l sec c Hll Hok) as (Hok1 & _ & Hd).
    apply IH.
    - intros l' Hl'. apply Hl, elem_of_cons. by right.
    - intros Hin. apply Hno, elem_of_cons. by right.
    - unfold handle_line. destruct (is_skipped l); [done|].
      destruct (is_section_header l) eqn:Hhdr.
      + cbn [fst]. intros Hname.
        apply Hno, elem_of_cons. left. symmetry.
        by apply section_name_nas_devices.
      + destruct (strchr l "="); [done|]. by destruct (_ && _ && _).
    - done.
    - destruct Hd as [[_ ->] | (_ & _ & _ & _ & -> & _)]; done.
    - destruct Hd as [[-> _] | (_ & _ & _ & _ & -> & _)]; done. }
  apply Hinv; done.
Qed.

Lemma load_config_no_section_no_devices_witness :
  devices
    (load_config
       {[ config_path start_config :=
            "[devices]" +:+ nl +:+ "nas1.local/media" +:+ nl ]}
       start_config).2 = [].
Proof.
  refine (proj2 (load_config_no_section_no_devices _ start_config _
                   (lookup_singleton_eq _ _) eq_refl _)).
  intros H. vm_compute in H.
  repeat (apply elem_of_cons in H as [H|H]; [discriminate|]).
  by apply elem_of_nil in H.
Defined.

Lemma assign_key_same_settings (key value : string) (c1 c2 : Config) :
  same_settings c1 c2 ->
  same_settings (assign_key key value c1) (assign_key key value c2).
Proof.
  intros ((P0 & P1 & P2 & P3 & P4 & P5 & P6 & P7 & P8) & Hc & Hd).
  unfold assign_key.
  repeat (destruct (strcmp_eq key _);
          [by repeat split|]).
  by repeat split.
Qed.

Lemma handle_line_same_settings (line sec : string) (c1 c2 : Config) :
  (String.length line < MAX_LINE)%nat ->
  config_ok c1 -> config_ok c2 -> same_settings c1 c2 ->
  (handle_line line (sec, c1)).1 = (handle_line line (sec, c2)).1 /\
  same_settings (handle_line line (sec, c1)).2 (handle_line line (sec, c2)).2
  /\ config_ok (handle_line line (sec, c1)).2
  /\ config_ok (handle_line line (sec, c2)).2.
Proof.
  intros Hlen Hok1 Hok2 Hsame.
  destruct (handle_line_devices line sec c1 Hlen Hok1) as (K1 & _ & _).
  destruct (handle_line_devices line sec c2 Hlen Hok2) as (K2 & _ & _).
  cbn zeta in *. split; [|split; [|done]].
  - unfold handle_line. destruct (is_skipped line); [done|].
    destruct (is_section_header line); [done|].
    destruct (strchr line "="); [done|].
    destruct Hsame as (_ & -> & _). by destruct (_ && _ && _).
  - revert K1 K2. unfold handle_line. destruct (is_skipped line); [done|].
    destruct (is_section_header line); [done|].
    destruct (strchr line "=") as [n|]; intros K1 K2.
    + by apply assign_key_same_settings.
    + pose proof Hsame as (Hs & Hc & Hd).
      destruct (strcmp_eq sec "nas_devices"); [|done].
      destruct (non_null (strstr line "/")); [|done].
      destruct (Z.ltb_spec (nas_count c1) MAX_NAS_DEVICES),
        (Z.ltb_spec (nas_count c2) MAX_NAS_DEVICES); try lia; [|done].
      cbn [andb snd]. rewrite !nas_count_store.
      split; [|split; [cbn; lia|]].
      * pose proof (same_scalars_store (nas_count c1)
                      (strncpy line (MAX_LINE - 1)) c1) as (?&?&?&?&?&?&?&?&?).
        pose proof (same_scalars_store (nas_count c2)
                      (strncpy line (MAX_LINE - 1)) c2) as (?&?&?&?&?&?&?&?&?).
        destruct Hs as (?&?&?&?&?&?&?&?&?).
        repeat split; cbn in *; congruence.
      * rewrite (devices_append _ c2) by done.
        rewrite (devices_append _ c1) by done. by rewrite Hd.
Qed.

(** X6. Load replaces every setting: two loads of the same file end with
    the same result and the same settings, device entries included,
    whatever the settings were before. *)
Theorem load_config_forgets_previous_settings
    (fs : gmap string string) (c1 c2 : Config) :
  config_path c1 = config_path c2 ->
  length (nas_devices c1) = Z.to_nat MAX_NAS_DEVICES ->
  length (nas_devices c2) = Z.to_nat MAX_NAS_DEVICES ->
  (load_config fs c1).1 = (load_config fs c2).1 /\
  same_settings (load_config fs c1).2 (load_config fs c2).2.
Proof.
  intros Hpath Hl1 Hl2. unfold load_config. rewrite Hpath.
  assert (H0 : same_settings (set_defaults c1) (set_defaults c2))
    by (by repeat split).
  assert (Hok1 : config_ok (set_defaults c1))
    by (split; [exact Hl1 | by change (0 <= 0 <= 10)%Z]).
  assert (Hok2 : config_ok (set_defaults c2))
    by (split; [exact Hl2 | by change (0 <= 0 <= 10)%Z]).
  destruct (fs !! config_path c2) as [stream|]; [|done].
  cbn [fst snd]. split; [done|]. rewrite !load_stream_lines.
  pose proof (file_lines_length stream) as Hl.
  revert Hl. generalize (file_lines stream). intros ls Hl.
  assert (Hinv : forall (sec : string) (d1 d2 : Config),
            config_ok d1 -> config_ok d2 -> same_settings d1 d2 ->
            same_settings
              (foldl (fun st l => handle_line l st) (sec, d1) ls).2
              (foldl (fun st l => handle_line l st) (sec, d2) ls).2).
  { induction ls as [|l ls IH]; intros sec d1 d2 G1 G2 Gs; [done|].
    cbn [foldl].
    assert (Hll : (String.length l < MAX_LINE)%nat)
      by (apply Hl, elem_of_cons; by left).
    destruct (handle_line_same_settings l sec d1 d2 Hll G1 G2 Gs)
      as (E1 & E2 & E3 & E4).
    destruct (handle_line l (sec, d1)) as [s1 e1].
    destruct (handle_line l (sec, d2)) as [s2 e2].
    cbn [fst snd] in *. subst s2.
    apply IH; [|done..]. intros l' Hl'. apply Hl, elem_of_cons. by right. }
  by apply Hinv.
Qed.

Lemma load_config_forgets_previous_settings_witness :
  same_settings
    (load_config {[ config_path sample_settings := sample_file ]}
       sample_settings).2
    (load_config {[ config_path sample_settings := sample_file ]}
       start_config).2.
Proof.
  exact (proj2 (load_config_forgets_previous_settings
                  {[ config_path sample_settings := sample_file ]}
                  sample_settings start_config eq_refl eq_refl eq_refl)).
Defined.

(** ** Everything Load reads, Save gives back *)

Lemma char_in_string_take (c : ascii) (n : nat) (s : string) :
  char_in c s = false -> char_in c (string_take n s) = false.
Proof.
  revert s. induction n as [|n IH]; intros [|a s] H; try done.
  cbn [string_take char_in] in *. apply orb_false_elim in H as [-> H].
  by rewrite IH.
Qed.

Lemma char_in_string_drop (c : ascii) (n : nat) (s : string) :
  char_in c s = false -> char_in c (string_drop n s) = false.
Proof.
  revert s. induction n as [|n IH]; intros [|a s] H; try done.
  cbn [string_drop char_in] in *. apply orb_false_elim in H as [_ H].
  by apply IH.
Qed.

Lemma char_in_skip_blanks (c : ascii) (s : string) :
  char_in c s = false -> char_in c (skip_blanks s) = false.
Proof.
  induction s as [|a s IH]; [done|]. intros H. cbn [skip_blanks].
  destruct (Ascii.eqb a " " || Ascii.eqb a TAB); [|done].
  cbn [char_in] in H. apply orb_false_elim in H as [_ H]. by apply IH.
Qed.

Lemma skip_blanks_idem (s : string) :
  skip_blanks (skip_blanks s) = skip_blanks s.
Proof.
  induction s as [|a s IH]; [done|]. cbn [skip_blanks].
  destruct (Ascii.eqb a " " || Ascii.eqb a TAB) eqn:E; [done|].
  cbn [skip_blanks]. by rewrite E.
Qed.

Lemma char_in_c_str (s : string) : char_in NUL (c_str s) = false.
Proof.
  induction s as [|a s IH]; [done|]. cbn [c_str].
  destruct (Ascii.eqb a NUL) eqn:E; [done|]. cbn [char_in].
  by rewrite Ascii.eqb_sym, E, IH.
Qed.

Lemma char_in_take_strchr (c : ascii) (s : string) (k : nat) :
  strchr s c = Some k -> char_in c (string_take k s) = false.
Proof.
  revert k. induction s as [|a s IH]; intros k; [done|]. cbn [strchr].
  destruct (Ascii.eqb a c) eqn:E; [by intros [= <-]|].
  destruct (strchr s c) as [k'|]; [|done]. intros [= <-].
  cbn [string_take char_in]. by rewrite Ascii.eqb_sym, E, IH.
Qed.

(** A line of a file has no newline and no NUL byte. *)
Lemma cut_newline_clean_line (buf : string) :
  char_in LF (cut_newline buf) = false /\
  char_in NUL (cut_newline buf) = false.
Proof.
  unfold cut_newline. pose proof (char_in_c_str buf) as Hnul.
  destruct (strchr (c_str buf) LF) as [k|] eqn:E.
  - split; [by eapply char_in_take_strchr | by apply char_in_string_take].
  - split; [by apply strchr_None_char_in | done].
Qed.

Lemma file_lines_text (stream line : string) :
  line ∈ file_lines stream -> text_line line.
Proof.
  intros Hin. pose proof (file_lines_length _ _ Hin) as Hlen.
  unfold file_lines in Hin. apply list_elem_of_fmap in Hin as (buf & -> & _).
  destruct (cut_newline_clean_line buf). done.
Qed.

Lemma atoi_in_int_range (s : string) : in_int_range (atoi s).
Proof.
  unfold in_int_range, atoi, int_of_long, INT_MIN, INT_MAX.
  pose proof (Z.mod_pos_bound (strtol10 s + 2 ^ 31) (2 ^ 32) ltac:(lia)).
  lia.
Qed.

(** Splits the conjunctions that are written as such and closes what is an
    assumption. *)
Ltac split_assumptions :=
  repeat match goal with |- _ /\ _ => split end; try assumption.

Lemma assign_key_reloads (line : string) (n : nat) (c : Config) :
  text_line line -> reloads c ->
  reloads (assign_key (skip_blanks (string_take n line))
             (skip_blanks (string_drop (S n) line)) c).
Proof.
  intros (Hlf & Hnul & Hlen)
    (Hok & (N1 & N2 & N3 & N4) & Hdev & Hi1 & Hi2 & Hi3 & Hi4 & Hi5 & Hi6).
  set (key := skip_blanks (string_take n line)).
  set (value := skip_blanks (string_drop (S n) line)).
  assert (Hv : (String.length value <= String.length line - S n)%nat).
  { unfold value. pose proof (skip_blanks_length (string_drop (S n) line)).
    rewrite string_drop_length in *. lia. }
  pose proof (atoi_in_int_range value) as Hatoi.
  unfold assign_key, strcmp_eq.
  destruct (String.eqb_spec key "home_networks") as [Hkey|_].
  - assert (Hn : (13 <= n)%nat).
    { pose proof (skip_blanks_length (string_take n line)) as H1.
      pose proof (string_take_length_le n line) as H2.
      fold key in H1. rewrite Hkey in H1. cbn [String.length] in H1. lia. }
    unfold strncpy. rewrite string_take_all by (unfold MAX_LINE in *; lia).
    unfold reloads. cbn [home_networks set_home_networks].
    split_assumptions.
    + by apply char_in_skip_blanks, char_in_string_drop.
    + by apply char_in_skip_blanks, char_in_string_drop.
    + apply skip_blanks_idem.
    + cbn [String.length]. unfold MAX_LINE in *. lia.
  - unfold reloads.
    repeat (destruct (String.eqb key _); [split_assumptions|]).
    split_assumptions.
Qed.

Lemma handle_line_reloads (line sec : string) (c : Config) :
  text_line line -> reloads c -> reloads (handle_line line (sec, c)).2.
Proof.
  intros Htext Hre. pose proof Htext as (Hlf & Hnul & Hlen).
  pose proof Hre as
    (Hok & (N1 & N2 & N3 & N4) & Hdev & Hi1 & Hi2 & Hi3 & Hi4 & Hi5 & Hi6).
  unfold handle_line. destruct (is_skipped line) eqn:Hsk; [done|].
  destruct (is_section_header line) eqn:Hhd; [done|].
  destruct (strchr line "=") as [n|] eqn:Heq; [by apply assign_key_reloads|].
  destruct (strcmp_eq sec "nas_devices"); [|done].
  destruct (non_null (strstr line "/")) eqn:Hsl; [|done].
  destruct (Z.ltb_spec (nas_count c) MAX_NAS_DEVICES); [|done].
  cbn [andb snd]. rewrite nas_count_store.
  unfold strncpy. rewrite string_take_all by (unfold MAX_LINE in *; lia).
  apply strstr_slash in Hsl. apply strchr_None_char_in in Heq.
  pose proof (devices_append line c Hok ltac:(done)) as Hd.
  pose proof (same_scalars_store (nas_count c) line c)
    as (_ & P1 & P2 & P3 & P4 & P5 & P6 & P7 & _).
  set (c' := set_nas_count (nas_count c + 1)
               (store_nas_device (nas_count c) line c)) in *.
  change (home_networks (store_nas_device (nas_count c) line c))
    with (home_networks c') in P1.
  change (home_ac_interval (store_nas_device (nas_count c) line c))
    with (home_ac_interval c') in P2.
  change (home_battery_interval (store_nas_device (nas_count c) line c))
    with (home_battery_interval c') in P3.
  change (away_ac_interval (store_nas_device (nas_count c) line c))
    with (away_ac_interval c') in P4.
  change (away_battery_interval (store_nas_device (nas_count c) line c))
    with (away_battery_interval c') in P5.
  change (max_failed_attempts (store_nas_device (nas_count c) line c))
    with (max_failed_attempts c') in P6.
  change (min_battery_level (store_nas_device (nas_count c) line c))
    with (min_battery_level c') in P7.
  unfold reloads. rewrite P1, P2, P3, P4, P5, P6, P7, Hd.
  split_assumptions.
  - destruct Hok as [Ha Hb]. split.
    + change (length (nas_devices (store_nas_device (nas_count c) line c))
              = Z.to_nat MAX_NAS_DEVICES). by rewrite length_store.
    + change (0 <= nas_count c + 1 <= MAX_NAS_DEVICES)%Z. lia.
  - apply Forall_app_2; [done|]. constructor; [|constructor]. done.
Qed.

(** What the loop leaves is given back by the file format. *)
Lemma load_config_reloads (fs : gmap string string) (c0 : Config) :
  length (nas_devices c0) = Z.to_nat MAX_NAS_DEVICES ->
  reloads (load_config fs c0).2.
Proof.
  intros Hlen.
  assert (H0 : reloads (set_defaults c0)).
  { unfold reloads. split_assumptions; try by vm_compute.
    apply Nat.ltb_lt. by vm_compute. }
  unfold load_config. destruct (fs !! config_path c0) as [stream|]; [|done].
  cbn [snd]. rewrite load_stream_lines.
  pose proof (file_lines_text stream) as Hl.
  revert Hl. generalize (file_lines stream). intros ls Hl.
  revert H0. generalize (set_defaults c0). generalize "".
  induction ls as [|l ls IH]; intros sec c H0; [done|]. cbn [foldl].
  destruct (handle_line l (sec, c)) as [sec1 c1] eqn:E.
  apply IH; [intros l' Hl'; apply Hl, elem_of_cons; by right|].
  change c1 with (sec1, c1).2. rewrite <- E.
  apply handle_line_reloads; [apply Hl, elem_of_cons; by left | done].
Qed.

(** X7. Everything [load_config] reads is given back by the file format:
    after the load of any file, the network list has no leading blank and
    fits its line, every device entry is a bare line with a separator, and
    the numbers are [int]s; so saving these settings and loading the file
    that was written returns the same settings, and saving those writes
    the same file again. *)
Theorem load_save_load
    (fs : gmap string string) (c0 : Config) (stream : string) :
  fs !! config_path c0 = Some stream ->
  length (nas_devices c0) = Z.to_nat MAX_NAS_DEVICES ->
  let c := (load_config fs c0).2 in
  let fs1 := (save_config true fs c).2 in
  reloads c /\
  (load_config fs1 c).1 = true /\
  same_settings c (load_config fs1 c).2 /\
  write_config (load_config fs1 c).2 = write_config c.
Proof.
  intros Hfs Hlen. cbn zeta.
  pose proof (load_config_reloads fs c0 Hlen) as Hre.
  split; [exact Hre|].
  set (c := (load_config fs c0).2) in *.
  assert (Hsave : save_config true fs c
                  = (true, <[config_path c := write_config c]> fs))
    by reflexivity.
  rewrite Hsave. cbn [snd].
  unfold load_config. rewrite lookup_insert_eq. cbn [fst snd].
  split; [done|].
  destruct (load_written_config c c Hre ltac:(apply Hre))
    as (L1 & L2 & L3 & L4 & L5 & L6 & L7 & L8 & L9 & L10 & L11 & L12).
  cbn zeta in *.
  assert (Hsame : same_settings c
                    (load_stream (write_config c) ("", set_defaults c)).2)
    by (by repeat split).
  split; [exact Hsame|].
  rewrite write_config_layout by done.
  rewrite (config_file_lines_same c) by done.
  symmetry. apply write_config_layout, Hre.
Qed.

Lemma load_save_load_witness :
  let fs : gmap string string := {[ config_path start_config := sample_file ]} in
  let c := (load_config fs start_config).2 in
  same_settings c (load_config (save_config true fs c).2 c).2.
Proof.
  exact (proj1 (proj2 (proj2
           (load_save_load {[ config_path start_config := sample_file ]}
              start_config sample_file (lookup_singleton_eq _ _) eq_refl)))).
Defined.

(** ** The device list handlers together *)

Lemma on_add_nas_clicked_taken (d : string) (c : Config) :
  d <> "" -> contains "/" d -> (nas_count c < MAX_NAS_DEVICES)%Z ->
  on_add_nas_clicked GTK_RESPONSE_OK d c
  = set_nas_count (nas_count c + 1)
      (store_nas_device (nas_count c) (strncpy d (MAX_LINE - 1)) c).
Proof.
  intros Hne Hsl Hlt. unfold on_add_nas_clicked.
  destruct (0 <? strlen d)%nat eqn:E; [|apply string_eq_empty in E; done].
  apply strstr_slash in Hsl. rewrite Hsl.
  destruct (Z.ltb_spec (nas_count c) MAX_NAS_DEVICES); [|lia].
  cbn [andb]. by rewrite nas_count_store.
Qed.

Lemma config_ok_append (v : string) (c : Config) :
  config_ok c -> (nas_count c < MAX_NAS_DEVICES)%Z ->
  config_ok (set_nas_count (nas_count c + 1)
               (store_nas_device (nas_count c) v c)).
Proof.
  intros [Ha Hb] Hlt. split.
  - change (length (nas_devices (store_nas_device (nas_count c) v c))
            = Z.to_nat MAX_NAS_DEVICES). by rewrite length_store.
  - change (0 <= nas_count c + 1 <= MAX_NAS_DEVICES)%Z. lia.
Qed.

(** X8. Removing the entry that was just appended undoes the append: the
    device entries, the count and every other field are as before. *)
Theorem add_then_remove_last (d : string) (c : Config) :
  config_ok c ->
  d <> "" -> contains "/" d -> (nas_count c < MAX_NAS_DEVICES)%Z ->
  let c1 := on_add_nas_clicked GTK_RESPONSE_OK d c in
  let c2 := on_remove_nas_clicked (Some (nas_count c)) c1 in
  devices c2 = devices c /\ nas_count c2 = nas_count c /\ same_scalars c c2.
Proof.
  intros Hok Hne Hsl Hlt. cbn zeta.
  rewrite on_add_nas_clicked_taken by done.
  set (v := strncpy d (MAX_LINE - 1)).
  pose proof (config_ok_append v c Hok Hlt) as Hok1.
  pose proof (devices_append v c Hok Hlt) as Hd.
  set (c1 := set_nas_count (nas_count c + 1)
               (store_nas_device (nas_count c) v c)) in *.
  assert (Hc1 : nas_count c1 = (nas_count c + 1)%Z) by reflexivity.
  destruct (remove_selected_device c1 (nas_count c) Hok1)
    as (R1 & R2 & _ & _ & R5).
  { destruct Hok as [_ Hb]. lia. }
  cbn zeta in *. split; [|split].
  - rewrite R2, Hd.
    replace (Z.to_nat (nas_count c)) with (length (devices c))
      by (apply length_devices; destruct Hok as [Ha Hb];
          unfold MAX_NAS_DEVICES in *; lia).
    rewrite delete_middle. by rewrite app_nil_r.
  - lia.
  - eapply same_scalars_trans; [|exact R5].
    pose proof (same_scalars_store (nas_count c) v c) as (?&?&?&?&?&?&?&?&?).
    by repeat split.
Qed.

Lemma add_then_remove_last_witness :
  devices
    (on_remove_nas_clicked (Some (nas_count sample_settings))
       (on_add_nas_clicked GTK_RESPONSE_OK "nas3/films" sample_settings))
  = devices sample_settings.
Proof.
  refine (proj1 (add_then_remove_last "nas3/films" sample_settings _ _ _ _)).
  - split; [reflexivity | vm_compute; split; discriminate].
  - discriminate.
  - apply strstr_slash. reflexivity.
  - reflexivity.
Defined.

(** Witnesses of the invariant of the device list. *)
Lemma load_config_invariant_witness :
  devices_invariant
    (load_config {[ config_path start_config := sample_file ]} start_config).2.
Proof.
  exact (proj2 (load_config_invariant
                  {[ config_path start_config := sample_file ]} start_config
                  eq_refl)).
Defined.

Lemma sample_settings_invariant :
  config_ok sample_settings /\ devices_invariant sample_settings.
Proof.
  split; [split; [reflexivity | vm_compute; split; discriminate]|].
  split; [vm_compute; discriminate|].
  repeat constructor; try discriminate; apply strstr_slash; reflexivity.
Qed.

Lemma on_remove_nas_clicked_invariant_witness :
  devices_invariant (on_remove_nas_clicked (Some 0%Z) sample_settings).
Proof.
  apply (on_remove_nas_clicked_invariant sample_settings 0
           (proj1 sample_settings_invariant) (proj2 sample_settings_invariant)).
  vm_compute. split; [discriminate | reflexivity].
Defined.


(** X15. A bare line of the file and the device entries in use (source
    lines 160-165). A line that is not skipped, is no section header and
    has no equals sign leaves the current section as it is. When that
    section is [nas_devices], the line has a separator and fewer than 10
    entries are in use, the line, cut to [MAX_LINE - 1] bytes, becomes the
    last entry in use: the entries before it stay, the count grows by one,
    every other field is kept and the list stays within its bounds. In
    every other case the line changes nothing. *)
Theorem load_bare_line (line sec : string) (c : Config) :
  config_ok c ->
  is_skipped line = false -> is_section_header line = false ->
  char_in "=" line = false ->
  let st := handle_line line (sec, c) in
  st.1 = sec /\
  (sec = "nas_devices" -> contains "/" line ->
   (nas_count c < MAX_NAS_DEVICES)%Z ->
   devices st.2 = devices c ++ [string_take (MAX_LINE - 1) line] /\
   ((String.length line < MAX_LINE)%nat ->
    devices st.2 = devices c ++ [line]) /\
   nas_count st.2 = (nas_count c + 1)%Z /\
   same_scalars c st.2 /\
   config_ok st.2) /\
  (sec <> "nas_devices" \/ ~ contains "/" line \/
   (MAX_NAS_DEVICES <= nas_count c)%Z ->
   st.2 = c).
Proof.
  intros Hok Hskip Hhdr Heq. cbn zeta.
  destruct (handle_line_bare line sec c Hskip Hhdr Heq) as [Happ Hdrop].
  split; [|split].
  - unfold handle_line. rewrite Hskip, Hhdr, strchr_clean by done.
    by destruct (_ && _).
  - intros Hsec Hsl Hlt. rewrite (Happ Hsec Hsl Hlt). cbn [snd].
    unfold strncpy.
    assert (Hdev : devices
                     (set_nas_count (nas_count c + 1)
                        (store_nas_device (nas_count c)
                           (string_take (MAX_LINE - 1) line) c))
                   = devices c ++ [string_take (MAX_LINE - 1) line])
      by (by apply devices_append).
    split; [exact Hdev|]. split.
    { intros Hlen. rewrite Hdev.
      rewrite string_take_all by (unfold MAX_LINE in *; lia). done. }
    split; [reflexivity|]. split; [|by apply config_ok_append].
    pose proof (same_scalars_store (nas_count c)
                  (string_take (MAX_LINE - 1) line) c) as (?&?&?&?&?&?&?&?&?).
    by repeat split.
  - intros H. by rewrite (Hdrop H).
Qed.

Lemma load_bare_line_witness :
  devices (handle_line "nas2.local/docs" ("nas_devices", sample_settings)).2
  = ["nas1.local/media"; "192.168.1.10/back up"; "nas2.local/docs"] /\
  (handle_line "nas2.local/docs" ("intervals", sample_settings)).2
  = sample_settings.
Proof.
  destruct (load_bare_line "nas2.local/docs" "nas_devices" sample_settings
              (proj1 sample_settings_invariant) eq_refl eq_refl eq_refl)
    as (_ & Happ & _).
  destruct (load_bare_line "nas2.local/docs" "intervals" sample_settings
              (proj1 sample_settings_invariant) eq_refl eq_refl eq_refl)
    as (_ & _ & Hdrop).
  cbn zeta in *. split.
  - destruct Happ as (_ & H & _);
      [reflexivity | apply strstr_slash; reflexivity | reflexivity |].
    rewrite H by (unfold MAX_LINE; cbn; lia). reflexivity.
  - apply Hdrop. left. discriminate.
Defined.

(** ** The widgets *)

Lemma list_box_rows_devices (fuel : nat) :
  forall (i : Z) (c : Config),
    (0 <= i)%Z -> fuel = Z.to_nat (nas_count c - i) ->
    (nas_count c <= Z.of_nat (length (nas_devices c)))%Z ->
    list_box_rows fuel i c = drop (Z.to_nat i) (devices c).
Proof.
  induction fuel as [|fuel IH]; intros i c Hi Hfuel Hlen.
  - cbn. by rewrite drop_ge by (unfold devices; rewrite length_take; lia).
  - cbn [list_box_rows]. destruct (Z.ltb_spec i (nas_count c)); [|lia].
    rewrite IH by lia.
    replace (Z.to_nat (i + 1)) with (S (Z.to_nat i)) by lia.
    rewrite (drop_S (devices c) (nas_device i c) (Z.to_nat i)); [done|].
    rewrite <- (Z2Nat.id i) at 2 by lia. apply devices_lookup; lia.
Qed.

Lemma update_ui_from_config_synced (app : AppData) :
  config_ok (config app) -> list_box_synced (update_ui_from_config app).
Proof.
  intros [Ha Hb]. unfold list_box_synced, update_ui_from_config.
  cbn [nas_listbox config].
  rewrite list_box_rows_devices; [done | lia | lia |].
  unfold MAX_NAS_DEVICES in *. lia.
Qed.

Lemma config_ok_remove (c : Config) (i : Z) :
  config_ok c -> (0 <= i < nas_count c)%Z ->
  config_ok (on_remove_nas_clicked (Some i) c).
Proof.
  intros Hok Hi. pose proof Hok as [Ha Hb].
  destruct (remove_selected_device c i Hok Hi) as (R1 & _).
  cbn zeta in R1. split; [|lia].
  unfold on_remove_nas_clicked.
  destruct (shift_devices_spec (Z.to_nat (nas_count c - 1 - i)) i c)
    as (_ & _ & Hl & _); [lia | done | unfold MAX_NAS_DEVICES in *; lia |].
  cbn zeta in Hl. cbn. by rewrite Hl.
Qed.

(** X9. The list box always shows the device entries in use. [main]
    leaves it so, and the two handlers keep it so: an append that is taken
    adds its entry as the last row, and the removal of the selected row,
    whose index is then the index of a device entry in use, deletes that
    row and that entry. *)
Theorem list_box_follows_devices :
  (forall (home : option string) (fs : gmap string string),
     config_ok (config (main home fs)) /\ list_box_synced (main home fs)) /\
  (forall (app : AppData) (response : GtkResponse) (text : string),
     config_ok (config app) -> list_box_synced app ->
     let app' := on_add_nas_clicked_app response text app in
     config_ok (config app') /\ list_box_synced app' /\
     config app' = on_add_nas_clicked response text (config app)) /\
  (forall (app : AppData) (index : nat),
     config_ok (config app) -> list_box_synced app ->
     (index < length (nas_listbox app))%nat ->
     let app' := on_remove_nas_clicked_app (Some index) app in
     (0 <= Z.of_nat index < nas_count (config app))%Z /\
     config_ok (config app') /\ list_box_synced app' /\
     nas_listbox app' = delete index (nas_listbox app)).
Proof.
  split; [|split].
  - intros home fs.
    assert (Hok : config_ok (config (main home fs))).
    { unfold main. cbn [config update_ui_from_config create_ui set_config].
      apply load_config_reloads. by destruct home. }
    split; [exact Hok|]. unfold main in *.
    apply update_ui_from_config_synced. exact Hok.
  - intros app response text Hok Hsync. cbn zeta.
    unfold on_add_nas_clicked_app, on_add_nas_clicked.
    destruct response; [|done].
    destruct ((0 <? strlen text)%nat && non_null (strstr text "/") &&
              (nas_count (config app) <? MAX_NAS_DEVICES)%Z) eqn:E; [|done].
    apply andb_true_iff in E as [_ E]. apply Z.ltb_lt in E.
    rewrite nas_count_store.
    assert (Hok1 := config_ok_append (strncpy text (MAX_LINE - 1))
                      (config app) Hok E).
    split; [exact Hok1|]. split; [|done].
    by apply (update_ui_from_config_synced (set_config _ app)).
  - intros app index Hok Hsync Hidx. cbn zeta.
    assert (Hi : (0 <= Z.of_nat index < nas_count (config app))%Z).
    { rewrite Hsync, length_devices in Hidx; [lia|].
      destruct Hok as [Ha Hb]. unfold MAX_NAS_DEVICES in *. lia. }
    split; [exact Hi|].
    pose proof (config_ok_remove (config app) (Z.of_nat index) Hok Hi) as Hok1.
    split; [exact Hok1|].
    unfold on_remove_nas_clicked_app.
    pose proof (update_ui_from_config_synced
                  (set_config (on_remove_nas_clicked (Some (Z.of_nat index))
                                 (config app)) app) Hok1) as Hs.
    split; [exact Hs|]. rewrite Hs.
    destruct (remove_selected_device (config app) (Z.of_nat index) Hok Hi)
      as (_ & R2 & _).
    cbn zeta in R2. cbn [config update_ui_from_config set_config].
    rewrite R2, Nat2Z.id. by rewrite Hsync.
Qed.

Lemma list_box_follows_devices_witness :
  let app :=
    set_config sample_settings
      (mkAppData "" ["nas1.local/media"; "192.168.1.10/back up"]
         (mkSpinButton 5 3600 20) (mkSpinButton 10 3600 60)
         (mkSpinButton 30 3600 180) (mkSpinButton 60 3600 60)
         (mkSpinButton 1 10 3) (mkSpinButton 5 50 50) false ""
         zero_config) in
  list_box_synced app /\
  nas_listbox (on_remove_nas_clicked_app (Some 0%nat) app)
  = ["192.168.1.10/back up"].
Proof.
  intros app.
  destruct list_box_follows_devices as (_ & _ & Hrem).
  assert (Hsync : list_box_synced app) by reflexivity.
  split; [exact Hsync|].
  destruct (Hrem app 0%nat (proj1 sample_settings_invariant) Hsync)
    as (_ & _ & _ & H); [cbn; lia|].
  rewrite H. reflexivity.
Defined.

(** *** The text of the entry *)

Lemma g_utf8_skip_pos (a : ascii) : (1 <= g_utf8_skip a)%nat.
Proof. unfold g_utf8_skip. cbn zeta. repeat case_match; lia. Qed.

Lemma utf8_whole_bytes_le (fuel : nat) (text : string) :
  (utf8_whole_bytes fuel text <= String.length text)%nat.
Proof.
  revert text. induction fuel as [|fuel IH]; intros [|a r];
    cbn [utf8_whole_bytes]; try lia.
  cbn zeta. unfold strlen.
  destruct (Nat.leb_spec (g_utf8_skip a) (String.length (String a r)));
    [|lia].
  specialize (IH (string_drop (g_utf8_skip a) (String a r))).
  rewrite string_drop_length in IH. lia.
Qed.

Lemma utf8_whole_bytes_fuel (fuel1 fuel2 : nat) (text : string) :
  (String.length text <= fuel1)%nat -> (String.length text <= fuel2)%nat ->
  utf8_whole_bytes fuel1 text = utf8_whole_bytes fuel2 text.
Proof.
  revert fuel2 text. induction fuel1 as [|fuel1 IH];
    intros [|fuel2] [|a r] H1 H2; cbn [String.length] in *; try lia;
    try reflexivity.
  cbn [utf8_whole_bytes]. cbn zeta. destruct (_ <=? _)%nat eqn:E; [|done].
  f_equal. pose proof (g_utf8_skip_pos a).
  apply IH; rewrite string_drop_length; cbn [String.length]; lia.
Qed.

(** One step of the walk over the characters. *)
Lemma utf8_whole_bytes_step (a : ascii) (r : string) :
  utf8_whole_bytes (strlen (String a r)) (String a r)
  = if (g_utf8_skip a <=? S (String.length r))%nat
    then (g_utf8_skip a
          + utf8_whole_bytes
              (strlen (string_drop (g_utf8_skip a) (String a r)))
              (string_drop (g_utf8_skip a) (String a r)))%nat
    else 0%nat.
Proof.
  unfold strlen. cbn [String.length utf8_whole_bytes]. cbn zeta.
  unfold strlen. cbn [String.length].
  destruct (_ <=? _)%nat eqn:E; [|done]. f_equal.
  pose proof (g_utf8_skip_pos a).
  apply utf8_whole_bytes_fuel; rewrite ?string_drop_length;
    cbn [String.length]; lia.
Qed.

Lemma string_take_add (n m : nat) (s : string) :
  string_take (n + m) s = string_take n s +:+ string_take m (string_drop n s).
Proof.
  revert s. induction n as [|n IH]; intros [|a s]; cbn; try done.
  - by destruct m.
  - by rewrite IH.
Qed.

Lemma utf8_whole_bytes_idem (n : nat) :
  forall s : string,
    (String.length s <= n)%nat ->
    utf8_whole_bytes
      (strlen (string_take (utf8_whole_bytes (strlen s) s) s))
      (string_take (utf8_whole_bytes (strlen s) s) s)
    = utf8_whole_bytes (strlen s) s.
Proof.
  induction n as [|n IH]; intros [|a r] Hn; cbn [String.length] in Hn;
    try lia; try reflexivity.
  rewrite utf8_whole_bytes_step.
  pose proof (g_utf8_skip_pos a) as Hpos.
  destruct (Nat.leb_spec (g_utf8_skip a) (S (String.length r)))
    as [Hk|Hk]; [|reflexivity].
  set (s' := string_drop (g_utf8_skip a) (String a r)) in *.
  assert (Hs' : (String.length s' <= n)%nat)
    by (unfold s'; rewrite string_drop_length; cbn [String.length]; lia).
  specialize (IH s' Hs').
  set (w := utf8_whole_bytes (strlen s') s') in *.
  rewrite string_take_add. fold s'.
  set (u := string_take w s') in *.
  assert (Hlen : String.length (string_take (g_utf8_skip a) (String a r))
                 = g_utf8_skip a)
    by (apply string_take_length_eq; cbn [String.length]; lia).
  assert (Hdrop : string_drop (g_utf8_skip a)
                    (string_take (g_utf8_skip a) (String a r) +:+ u) = u).
  { rewrite <- Hlen at 1. apply string_drop_app. }
  assert (Hhead : string_take (g_utf8_skip a) (String a r) +:+ u
                  = String a (string_take (g_utf8_skip a - 1) r +:+ u)).
  { destruct (g_utf8_skip a) as [|k]; [lia|].
    replace (S k - 1)%nat with k by lia. reflexivity. }
  rewrite Hhead in Hdrop |- *. rewrite utf8_whole_bytes_step, Hdrop, IH.
  assert (Hfit : (g_utf8_skip a
                  <= S (String.length (string_take (g_utf8_skip a - 1) r +:+ u)))%nat).
  { apply (f_equal String.length) in Hhead.
    rewrite string_length_app, Hlen in Hhead. cbn [String.length] in Hhead.
    lia. }
  by destruct (Nat.leb_spec (g_utf8_skip a)
                 (S (String.length (string_take (g_utf8_skip a - 1) r +:+ u))));
    [|lia].
Qed.

(** The entry takes whole characters only, so what it holds it takes
    again as it is. *)
Lemma gtk_entry_set_text_idem (text : string) :
  gtk_entry_set_text (gtk_entry_set_text text) = gtk_entry_set_text text.
Proof.
  unfold gtk_entry_set_text.
  rewrite (utf8_whole_bytes_idem (String.length text) text) by lia.
  apply string_take_all, string_take_length_le.
Qed.

Lemma utf8_text_whole_bytes (n : nat) :
  forall s : string,
    (String.length s <= n)%nat -> utf8_text s = true ->
    utf8_whole_bytes (strlen s) s = String.length s.
Proof.
  induction n as [|n IH]; intros [|a r] Hn; cbn [String.length] in Hn;
    try lia; try reflexivity.
  rewrite utf8_whole_bytes_step. cbn [utf8_text]. cbn zeta.
  unfold g_utf8_skip. cbn zeta.
  destruct (Nat.ltb_spec (nat_of_ascii a) 128) as [H1|H1].
  { destruct (Nat.ltb_spec (nat_of_ascii a) 192); [|lia].
    cbn [Nat.leb string_drop Nat.add String.length]. intros Hu.
    rewrite IH by (done || lia). done. }
  destruct (Nat.leb_spec 194 (nat_of_ascii a)) as [H2|H2];
    destruct (Nat.ltb_spec (nat_of_ascii a) 224) as [H3|H3]; cbn [andb].
  { destruct (Nat.ltb_spec (nat_of_ascii a) 192); [lia|].
    destruct r as [|a1 r1]; [done|]. intros Hu.
    apply andb_true_iff in Hu as [_ Hu].
    cbn [Nat.leb string_drop Nat.add String.length] in *.
    rewrite IH by (done || lia). done. }
  all: destruct (Nat.ltb_spec (nat_of_ascii a) 192); try lia.
  all: destruct (Nat.leb_spec 224 (nat_of_ascii a));
    destruct (Nat.ltb_spec (nat_of_ascii a) 240); cbn [andb]; try lia.
  all: try (destruct r as [|a1 [|a2 r2]]; try done; intros Hu;
            apply andb_true_iff in Hu as [_ Hu];
            cbn [Nat.leb string_drop Nat.add String.length] in *;
            rewrite IH by (done || lia); done).
  all: destruct (Nat.leb_spec 240 (nat_of_ascii a));
    destruct (Nat.ltb_spec (nat_of_ascii a) 245); cbn [andb]; try lia;
    try done.
  all: destruct (Nat.ltb_spec (nat_of_ascii a) 248); try lia.
  all: destruct r as [|a1 [|a2 [|a3 r3]]]; try done; intros Hu;
    apply andb_true_iff in Hu as [_ Hu];
    cbn [Nat.leb string_drop Nat.add String.length] in *;
    rewrite IH by (done || lia); done.
Qed.

(** The entry holds a text that is UTF-8 as it is. *)
Lemma gtk_entry_set_text_utf8 (text : string) :
  utf8_text text = true -> gtk_entry_set_text text = text.
Proof.
  intros H. unfold gtk_entry_set_text.
  rewrite (utf8_text_whole_bytes (String.length text) text) by done.
  by apply string_take_all.
Qed.

Lemma skip_blanks_string_take (n : nat) (s : string) :
  skip_blanks s = s -> skip_blanks (string_take n s) = string_take n s.
Proof.
  destruct n as [|n], s as [|a s]; try done.
  cbn [skip_blanks string_take].
  destruct (Ascii.eqb a " " || Ascii.eqb a TAB); [|done].
  intros H. apply (f_equal String.length) in H.
  pose proof (skip_blanks_length s). cbn [String.length] in H. lia.
Qed.

Example gtk_entry_set_text_examples :
  gtk_entry_set_text "Office,Home" = "Office,Home" /\
  gtk_entry_set_text "Café" = "Café" /\
  gtk_entry_set_text ("Caf" +:+ String (ascii_of_nat 233) "") = "Caf".
Proof. repeat split; reflexivity. Qed.

Lemma spin_set_value_clamp (lower upper value : Z) (spin : SpinButton) :
  spin_lower spin = lower -> spin_upper spin = upper -> (lower <= upper)%Z ->
  spin_within lower upper (gtk_spin_button_set_value value spin) /\
  spin_value (gtk_spin_button_set_value value spin) = clamp lower upper value.
Proof.
  intros <- <- Hle. unfold spin_within, gtk_spin_button_set_value, clamp.
  cbn [spin_lower spin_upper spin_value].
  destruct (Z.ltb_spec (spin_upper spin) value),
    (Z.ltb_spec value (spin_lower spin)); repeat split; lia.
Qed.

Lemma on_save_clicked_config (can_open : bool) (fs : gmap string string)
    (app : AppData) :
  config (on_save_clicked can_open fs app).2
  = config (update_config_from_ui app) /\
  (on_save_clicked true fs app).1.2
  = <[config_path (config (update_config_from_ui app)) :=
        write_config (config (update_config_from_ui app))]> fs.
Proof.
  unfold on_save_clicked, save_config_app, save_config.
  split; [by destruct can_open | reflexivity].
Qed.

Lemma main_config (home : option string) (fs : gmap string string) :
  config (main home fs) = (load_config fs (init_config_path home zero_config)).2
  /\ main home fs
     = update_ui_from_config
         (create_ui
            (set_config
               (load_config fs (init_config_path home zero_config)).2
               zero_app)).
Proof. split; reflexivity. Qed.

(** What [main] and a click on Save with no edit leave. *)
Lemma main_then_save_fields (home : option string) (fs : gmap string string) :
  let app := main home fs in
  let c := config app in
  let r := on_save_clicked true fs app in
  let c' := config r.2 in
  r.1.1 = true /\
  r.1.2 = <[config_path c := write_config c']> fs /\
  status_label r.2 = "Configuration saved successfully" /\
  home_ac_interval c' = clamp 5 3600 (home_ac_interval c) /\
  home_battery_interval c' = clamp 10 3600 (home_battery_interval c) /\
  away_ac_interval c' = clamp 30 3600 (away_ac_interval c) /\
  away_battery_interval c' = clamp 60 3600 (away_battery_interval c) /\
  max_failed_attempts c' = clamp 1 10 (max_failed_attempts c) /\
  min_battery_level c' = clamp 5 50 (min_battery_level c) /\
  home_networks c' = gtk_entry_set_text (home_networks c) /\
  enable_notifications c' = enable_notifications c /\
  nas_count c' = nas_count c /\ devices c' = devices c /\
  widgets_ok app.
Proof.
  cbn zeta.
  destruct (main_config home fs) as [Hcfg Hmain].
  destruct (on_save_clicked_config true fs (main home fs)) as [Hsc Hsf].
  set (c0 := init_config_path home zero_config) in *.
  assert (Hlen : length (nas_devices c0) = Z.to_nat MAX_NAS_DEVICES)
    by (unfold c0; by destruct home).
  pose proof (load_config_reloads fs c0 Hlen) as (_ & (_ & _ & _ & Hn) & _).
  set (c := (load_config fs c0).2) in *.
  assert (Hs : (on_save_clicked true fs (main home fs)).1.1 = true
               /\ status_label (on_save_clicked true fs (main home fs)).2
                  = "Configuration saved successfully")
    by (split; reflexivity).
  destruct Hs as [Hs1 Hs2].
  rewrite Hsc, Hsf, Hs1, Hs2, Hcfg. rewrite Hmain. clear Hmain Hsc Hsf Hs1 Hs2.
  unfold update_config_from_ui, update_ui_from_config, create_ui, set_config.
  cbn [config networks_entry nas_listbox home_ac_spin home_battery_spin
       away_ac_spin away_battery_spin max_attempts_spin min_battery_spin
       notifications_check status_label].
  unfold strncpy, gtk_spin_button_get_value_as_int, gtk_entry_get_text.
  rewrite string_take_all
    by (pose proof (string_take_length
                      (utf8_whole_bytes (strlen (home_networks c))
                         (home_networks c)) (home_networks c));
        unfold gtk_entry_set_text;
        cbn [String.length] in Hn; unfold MAX_LINE in *; lia).
  destruct (spin_set_value_clamp 5 3600 (home_ac_interval c)
              (gtk_spin_button_new_with_range 5 3600) eq_refl eq_refl
              ltac:(lia)) as [W1 V1].
  destruct (spin_set_value_clamp 10 3600 (home_battery_interval c)
              (gtk_spin_button_new_with_range 10 3600) eq_refl eq_refl
              ltac:(lia)) as [W2 V2].
  destruct (spin_set_value_clamp 30 3600 (away_ac_interval c)
              (gtk_spin_button_new_with_range 30 3600) eq_refl eq_refl
              ltac:(lia)) as [W3 V3].
  destruct (spin_set_value_clamp 60 3600 (away_battery_interval c)
              (gtk_spin_button_new_with_range 60 3600) eq_refl eq_refl
              ltac:(lia)) as [W4 V4].
  destruct (spin_set_value_clamp 1 10 (max_failed_attempts c)
              (gtk_spin_button_new_with_range 1 10) eq_refl eq_refl
              ltac:(lia)) as [W5 V5].
  destruct (spin_set_value_clamp 5 50 (min_battery_level c)
              (gtk_spin_button_new_with_range 5 50) eq_refl eq_refl
              ltac:(lia)) as [W6 V6].
  split_assumptions; try reflexivity.
  unfold widgets_ok. split_assumptions.
Qed.

(** X10. The numbers go through the spin buttons and the network list
    through the entry: after [main] on a file whose network list is UTF-8
    text and a click on Save with no edit, the file is written, and each
    number saved is the number that was loaded brought into the range of
    its spin button (5 to 3600, 10 to 3600, 30 to 3600, 60 to 3600, 1 to 10
    and 5 to 50), so a number within its range is saved as loaded; the
    network list, the notifications flag and the device entries are saved
    as loaded. *)
Theorem main_then_save (home : option string) (fs : gmap string string) :
  utf8_text (home_networks (config (main home fs))) = true ->
  let app := main home fs in
  let c := config app in
  let r := on_save_clicked true fs app in
  let c' := config r.2 in
  r.1.1 = true /\
  r.1.2 = <[config_path c := write_config c']> fs /\
  status_label r.2 = "Configuration saved successfully" /\
  home_ac_interval c' = clamp 5 3600 (home_ac_interval c) /\
  home_battery_interval c' = clamp 10 3600 (home_battery_interval c) /\
  away_ac_interval c' = clamp 30 3600 (away_ac_interval c) /\
  away_battery_interval c' = clamp 60 3600 (away_battery_interval c) /\
  max_failed_attempts c' = clamp 1 10 (max_failed_attempts c) /\
  min_battery_level c' = clamp 5 50 (min_battery_level c) /\
  home_networks c' = home_networks c /\
  enable_notifications c' = enable_notifications c /\
  nas_count c' = nas_count c /\ devices c' = devices c /\
  widgets_ok app.
Proof.
  intros Hutf. cbn zeta.
  destruct (main_then_save_fields home fs)
    as (F0 & Hfs & Hst & F1 & F2 & F3 & F4 & F5 & F6 & F7 & F8 & F9 & F10
        & Hw).
  cbn zeta in *. rewrite (gtk_entry_set_text_utf8 _ Hutf) in F7.
  split_assumptions.
Qed.

(** A file with a network list that is not ASCII: the list is saved as it
    was loaded. *)
Lemma main_then_save_witness :
  let fs : gmap string string :=
    {[ config_path start_config := "home_networks=Café,Home" +:+ nl ]} in
  home_networks (config (main None fs)) = "Café,Home" /\
  home_networks (config (on_save_clicked true fs (main None fs)).2)
  = "Café,Home".
Proof.
  cbn zeta.
  assert (Hc : home_networks
                 (config
                    (main None
                       {[ config_path start_config :=
                            "home_networks=Café,Home" +:+ nl ]}))
               = "Café,Home").
  { rewrite (proj1 (main_config None _)).
    change (init_config_path None zero_config) with start_config.
    unfold load_config. rewrite lookup_singleton_eq. by vm_compute. }
  split; [exact Hc|].
  destruct (main_then_save None
              {[ config_path start_config :=
                   "home_networks=Café,Home" +:+ nl ]})
    as (_ & _ & _ & _ & _ & _ & _ & _ & _ & H & _).
  - rewrite Hc. reflexivity.
  - cbn zeta in H. rewrite H. exact Hc.
Defined.

Lemma clamp_within (lower upper value : Z) :
  (lower <= value <= upper)%Z -> clamp lower upper value = value.
Proof. unfold clamp. lia. Qed.

(** Settings within the ranges of the widgets pass through the widgets
    unchanged. *)
Lemma widgets_round_trip (app : AppData) :
  let c := config app in
  (String.length (home_networks c) < MAX_LINE)%nat ->
  gtk_entry_set_text (home_networks c) = home_networks c ->
  (5 <= home_ac_interval c <= 3600)%Z ->
  (10 <= home_battery_interval c <= 3600)%Z ->
  (30 <= away_ac_interval c <= 3600)%Z ->
  (60 <= away_battery_interval c <= 3600)%Z ->
  (1 <= max_failed_attempts c <= 10)%Z ->
  (5 <= min_battery_level c <= 50)%Z ->
  config (update_config_from_ui (update_ui_from_config (create_ui app))) = c.
Proof.
  cbn zeta. intros Hn He H1 H2 H3 H4 H5 H6.
  unfold update_config_from_ui, update_ui_from_config, create_ui, set_config.
  cbn [config networks_entry nas_listbox home_ac_spin home_battery_spin
       away_ac_spin away_battery_spin max_attempts_spin min_battery_spin
       notifications_check status_label].
  unfold strncpy, gtk_spin_button_get_value_as_int, gtk_entry_get_text.
  rewrite He.
  rewrite string_take_all by (unfold MAX_LINE in *; lia).
  rewrite (proj2 (spin_set_value_clamp 5 3600 _
             (gtk_spin_button_new_with_range 5 3600) eq_refl eq_refl
             ltac:(lia))).
  rewrite (proj2 (spin_set_value_clamp 10 3600 _
             (gtk_spin_button_new_with_range 10 3600) eq_refl eq_refl
             ltac:(lia))).
  rewrite (proj2 (spin_set_value_clamp 30 3600 _
             (gtk_spin_button_new_with_range 30 3600) eq_refl eq_refl
             ltac:(lia))).
  rewrite (proj2 (spin_set_value_clamp 60 3600 _
             (gtk_spin_button_new_with_range 60 3600) eq_refl eq_refl
             ltac:(lia))).
  rewrite (proj2 (spin_set_value_clamp 1 10 _
             (gtk_spin_button_new_with_range 1 10) eq_refl eq_refl
             ltac:(lia))).
  rewrite (proj2 (spin_set_value_clamp 5 50 _
             (gtk_spin_button_new_with_range 5 50) eq_refl eq_refl
             ltac:(lia))).
  rewrite !clamp_within by assumption.
  destruct (config app). reflexivity.
Qed.

(** X11. On a first run, with no file at the path, [main] shows the
    defaults, and a click on Save with no edit leaves the configuration at
    the defaults and writes them: the file is the layout below, line for
    line. *)
Theorem first_run_then_save (home : option string) (fs : gmap string string) :
  fs !! config_path (init_config_path home zero_config) = None ->
  let app := main home fs in
  let r := on_save_clicked true fs app in
  config app = set_defaults (init_config_path home zero_config) /\
  config r.2 = config app /\
  r.1.2 !! config_path (config app)
  = Some (unlines
            [ "# NAS Monitor Configuration File";
              "";
              "[networks]";
              "# Comma-separated list of home network SSIDs";
              "home_networks=";
              "";
              "[nas_devices]";
              "# Format: host/share (one per line)";
              "";
              "[intervals]";
              "# Check intervals in seconds";
              "home_ac_interval=15";
              "home_battery_interval=60";
              "away_ac_interval=180";
              "away_battery_interval=600";
              "";
              "[behavior]";
              "max_failed_attempts=3";
              "min_battery_level=10";
              "enable_notifications=true" ]).
Proof.
  intros Hfs. cbn zeta.
  destruct (main_config home fs) as [Hcfg Hmain].
  set (c0 := init_config_path home zero_config) in *.
  assert (Hload : (load_config fs c0).2 = set_defaults c0)
    by (unfold load_config; by rewrite Hfs).
  rewrite Hload in Hcfg, Hmain.
  destruct (on_save_clicked_config true fs (main home fs)) as [Hsc Hsf].
  assert (Hrt : config (update_config_from_ui (main home fs))
                = set_defaults c0).
  { rewrite Hmain.
    apply (widgets_round_trip (set_config (set_defaults c0) zero_app));
      cbn [config set_config];
      [unfold MAX_LINE; cbn; lia | reflexivity | by vm_compute..]. }
  rewrite Hsc, Hsf, Hrt, Hcfg.
  split; [done|]. split; [done|].
  rewrite lookup_insert_eq. apply f_equal.
  unfold c0. destruct home; vm_compute; reflexivity.
Qed.

Lemma first_run_then_save_witness :
  config (on_save_clicked true ∅ (main None ∅)).2 = set_defaults start_config.
Proof.
  destruct (first_run_then_save None ∅ (lookup_empty _)) as (H1 & H2 & _).
  cbn zeta in *. by rewrite H2, H1.
Defined.

Lemma clamp_idem (lower upper value : Z) :
  (lower <= upper)%Z ->
  clamp lower upper (clamp lower upper value) = clamp lower upper value.
Proof. unfold clamp. lia. Qed.

Lemma clamp_in_int_range (lower upper value : Z) :
  (INT_MIN <= lower)%Z -> (lower <= upper)%Z -> (upper <= INT_MAX)%Z ->
  in_int_range (clamp lower upper value).
Proof. unfold in_int_range, clamp. lia. Qed.

Lemma load_config_path (fs : gmap string string) (c0 : Config) :
  length (nas_devices c0) = Z.to_nat MAX_NAS_DEVICES ->
  config_path (load_config fs c0).2 = config_path c0.
Proof.
  intros Hlen. unfold load_config.
  destruct (fs !! config_path c0) as [stream|]; [|done].
  cbn [snd]. rewrite load_stream_lines.
  destruct (foldl_handle_line_devices (file_lines stream)
              ("", set_defaults c0) []) as (_ & Hp & _); try done.
  apply Forall_forall. intros l Hl. by eapply file_lines_length.
Qed.

Lemma spin_set_value_clamped (lower upper value : Z) :
  (lower <= upper)%Z ->
  gtk_spin_button_set_value (clamp lower upper value)
    (gtk_spin_button_new_with_range lower upper)
  = gtk_spin_button_set_value value
      (gtk_spin_button_new_with_range lower upper).
Proof.
  intros Hle.
  unfold gtk_spin_button_set_value, gtk_spin_button_new_with_range, clamp.
  cbn [spin_lower spin_upper spin_value]. f_equal.
  destruct (Z.ltb_spec upper value), (Z.ltb_spec value lower),
    (Z.ltb_spec upper (Z.max lower (Z.min upper value))),
    (Z.ltb_spec (Z.max lower (Z.min upper value)) lower); lia.
Qed.

(** X16. What Save writes is what the next start shows: after [main], a
    click on Save with no edit and a new start on the files as they are
    then, the settings are the ones that were saved and every widget shows
    what it showed. *)
Theorem save_then_restart (home : option string) (fs : gmap string string) :
  let app := main home fs in
  let r := on_save_clicked true fs app in
  let app2 := main home r.1.2 in
  same_settings (config r.2) (config app2) /\
  networks_entry app2 = networks_entry app /\
  nas_listbox app2 = nas_listbox app /\
  home_ac_spin app2 = home_ac_spin app /\
  home_battery_spin app2 = home_battery_spin app /\
  away_ac_spin app2 = away_ac_spin app /\
  away_battery_spin app2 = away_battery_spin app /\
  max_attempts_spin app2 = max_attempts_spin app /\
  min_battery_spin app2 = min_battery_spin app /\
  notifications_check app2 = notifications_check app.
Proof.
  cbn zeta.
  destruct (main_then_save_fields home fs)
    as (_ & Hfs & _ & F1 & F2 & F3 & F4 & F5 & F6 & F7 & F8 & F9 & F10 & _).
  cbn zeta in *.
  destruct (main_config home fs) as [Hcfg Hmain].
  set (c0 := init_config_path home zero_config) in *.
  assert (Hlen : length (nas_devices c0) = Z.to_nat MAX_NAS_DEVICES)
    by (unfold c0; by destruct home).
  pose proof (load_config_reloads fs c0 Hlen)
    as (Hok & (N1 & N2 & N3 & N4) & Hdev & _).
  pose proof (load_config_path fs c0 Hlen) as Hpath.
  rewrite <- Hcfg in Hok, N1, N2, N3, N4, Hdev, Hpath.
  set (c := config (main home fs)) in *.
  set (r := on_save_clicked true fs (main home fs)) in *.
  set (c' := config r.2) in *.
  assert (Hcp : config_path c' = config_path c /\
                nas_devices c' = nas_devices c).
  { unfold c', r. rewrite (proj1 (on_save_clicked_config true fs _)).
    split; reflexivity. }
  destruct Hcp as [Hcp Hnd].
  assert (Hentry : char_in LF (gtk_entry_set_text (home_networks c)) = false
                   /\ char_in NUL (gtk_entry_set_text (home_networks c)) = false
                   /\ skip_blanks (gtk_entry_set_text (home_networks c))
                      = gtk_entry_set_text (home_networks c)
                   /\ (String.length "home_networks="
                       + String.length (gtk_entry_set_text (home_networks c))
                       < MAX_LINE)%nat).
  { unfold gtk_entry_set_text.
    pose proof (string_take_length
                  (utf8_whole_bytes (strlen (home_networks c))
                     (home_networks c)) (home_networks c)).
    split; [by apply char_in_string_take|].
    split; [by apply char_in_string_take|].
    split; [by apply skip_blanks_string_take|]. lia. }
  destruct Hentry as (E1 & E2 & E3 & E4).
  assert (Hre : reloads c').
  { unfold reloads. rewrite F1, F2, F3, F4, F5, F6, F7, F10.
    split_assumptions; apply clamp_in_int_range; by vm_compute. }
  destruct (main_config home r.1.2) as [Hcfg2 Hmain2].
  fold c0 in Hcfg2, Hmain2.
  assert (Hload : (load_config r.1.2 c0).2
                  = (load_stream (write_config c') ("", set_defaults c0)).2).
  { rewrite Hfs. unfold load_config.
    rewrite <- Hpath, lookup_insert_eq. done. }
  destruct (load_written_config c' c0 Hre Hlen)
    as (L1 & L2 & L3 & L4 & L5 & L6 & L7 & L8 & L9 & L10 & L11 & L12).
  cbn zeta in *.
  set (c2 := config (main home r.1.2)) in *.
  assert (Hc2 : (load_stream (write_config c') ("", set_defaults c0)).2 = c2)
    by (rewrite Hcfg2; by rewrite Hload).
  rewrite Hc2 in L1, L2, L3, L4, L5, L6, L7, L8, L9, L10, L11, L12.
  assert (Hsame : same_settings c' c2).
  { repeat split; try done. congruence. }
  split; [exact Hsame|].
  rewrite Hmain2, Hmain. fold c0. rewrite <- Hcfg2, <- Hcfg. fold c2 c.
  unfold update_ui_from_config, create_ui, set_config.
  cbn [config networks_entry nas_listbox home_ac_spin home_battery_spin
       away_ac_spin away_battery_spin max_attempts_spin min_battery_spin
       notifications_check].
  rewrite L2, L3, L4, L5, L6, L7, L8, L9, F1, F2, F3, F4, F5, F6, F7, F8.
  rewrite gtk_entry_set_text_idem.
  rewrite !spin_set_value_clamped by done.
  assert (Hrows : forall k : Config,
             config_ok k ->
             list_box_rows (Z.to_nat (nas_count k)) 0 k = devices k).
  { intros k [Hk1 Hk2].
    rewrite (list_box_rows_devices _ 0 k); [done|lia|f_equal; lia|].
    rewrite Hk1. unfold MAX_NAS_DEVICES in *. lia. }
  rewrite (Hrows c2 L12), (Hrows c Hok), L11, F10. done.
Qed.

Lemma update_config_from_ui_idem (status : string) (app : AppData) :
  update_config_from_ui (set_status_label status (update_config_from_ui app))
  = set_status_label status (update_config_from_ui app).
Proof.
  destruct app as [entry rows s1 s2 s3 s4 s5 s6 chk label c].
  destruct c as [path nets devs count i1 i2 i3 i4 i5 i6 notif].
  generalize (MAX_LINE - 1)%nat. intros n.
  cbv beta iota zeta delta
    [update_config_from_ui set_status_label set_config
     set_home_networks set_home_ac_interval set_home_battery_interval
     set_away_ac_interval set_away_battery_interval set_max_failed_attempts
     set_min_battery_level set_enable_notifications
     gtk_spin_button_get_value_as_int
     config networks_entry nas_listbox home_ac_spin home_battery_spin
     away_ac_spin away_battery_spin max_attempts_spin min_battery_spin
     notifications_check status_label
     config_path home_networks nas_devices nas_count home_ac_interval
     home_battery_interval away_ac_interval away_battery_interval
     max_failed_attempts min_battery_level enable_notifications].
  reflexivity.
Qed.

Lemma on_save_clicked_true (fs : gmap string string) (app : AppData) :
  on_save_clicked true fs app
  = (true,
     <[config_path (config (update_config_from_ui app)) :=
         write_config (config (update_config_from_ui app))]> fs,
     set_status_label "Configuration saved successfully"
       (update_config_from_ui app)).
Proof. reflexivity. Qed.

(** X17. A second click on Save with nothing edited in between changes
    nothing: the file, the settings in memory and the widgets are what
    the first click left. *)
Theorem on_save_clicked_twice (fs : gmap string string) (app : AppData) :
  let r := on_save_clicked true fs app in
  on_save_clicked true r.1.2 r.2 = r.
Proof.
  cbn zeta. rewrite (on_save_clicked_true fs app). cbn [fst snd].
  rewrite on_save_clicked_true, update_config_from_ui_idem.
  generalize (update_config_from_ui app). intros app'.
  destruct app' as [entry rows s1 s2 s3 s4 s5 s6 chk label c].
  unfold set_status_label.
  cbn [config networks_entry nas_listbox home_ac_spin home_battery_spin
       away_ac_spin away_battery_spin max_attempts_spin min_battery_spin
       notifications_check status_label].
  generalize (write_config c), (config_path c). intros w p.
  by rewrite insert_insert_eq.
Qed.

(** X18. Restart Service touches the status label only: a click on Save
    after it writes the file that it would have written before, and keeps
    the same settings. *)
Theorem restart_keeps_saved_file (result : Z) (can_open : bool)
    (fs : gmap string string) (app : AppData) :
  (on_save_clicked can_open fs (on_restart_service_clicked result app)).1
  = (on_save_clicked can_open fs app).1 /\
  config (on_save_clicked can_open fs (on_restart_service_clicked result app)).2
  = config (on_save_clicked can_open fs app).2.
Proof.
  unfold on_restart_service_clicked.
  destruct (result =? 0)%Z, can_open; split; reflexivity.
Qed.
